(** * MyhealthVault: access control, cross-hospital sharing and the
      test-order workflow

    A shallow embedding of the backend's authorization middleware
    ([middleware/auth.js]), of the [HospitalSharing] and [TestOrder] models
    and of the route handlers that drive them
    ([routes/testOrder.routes.js], [routes/hospitalSharing.routes.js]).

    Conventions of the embedding.
    - A MongoDB collection addressed by [_id] is a [gmap] from the id to the
      document; the [HospitalSharing] collection, which the code only
      queries by field values ([findOne]), is the list of its documents in
      natural order.
    - An [ObjectId] is its 24-digit hexadecimal string, in the canonical
      form that [toString()] prints; [a.toString() === b.toString()] is
      equality of ids. Ids that a request carries in its path or body are
      taken in that form, except where a handler compares the string it
      received with a printed id and also hands it to a query: there the
      string is kept as sent and the query's cast is [castObjectId].
    - A [Date] is its number of milliseconds since the epoch; every function
      that evaluates [new Date()] takes the clock reading [now].
    - An Express middleware yields [Next] or answers with a response; a
      route handler yields the database after the request and the response.
      [await] is sequencing: one handler runs from its first read to its
      last write. *)

From stdpp Require Import gmap strings list fin_maps pretty.

Open Scope string_scope.

Abbreviation ObjectId := string (only parsing).
Abbreviation Time := Z (only parsing).

(** ** Strings cast to ObjectIds *)

Definition isHexDigit (c : Ascii.ascii) : bool :=
  let n := Ascii.nat_of_ascii c in
  Nat.leb 48 n && Nat.leb n 57 || Nat.leb 65 n && Nat.leb n 70
  || Nat.leb 97 n && Nat.leb n 102.

Definition toLowerCase (c : Ascii.ascii) : Ascii.ascii :=
  let n := Ascii.nat_of_ascii c in
  if Nat.leb 65 n && Nat.leb n 90 then Ascii.ascii_of_nat (n + 32) else c.

Fixpoint allHex (s : string) : bool :=
  match s with
  | EmptyString => true
  | String c rest => isHexDigit c && allHex rest
  end.

Fixpoint lowerCase (s : string) : string :=
  match s with
  | EmptyString => EmptyString
  | String c rest => String (toLowerCase c) (lowerCase rest)
  end.

(** The cast that Mongoose applies to a string given for an ObjectId path,
    in a query filter ([findById], [findOne]) or in a new document
    ([create]): 24 hexadecimal digits, in either case, are the id, which
    prints in lower case; another string is a [CastError] ([None]). The
    strings of 12 bytes that drivers before bson 6 also take for an id are
    counted among the latter. *)
Definition castObjectId (s : string) : option ObjectId :=
  if Nat.eqb (String.length s) 24 && allHex s then Some (lowerCase s) else None.

(** ** HTTP responses *)

(** [res.status(s).json({ error, message })] is [Fail s error message];
    [res.json({ message, data })] and [res.status(201).json(...)] are
    [Success] (the populated document sent back as [data] is read from the
    returned database). *)
Inductive Response :=
| Fail (status : nat) (error message : string)
| Success (status : nat) (message : string).

Definition statusCode (r : Response) : nat :=
  match r with
  | Fail s _ _ => s
  | Success s _ => s
  end.

Inductive Middleware :=
| Next
| Respond (r : Response).

#[global] Instance Response_eq_dec : EqDecision Response.
Proof. solve_decision. Defined.

#[global] Instance Middleware_eq_dec : EqDecision Middleware.
Proof. solve_decision. Defined.

(** ** models/HospitalSharing.js *)

Module HospitalSharing.

Inductive Status := pending | approved | rejected | revoked.

Inductive Scope := full | limited.

#[global] Instance Status_eq_dec : EqDecision Status.
Proof. solve_decision. Defined.

#[global] Instance Scope_eq_dec : EqDecision Scope.
Proof. solve_decision. Defined.

(** The columns that the modelled code reads or writes; the audit columns
    ([approvedBy], [approvedAt], [adminNotes], counters, permissions) are
    written by the super-admin routes only and read by none of the
    functions below. *)
Record t := mk {
  requestingHospitalId : ObjectId;
  targetHospitalId : ObjectId;
  status : Status;
  scope : Scope;
  specificPatients : list ObjectId;
  expiresAt : option Time;
  isActive : bool;
  requestReason : string;
  requestedBy : ObjectId;
  requestedAt : Time
}.

Definition statusName (s : Status) : string :=
  match s with
  | pending => "pending"
  | approved => "approved"
  | rejected => "rejected"
  | revoked => "revoked"
  end.

(** [virtual('isExpired')]:
    [if (!this.expiresAt) return false; return new Date() > this.expiresAt]. *)
Definition isExpired (now : Time) (r : t) : bool :=
  match expiresAt r with
  | None => false
  | Some e => bool_decide (e < now)%Z
  end.

(** [virtual('canAccess')] of one document. *)
Definition canAccessDoc (now : Time) (r : t) : bool :=
  bool_decide (status r = approved) && isActive r && negb (isExpired now r).

(** The filter of
    [findOne({ requestingHospitalId, targetHospitalId, status: 'approved', isActive: true })]. *)
Definition approvedFilter (a b : ObjectId) (r : t) : bool :=
  bool_decide (requestingHospitalId r = a)
  && bool_decide (targetHospitalId r = b)
  && bool_decide (status r = approved)
  && bool_decide (isActive r = true).

(** The filter of [findOne({ requestingHospitalId, targetHospitalId })]. *)
Definition pairFilter (a b : ObjectId) (r : t) : bool :=
  bool_decide (requestingHospitalId r = a)
  && bool_decide (targetHospitalId r = b).

(** [Model.findOne(filter)]: the first document that matches. *)
Definition findOne (filter : t → bool) (coll : list t) : option t :=
  List.find filter coll.

(** [statics.canAccess(requestingHospitalId, targetHospitalId)]. *)
Definition canAccess (now : Time) (coll : list t) (a b : ObjectId) : bool :=
  match findOne (approvedFilter a b) coll with
  | None => false
  | Some sharing => if isExpired now sharing then false else true
  end.

(** [pre('save')]: a grant that is past its expiry is deactivated. *)
Definition preSave (now : Time) (r : t) : t :=
  match expiresAt r with
  | Some e =>
      if bool_decide (e < now)%Z then
        mk (requestingHospitalId r) (targetHospitalId r) (status r) (scope r)
           (specificPatients r) (expiresAt r) false (requestReason r)
           (requestedBy r) (requestedAt r)
      else r
  | None => r
  end.

(** The compound unique index
    [{ requestingHospitalId: 1, targetHospitalId: 1 }, { unique: true }]. *)
Definition pairKey (r : t) : ObjectId * ObjectId :=
  (requestingHospitalId r, targetHospitalId r).

Definition uniqueIndex (coll : list t) : Prop :=
  NoDup (pairKey <$> coll).

(** The sentence of the specification, with the strict comparison it
    writes: a record for the ordered pair that is approved, active and
    either without expiry or with [now < expiresAt]. *)
Definition grantStrict (now : Time) (a b : ObjectId) (r : t) : Prop :=
  requestingHospitalId r = a ∧ targetHospitalId r = b
  ∧ status r = approved ∧ isActive r = true
  ∧ (expiresAt r = None ∨ ∃ e, expiresAt r = Some e ∧ (now < e)%Z).

(** The same with the comparison the code makes: a grant is expired only
    once the clock is past [expiresAt]. *)
Definition grant (now : Time) (a b : ObjectId) (r : t) : Prop :=
  requestingHospitalId r = a ∧ targetHospitalId r = b
  ∧ status r = approved ∧ isActive r = true
  ∧ (expiresAt r = None ∨ ∃ e, expiresAt r = Some e ∧ (now ≤ e)%Z).

End HospitalSharing.

(** ** models/Hospital.js *)

Module Hospital.

Module Approval.
Inductive t := pending | approved | rejected.
#[global] Instance Approval_eq_dec : EqDecision t.
Proof. solve_decision. Defined.
End Approval.

Module Subscription.
Inductive t := pending | active | suspended | expired.
#[global] Instance Subscription_eq_dec : EqDecision t.
Proof. solve_decision. Defined.
End Subscription.

Record t := mk {
  approvalStatus : Approval.t;
  subscriptionStatus : Subscription.t;
  allowCrossHospitalSharing : bool;
  isActive : bool
}.

(** [methods.canShareRecords]. *)
Definition canShareRecords (h : t) : bool :=
  bool_decide (approvalStatus h = Approval.approved)
  && bool_decide (subscriptionStatus h = Subscription.active)
  && allowCrossHospitalSharing h.

(** The tenant directory's [isUsable] in the specification's words:
    approved and subscription active. ([authenticate] makes these two tests
    on the hospital of the caller.) *)
Definition isUsable (h : t) : bool :=
  bool_decide (approvalStatus h = Approval.approved)
  && bool_decide (subscriptionStatus h = Subscription.active).

End Hospital.

(** ** models/User.model.js *)

Module User.

Inductive Role :=
| super_admin
| hospital_admin
| doctor
| nurse
| department_staff
| patient
| pending_approval.

#[global] Instance Role_eq_dec : EqDecision Role.
Proof. solve_decision. Defined.

Record t := mk {
  role : Role;
  hospitalId : option ObjectId;
  departmentId : option ObjectId;
  isActive : bool
}.

End User.

(** ** models/Department.js *)

Module Department.

Record t := mk {
  hospitalId : ObjectId;
  isActive : bool
}.

End Department.

(** ** models/TestOrder.js *)

Module TestOrder.

Inductive PaymentStatus := pending | paid | failed | refunded | waived.

Inductive PaymentMethod :=
| cash | card | insurance | bank_transfer | mobile_money.

Inductive Status :=
| ordered
| payment_pending
| payment_failed
| ready_for_test
| in_progress
| completed
| cancelled.

Inductive Urgency := routine | urgent | emergency.

#[global] Instance PaymentStatus_eq_dec : EqDecision PaymentStatus.
Proof. solve_decision. Defined.

#[global] Instance PaymentMethod_eq_dec : EqDecision PaymentMethod.
Proof. solve_decision. Defined.

#[global] Instance Status_eq_dec : EqDecision Status.
Proof. solve_decision. Defined.

#[global] Instance Urgency_eq_dec : EqDecision Urgency.
Proof. solve_decision. Defined.

(** The document. [paymentAmount] is the amount in the smallest currency
    unit (the schema only constrains it by [min: 0]). The cancellation
    columns and the notification flags are written by routes that are not
    modelled here. *)
Record t := mk {
  patientId : ObjectId;
  orderedBy : ObjectId;
  hospitalId : ObjectId;
  departmentId : ObjectId;
  testName : string;
  testType : string;
  urgency : Urgency;
  paymentRequired : bool;
  paymentAmount : Z;
  paymentStatus : PaymentStatus;
  paymentDate : option Time;
  paymentMethod : option PaymentMethod;
  paymentReference : option string;
  paidBy : option ObjectId;
  status : Status;
  result : option string;
  resultNotes : option string;
  resultFileUrl : option string;
  resultFileType : option string;
  normalRange : option string;
  abnormalFlag : option bool;
  resultUploadedBy : option ObjectId;
  resultUploadedAt : option Time;
  completedDate : option Time
}.

#[global] Instance t_eq_dec : EqDecision t.
Proof. solve_decision. Defined.

(** [this.status = s]. *)
Definition setStatus (s : Status) (o : t) : t :=
  mk (patientId o) (orderedBy o) (hospitalId o) (departmentId o)
     (testName o) (testType o) (urgency o)
     (paymentRequired o) (paymentAmount o) (paymentStatus o)
     (paymentDate o) (paymentMethod o) (paymentReference o) (paidBy o)
     s
     (result o) (resultNotes o) (resultFileUrl o) (resultFileType o)
     (normalRange o) (abnormalFlag o)
     (resultUploadedBy o) (resultUploadedAt o) (completedDate o).

(** [virtual('canUploadResult')]. *)
Definition canUploadResult (o : t) : bool :=
  (bool_decide (paymentStatus o = paid) || bool_decide (paymentStatus o = waived))
  && (bool_decide (status o = ready_for_test) || bool_decide (status o = in_progress)).

(** [pre('save')]. [modifiedPaymentStatus] is
    [this.isModified('paymentStatus')]. The hook's second test,
    [this.paymentRequired && !this.paymentStatus], reads a path that the
    schema default always fills, so it never fires on a document of [t]. *)
Definition preSave (modifiedPaymentStatus : bool) (o : t) : t :=
  if modifiedPaymentStatus && bool_decide (paymentStatus o = paid) then
    if bool_decide (status o = payment_pending) || bool_decide (status o = ordered)
    then setStatus ready_for_test o
    else o
  else o.

(** [this.save()] of a document loaded as [orig] and now holding [cur]:
    a path is modified when its value differs from the loaded one. *)
Definition save (orig cur : t) : t :=
  preSave (negb (bool_decide (paymentStatus orig = paymentStatus cur))) cur.

Record PaymentDetails := mkPayment {
  method : PaymentMethod;
  reference : string;
  payer : ObjectId
}.

(** [methods.markAsPaid(paymentDetails)]; [payer] is [paymentDetails.paidBy]. *)
Definition markAsPaid (now : Time) (d : PaymentDetails) (o : t) : t :=
  save o
    (mk (patientId o) (orderedBy o) (hospitalId o) (departmentId o)
        (testName o) (testType o) (urgency o)
        (paymentRequired o) (paymentAmount o)
        paid (Some now) (Some (method d)) (Some (reference d)) (Some (payer d))
        ready_for_test
        (result o) (resultNotes o) (resultFileUrl o) (resultFileType o)
        (normalRange o) (abnormalFlag o)
        (resultUploadedBy o) (resultUploadedAt o) (completedDate o)).

Record ResultData := mkResult {
  rd_result : string;
  rd_notes : option string;
  rd_fileUrl : option string;
  rd_fileType : option string;
  rd_normalRange : option string;
  rd_abnormalFlag : bool
}.

Inductive Error :=
| CannotUpload.   (* Error('Cannot upload result: Payment not confirmed') *)

(** [methods.uploadResult(resultData, uploadedBy)]: throws unless
    [canUploadResult]. *)
Definition uploadResult (now : Time) (d : ResultData) (uploadedBy : ObjectId)
    (o : t) : Error + t :=
  if negb (canUploadResult o) then inl CannotUpload
  else inr (save o
    (mk (patientId o) (orderedBy o) (hospitalId o) (departmentId o)
        (testName o) (testType o) (urgency o)
        (paymentRequired o) (paymentAmount o) (paymentStatus o)
        (paymentDate o) (paymentMethod o) (paymentReference o) (paidBy o)
        completed
        (Some (rd_result d)) (rd_notes d) (rd_fileUrl d) (rd_fileType d)
        (rd_normalRange d) (Some (rd_abnormalFlag d))
        (Some uploadedBy) (Some now) (Some now))).

(** Schema validation of a new document: [paymentAmount: { min: 0 }]
    (the enumerated paths are enumerations by type). *)
Definition validateSync (o : t) : bool :=
  bool_decide (0 ≤ paymentAmount o)%Z.

(** [Model.create(doc)]: validate, run the save hook on the new document
    (every path that was set counts as modified) and insert it under the
    fresh [_id]. *)
Definition create (newId : ObjectId) (o : t) (coll : gmap ObjectId t)
    : option (gmap ObjectId t) :=
  if validateSync o then Some (<[newId := preSave true o]> coll) else None.

End TestOrder.

(** ** The database *)

Record Db := mkDb {
  users : gmap ObjectId User.t;
  hospitals : gmap ObjectId Hospital.t;
  departments : gmap ObjectId Department.t;
  testOrders : gmap ObjectId TestOrder.t;
  hospitalSharings : list HospitalSharing.t
}.

Definition withTestOrders (db : Db) (c : gmap ObjectId TestOrder.t) : Db :=
  mkDb (users db) (hospitals db) (departments db) c (hospitalSharings db).

Definition withHospitalSharings (db : Db) (c : list HospitalSharing.t) : Db :=
  mkDb (users db) (hospitals db) (departments db) (testOrders db) c.

(** ** middleware/auth.js (the hospital-scoped version that the routes import) *)

Module Auth.

(** What the [Authorization] header holds once [jwt.verify] has run: no
    bearer token, a token that does not verify, or a verified token with
    its [userId] claim. *)
Inductive Credential :=
| NoHeader
| BadToken
| Token (userId : ObjectId).

(** The fields that [authenticate] attaches to the request. *)
Record Req := mkReq {
  user : User.t;
  userId : ObjectId;
  hospitalId : option ObjectId;
  departmentId : option ObjectId
}.

(** [.populate('hospitalId', ...)]: the referenced document, or [null]
    when the reference is unset or dangling. *)
Definition populateHospital (db : Db) (u : User.t) : option (ObjectId * Hospital.t) :=
  h ← User.hospitalId u; doc ← hospitals db !! h; Some (h, doc).

Definition populateDepartment (db : Db) (u : User.t) : option (ObjectId * Department.t) :=
  d ← User.departmentId u; doc ← departments db !! d; Some (d, doc).

Definition authenticate (db : Db) (c : Credential) : Response + Req :=
  match c with
  | NoHeader => inl (Fail 401 "Unauthorized" "No token provided")
  | BadToken => inl (Fail 401 "Unauthorized" "Invalid or expired token")
  | Token uid =>
      match users db !! uid with
      | None => inl (Fail 401 "Unauthorized" "User not found or inactive")
      | Some u =>
          if negb (User.isActive u) then
            inl (Fail 401 "Unauthorized" "User not found or inactive")
          else
            let hosp := populateHospital db u in
            let dept := populateDepartment db u in
            let req := mkReq u uid (fst <$> hosp) (fst <$> dept) in
            match hosp with
            | Some (_, h) =>
                if bool_decide (User.role u ≠ User.super_admin) then
                  if bool_decide (Hospital.approvalStatus h ≠ Hospital.Approval.approved) then
                    inl (Fail 403 "Forbidden" "Your hospital is not approved yet")
                  else if bool_decide (Hospital.subscriptionStatus h ≠ Hospital.Subscription.active) then
                    inl (Fail 403 "Forbidden" "Hospital subscription is not active")
                  else inr req
                else inr req
            | None => inr req
            end
      end
  end.

(** [roles.includes(req.user.role)]. *)
Definition includes (roles : list User.Role) (r : User.Role) : bool :=
  bool_decide (r ∈ roles).

Definition requireSuperAdmin (req : Req) : Middleware :=
  if bool_decide (User.role (user req) ≠ User.super_admin) then
    Respond (Fail 403 "Forbidden" "Super admin access required")
  else Next.

Definition requireHospitalAdmin (req : Req) : Middleware :=
  if negb (includes [User.super_admin; User.hospital_admin] (User.role (user req))) then
    Respond (Fail 403 "Forbidden" "Hospital admin access required")
  else Next.

Definition requireHealthcareWorker (req : Req) : Middleware :=
  if negb (includes [User.super_admin; User.hospital_admin; User.doctor; User.nurse]
             (User.role (user req))) then
    Respond (Fail 403 "Forbidden" "Healthcare worker access required")
  else Next.

Definition requireDepartmentStaff (req : Req) : Middleware :=
  if negb (includes [User.super_admin; User.hospital_admin; User.department_staff]
             (User.role (user req))) then
    Respond (Fail 403 "Forbidden" "Department staff access required")
  else Next.

Definition forbiddenPatientData : Response :=
  Fail 403 "Forbidden" "You do not have permission to access this patient data".

Definition forbiddenDepartmentStaff : Response :=
  Fail 403 "Forbidden" "Department staff cannot directly access patient records".

Definition accessCheckFailed : Response :=
  Fail 500 "Internal server error" "Failed to check patient access".

(** [canAccessPatient]. [patientId] is
    [req.params.patientId || req.body.patientId] ([None] when neither is
    set). Calling [.toString()] on a missing [hospitalId] throws, which the
    [catch] turns into the 500 answer. *)
Definition canAccessPatient (now : Time) (db : Db) (req : Req)
    (patientId : option ObjectId) : Middleware :=
  match patientId with
  | None => Respond (Fail 400 "Bad Request" "Patient ID is required")
  | Some pid =>
      match users db !! pid with
      | None => Respond (Fail 404 "Not Found" "Patient not found")
      | Some patient =>
          let role := User.role (user req) in
          if bool_decide (User.role patient ≠ User.patient) then
            Respond (Fail 404 "Not Found" "Patient not found")
          else if bool_decide (role = User.super_admin) then Next
          else if bool_decide (role = User.patient) && bool_decide (userId req = pid) then Next
          else if includes [User.hospital_admin; User.doctor; User.nurse] role then
            match hospitalId req, User.hospitalId patient with
            | Some mine, Some theirs =>
                if bool_decide (mine = theirs) then Next
                else if HospitalSharing.canAccess now (hospitalSharings db) mine theirs
                then Next
                else Respond forbiddenPatientData
            | _, _ => Respond accessCheckFailed
            end
          else if bool_decide (role = User.department_staff) then
            Respond forbiddenDepartmentStaff
          else Respond forbiddenPatientData
      end
  end.

End Auth.

(** ** middleware/validate.js *)

(** [validate] answers 400 when a validator of the chain has collected an
    error. *)
Definition validationError : Response :=
  Fail 400 "Validation error" "Please check your input".

(** A handler's [catch] answers 500 with [error.message]. These strings
    stand for the message of the [TypeError] that [undefined.toString()]
    throws and for the messages of a Mongoose [ValidationError] and
    [CastError]. *)
Definition typeErrorMessage : string :=
  "Cannot read properties of undefined (reading 'toString')".

Definition validationFailedMessage : string := "Validation failed".

Definition castErrorMessage : string := "Cast to ObjectId failed".

(** ** routes/testOrder.routes.js *)

Module TestOrderRoutes.

(** The body of [POST /api/test-orders]. A field checked by [notEmpty()]
    is [None] when it is missing or empty (after [trim()] where the chain
    trims); [paymentAmount] is [None] when [isNumeric()] fails;
    [paymentRequired] is [Some b] for the boolean [b] and [None] for
    anything else. *)
Record CreateBody := mkCreate {
  patientId : option ObjectId;
  departmentId : option ObjectId;
  testName : option string;
  testType : option string;
  urgency : option string;
  paymentAmount : option Z;
  paymentRequired : option bool
}.

(** The [urgency] enumeration of the schema. *)
Definition castUrgency (s : string) : option TestOrder.Urgency :=
  if bool_decide (s = "routine") then Some TestOrder.routine
  else if bool_decide (s = "urgent") then Some TestOrder.urgent
  else if bool_decide (s = "emergency") then Some TestOrder.emergency
  else None.

(** [paymentRequired !== false]. *)
Definition isPaymentRequired (b : CreateBody) : bool :=
  negb (bool_decide (paymentRequired b = Some false)).

(** The document passed to [TestOrder.create]. *)
Definition newOrder (req : Auth.Req) (hospital : ObjectId) (patient department : ObjectId)
    (name type : string) (u : TestOrder.Urgency) (amount : Z) (b : CreateBody)
    : TestOrder.t :=
  TestOrder.mk patient (Auth.userId req) hospital department name type u
    (isPaymentRequired b) amount
    (if isPaymentRequired b then TestOrder.pending else TestOrder.waived)
    None None None None
    (if isPaymentRequired b then TestOrder.payment_pending else TestOrder.ready_for_test)
    None None None None None None None None None.

(** [POST /api/test-orders]: [requireHealthcareWorker], the validation
    chain, [canAccessPatient], then the handler. [newId] is the [_id] that
    the driver gives the new document. *)
Definition createOrder (now : Time) (db : Db) (req : Auth.Req) (b : CreateBody)
    (newId : ObjectId) : Db * Response :=
  match Auth.requireHealthcareWorker req with
  | Respond r => (db, r)
  | Next =>
    match patientId b, departmentId b, testName b, testType b, paymentAmount b with
    | Some patient, Some dept, Some name, Some type, Some amount =>
      match Auth.canAccessPatient now db req (Some patient) with
      | Respond r => (db, r)
      | Next =>
        match departments db !! dept with
        | None => (db, Fail 404 "Not Found" "Department not found")
        | Some department =>
          match Auth.hospitalId req with
          | None => (db, Fail 500 "Creation failed" typeErrorMessage)
          | Some mine =>
            if bool_decide (Department.hospitalId department ≠ mine) then
              (db, Fail 400 "Invalid Department" "Department must belong to your hospital")
            else
              match castUrgency (default "routine" (urgency b)) with
              | None => (db, Fail 500 "Creation failed" validationFailedMessage)
              | Some u =>
                match TestOrder.create newId
                        (newOrder req mine patient dept name type u amount b)
                        (testOrders db) with
                | None => (db, Fail 500 "Creation failed" validationFailedMessage)
                | Some coll =>
                    (withTestOrders db coll,
                     Success 201 "Test order created successfully")
                end
              end
          end
        end
      end
    | _, _, _, _, _ => (db, validationError)
    end
  end.

(** [PUT /api/test-orders/:orderId/start]. *)
Definition start (db : Db) (req : Auth.Req) (orderId : ObjectId) : Db * Response :=
  match Auth.requireDepartmentStaff req with
  | Respond r => (db, r)
  | Next =>
    match testOrders db !! orderId with
    | None => (db, Fail 404 "Not Found" "Test order not found")
    | Some testOrder =>
      match Auth.departmentId req with
      | None => (db, Fail 500 "Failed to start test" typeErrorMessage)
      | Some mine =>
        if bool_decide (TestOrder.departmentId testOrder ≠ mine) then
          (db, Fail 403 "Forbidden" "You can only access tests for your department")
        else if bool_decide (TestOrder.paymentStatus testOrder ≠ TestOrder.paid)
                && bool_decide (TestOrder.paymentStatus testOrder ≠ TestOrder.waived) then
          (db, Fail 400 "Payment Required"
                 "Test cannot be started until payment is confirmed")
        else
          let saved :=
            TestOrder.save testOrder (TestOrder.setStatus TestOrder.in_progress testOrder) in
          (withTestOrders db (<[orderId := saved]> (testOrders db)),
           Success 200 "Test marked as in progress")
      end
    end
  end.

(** The file that [multer] accepted and stored: its generated name and
    [path.extname(filename).substring(1)]. *)
Record UploadedFile := mkFile {
  filename : string;
  extension : string
}.

(** The body of [PUT /:orderId/upload-result]; the optional text fields
    are [None] when missing or empty. *)
Record UploadBody := mkUpload {
  result : option string;
  resultNotes : option string;
  normalRange : option string;
  abnormalFlag : option string
}.

(** [isBoolean()] of express-validator. *)
Definition isBoolean (s : string) : bool :=
  bool_decide (s ∈ ["true"; "false"; "1"; "0"]).

Definition resultData (b : UploadBody) (file : option UploadedFile)
    : TestOrder.ResultData :=
  TestOrder.mkResult
    (default "See attached file" (result b))
    (resultNotes b)
    ((λ f, "/uploads/test-results/" +:+ filename f) <$> file)
    (extension <$> file)
    (normalRange b)
    (bool_decide (abnormalFlag b = Some "true")).

(** [PUT /api/test-orders/:orderId/upload-result]. *)
Definition uploadResult (now : Time) (db : Db) (req : Auth.Req) (orderId : ObjectId)
    (b : UploadBody) (file : option UploadedFile) : Db * Response :=
  match Auth.requireDepartmentStaff req with
  | Respond r => (db, r)
  | Next =>
    if negb (from_option isBoolean true (abnormalFlag b)) then (db, validationError)
    else
    match testOrders db !! orderId with
    | None => (db, Fail 404 "Not Found" "Test order not found")
    | Some testOrder =>
      match Auth.departmentId req with
      | None => (db, Fail 500 "Upload failed" typeErrorMessage)
      | Some mine =>
        if bool_decide (TestOrder.departmentId testOrder ≠ mine) then
          (db, Fail 403 "Forbidden" "You can only upload results for your department")
        else if negb (TestOrder.canUploadResult testOrder) then
          (db, Fail 400 "Cannot Upload"
                 "Payment must be confirmed before uploading results")
        else
          match TestOrder.uploadResult now (resultData b file) (Auth.userId req) testOrder with
          | inl _ =>
              (db, Fail 500 "Upload failed" "Cannot upload result: Payment not confirmed")
          | inr saved =>
              (withTestOrders db (<[orderId := saved]> (testOrders db)),
               Success 200 "Test result uploaded successfully")
          end
      end
    end
  end.

(** The body of [POST /:orderId/mark-paid]. *)
Record PayBody := mkPay {
  paymentMethod : string;
  paymentReference : option string
}.

(** [isIn(['cash', 'card', 'insurance', 'bank_transfer', 'mobile_money'])]. *)
Definition castMethod (s : string) : option TestOrder.PaymentMethod :=
  if bool_decide (s = "cash") then Some TestOrder.cash
  else if bool_decide (s = "card") then Some TestOrder.card
  else if bool_decide (s = "insurance") then Some TestOrder.insurance
  else if bool_decide (s = "bank_transfer") then Some TestOrder.bank_transfer
  else if bool_decide (s = "mobile_money") then Some TestOrder.mobile_money
  else None.

(** [POST /api/test-orders/:orderId/mark-paid]. *)
Definition markPaid (now : Time) (db : Db) (req : Auth.Req) (orderId : ObjectId)
    (b : PayBody) : Db * Response :=
  match castMethod (paymentMethod b) with
  | None => (db, validationError)
  | Some method =>
    match testOrders db !! orderId with
    | None => (db, Fail 404 "Not Found" "Test order not found")
    | Some testOrder =>
      let role := User.role (Auth.user req) in
      if bool_decide (role = User.patient)
         && bool_decide (TestOrder.patientId testOrder ≠ Auth.userId req) then
        (db, Fail 403 "Forbidden" "You can only pay for your own tests")
      else if bool_decide (role ≠ User.hospital_admin)
              && bool_decide (role ≠ User.patient) then
        (db, Fail 403 "Forbidden" "Insufficient permissions")
      else if bool_decide (TestOrder.paymentStatus testOrder = TestOrder.paid) then
        (db, Fail 400 "Already Paid" "This test has already been paid for")
      else
        let details :=
          TestOrder.mkPayment method
            (default ("PAY-" +:+ pretty now) (paymentReference b))
            (Auth.userId req) in
        (withTestOrders db
           (<[orderId := TestOrder.markAsPaid now details testOrder]> (testOrders db)),
         Success 200 "Payment confirmed successfully")
    end
  end.

End TestOrderRoutes.

(** ** routes/hospitalSharing.routes.js *)

Module HospitalSharingRoutes.

(** The body of [POST /api/hospital-sharing/request]. [targetHospitalId]
    is the string as the client sent it. *)
Record RequestBody := mkRequest {
  targetHospitalId : option string;
  requestReason : option string;
  scope : option string;
  specificPatients : option (list ObjectId)
}.

(** The [scope] enumeration of the schema. *)
Definition castScope (s : string) : option HospitalSharing.Scope :=
  if bool_decide (s = "full") then Some HospitalSharing.full
  else if bool_decide (s = "limited") then Some HospitalSharing.limited
  else None.

(** [POST /api/hospital-sharing/request]. The handler compares the string
    it received with the caller's printed hospital id, and then hands the
    same string to [Hospital.findById], [HospitalSharing.findOne] and
    [HospitalSharing.create], each of which casts it. *)
Definition request (now : Time) (db : Db) (req : Auth.Req) (b : RequestBody)
    : Db * Response :=
  match Auth.requireHospitalAdmin req with
  | Respond r => (db, r)
  | Next =>
    match targetHospitalId b, requestReason b with
    | Some sent, Some reason =>
      match Auth.hospitalId req with
      | None => (db, Fail 500 "Request failed" typeErrorMessage)
      | Some mine =>
        if bool_decide (sent = mine) then
          (db, Fail 400 "Invalid Request" "Cannot request sharing with your own hospital")
        else
          match castObjectId sent with
          | None => (db, Fail 500 "Request failed" castErrorMessage)
          | Some target =>
            match hospitals db !! target with
            | None => (db, Fail 404 "Not Found" "Target hospital not found")
            | Some targetHospital =>
              if bool_decide (Hospital.approvalStatus targetHospital
                              ≠ Hospital.Approval.approved) then
                (db, Fail 400 "Invalid Hospital" "Target hospital is not approved")
              else
                match HospitalSharing.findOne (HospitalSharing.pairFilter mine target)
                        (hospitalSharings db) with
                | Some existingRequest =>
                    (db, Fail 400 "Request Exists"
                           ("A sharing request already exists with status: "
                            +:+ HospitalSharing.statusName
                                  (HospitalSharing.status existingRequest)))
                | None =>
                    match castScope (default "full" (scope b)) with
                    | None => (db, Fail 500 "Request failed" validationFailedMessage)
                    | Some sc =>
                        let doc :=
                          HospitalSharing.mk mine target HospitalSharing.pending sc
                            (default [] (specificPatients b)) None true reason
                            (Auth.userId req) now in
                        (withHospitalSharings db
                             (hospitalSharings db ++ [HospitalSharing.preSave now doc]),
                         Success 201 "Sharing request submitted successfully")
                    end
                end
            end
          end
      end
    | _, _ => (db, validationError)
    end
  end.

End HospitalSharingRoutes.

(** * Fixtures: a small deployment used by the examples *)

Module Fixture.

Definition hospitalA : ObjectId := "65a1f0000000000000000a01".
Definition hospitalB : ObjectId := "65a1f0000000000000000b02".
Definition hospitalC : ObjectId := "65a1f0000000000000000c03".

Definition labA : ObjectId := "65a1f000000000000000da01".
Definition xrayA : ObjectId := "65a1f000000000000000da02".
Definition labB : ObjectId := "65a1f000000000000000db01".

Definition superAdmin : ObjectId := "65a1f00000000000000000f0".
Definition adminA : ObjectId := "65a1f00000000000000000a1".
Definition doctorA : ObjectId := "65a1f00000000000000000a2".
Definition labStaffA : ObjectId := "65a1f00000000000000000a4".
Definition xrayStaffA : ObjectId := "65a1f00000000000000000a5".
Definition patientA : ObjectId := "65a1f00000000000000000a6".
Definition patientB : ObjectId := "65a1f00000000000000000b6".

Definition order1 : ObjectId := "65a1f0000000000000007001".

Definition usable : Hospital.t :=
  Hospital.mk Hospital.Approval.approved Hospital.Subscription.active true true.

(** Approved, but with a suspended subscription. *)
Definition suspended : Hospital.t :=
  Hospital.mk Hospital.Approval.approved Hospital.Subscription.suspended true true.

Definition member (r : User.Role) (h : ObjectId) (d : option ObjectId) : User.t :=
  User.mk r (Some h) d true.

(** Hospitals A and B are usable, C is approved with a suspended
    subscription; A has a laboratory and an X-ray department, B a
    laboratory; there is no test order and no sharing record yet. *)
Definition db0 : Db :=
  mkDb
    (list_to_map
       [(superAdmin, User.mk User.super_admin None None true);
        (adminA, member User.hospital_admin hospitalA None);
        (doctorA, member User.doctor hospitalA None);
        (labStaffA, member User.department_staff hospitalA (Some labA));
        (xrayStaffA, member User.department_staff hospitalA (Some xrayA));
        (patientA, member User.patient hospitalA None);
        (patientB, member User.patient hospitalB None)])
    (list_to_map [(hospitalA, usable); (hospitalB, usable); (hospitalC, suspended)])
    (list_to_map
       [(labA, Department.mk hospitalA true);
        (xrayA, Department.mk hospitalA true);
        (labB, Department.mk hospitalB true)])
    ∅
    [].

(** The request of a user of [db0], as [authenticate] builds it. *)
Definition reqOf (uid : ObjectId) (r : User.Role) (h d : option ObjectId) : Auth.Req :=
  Auth.mkReq (User.mk r h d true) uid h d.

Definition reqSuperAdmin : Auth.Req := reqOf superAdmin User.super_admin None None.
Definition reqAdminA : Auth.Req := reqOf adminA User.hospital_admin (Some hospitalA) None.
Definition reqDoctorA : Auth.Req := reqOf doctorA User.doctor (Some hospitalA) None.
Definition reqLabStaffA : Auth.Req :=
  reqOf labStaffA User.department_staff (Some hospitalA) (Some labA).
Definition reqXrayStaffA : Auth.Req :=
  reqOf xrayStaffA User.department_staff (Some hospitalA) (Some xrayA).
Definition reqPatientB : Auth.Req := reqOf patientB User.patient (Some hospitalB) None.

(** A grant from hospital A to hospital B that lapses at time 100. *)
Definition grantAB : HospitalSharing.t :=
  HospitalSharing.mk hospitalA hospitalB HospitalSharing.approved
    HospitalSharing.full [] (Some 100%Z) true "referral network" adminA 0%Z.

(** A grant between two given hospitals, without expiry. *)
Definition openGrant (a b : ObjectId) : HospitalSharing.t :=
  HospitalSharing.mk a b HospitalSharing.approved
    HospitalSharing.full [] None true "referral network" adminA 0%Z.

(** [db0] after the super admin approved, without expiry, a request of
    hospital A for the records of hospital B. *)
Definition dbShared : Db := withHospitalSharings db0 [openGrant hospitalA hospitalB].

(** A blood count at the laboratory of A. *)
Definition bloodCount (patient : ObjectId) (required : option bool)
    : TestOrderRoutes.CreateBody :=
  TestOrderRoutes.mkCreate (Some patient) (Some labA) (Some "Full blood count")
    (Some "haematology") None (Some 2500%Z) required.

(** The same test, asked of the laboratory of B. *)
Definition bloodCountAtB (patient : ObjectId) : TestOrderRoutes.CreateBody :=
  TestOrderRoutes.mkCreate (Some patient) (Some labB) (Some "Full blood count")
    (Some "haematology") None (Some 2500%Z) None.

(** The order that [bloodCount patientA (Some false)] creates: payment
    waived, ready for the test. *)
Definition orderReady : TestOrder.t :=
  TestOrder.mk patientA doctorA hospitalA labA "Full blood count" "haematology"
    TestOrder.routine false 2500%Z TestOrder.waived None None None None
    TestOrder.ready_for_test None None None None None None None None None.

(** The order that [bloodCount patientA None] creates: payment pending. *)
Definition orderPending : TestOrder.t :=
  TestOrder.mk patientA doctorA hospitalA labA "Full blood count" "haematology"
    TestOrder.routine true 2500%Z TestOrder.pending None None None None
    TestOrder.payment_pending None None None None None None None None None.

Definition dbReady : Db := withTestOrders db0 {[ order1 := orderReady ]}.
Definition dbPending : Db := withTestOrders db0 {[ order1 := orderPending ]}.

Definition cashPayment : TestOrderRoutes.PayBody :=
  TestOrderRoutes.mkPay "cash" None.

Definition noResultFields : TestOrderRoutes.UploadBody :=
  TestOrderRoutes.mkUpload None None None None.

(** Hospital A asks for the records of a given hospital. *)
Definition askFor (target : ObjectId) : HospitalSharingRoutes.RequestBody :=
  HospitalSharingRoutes.mkRequest (Some target) (Some "second opinions") None None.

End Fixture.

(** * Further code of the cited files *)

(** ** middleware/auth.js: the remaining guards *)

Module AuthGuards.

(** A synchronous middleware without a [try] block either returns (having
    called [next] or answered) or throws. *)
Inductive Sync :=
| Returns (m : Middleware)
| Throws.

(** The [role] strings of the schema. *)
Definition roleName (r : User.Role) : string :=
  match r with
  | User.super_admin => "super_admin"
  | User.hospital_admin => "hospital_admin"
  | User.doctor => "doctor"
  | User.nurse => "nurse"
  | User.department_staff => "department_staff"
  | User.patient => "patient"
  | User.pending_approval => "pending_approval"
  end.

(** [requireSameHospital(hospitalIdParam)]; [requested] is
    [req.params[hospitalIdParam] || req.body[hospitalIdParam]]. *)
Definition requireSameHospital (req : Auth.Req) (requested : option ObjectId) : Sync :=
  if bool_decide (User.role (Auth.user req) = User.super_admin) then Returns Next
  else
    match requested with
    | None => Returns (Respond (Fail 400 "Bad Request" "Hospital ID is required"))
    | Some h =>
        match Auth.hospitalId req with
        | None => Throws
        | Some mine =>
            if bool_decide (mine ≠ h) then
              Returns (Respond (Fail 403 "Forbidden"
                                  "You can only access your own hospital data"))
            else Returns Next
        end
    end.

(** [requireSameDepartment(departmentIdParam)]. *)
Definition requireSameDepartment (req : Auth.Req) (requested : option ObjectId)
    : Middleware :=
  if Auth.includes [User.super_admin; User.hospital_admin] (User.role (Auth.user req))
  then Next
  else
    match requested with
    | None => Respond (Fail 400 "Bad Request" "Department ID is required")
    | Some d =>
        match Auth.departmentId req with
        | None =>
            Respond (Fail 403 "Forbidden" "You can only access your own department data")
        | Some mine =>
            if bool_decide (mine ≠ d) then
              Respond (Fail 403 "Forbidden" "You can only access your own department data")
            else Next
        end
    end.

Definition authenticationRequired : Response :=
  Fail 401 "Unauthorized" "Authentication required".

(** [requireRole(...roles)]; [req] is [None] when no user is attached to
    the request. *)
Definition requireRole (roles : list string) (req : option Auth.Req) : Middleware :=
  match req with
  | None => Respond authenticationRequired
  | Some r =>
      if negb (bool_decide (roleName (User.role (Auth.user r)) ∈ roles)) then
        Respond (Fail 403 "Forbidden"
                   ("Access denied. Required role: " +:+ String.concat " or " roles))
      else Next
  end.

(** [requirePatient]. *)
Definition requirePatient (req : option Auth.Req) : Middleware :=
  match req with
  | None => Respond authenticationRequired
  | Some r =>
      if bool_decide (User.role (Auth.user r) ≠ User.patient) then
        Respond (Fail 403 "Forbidden" "Access denied. Patient access required.")
      else Next
  end.

(** [canModifyPatientData]: [['doctor', 'admin'].includes(req.user.role)]. *)
Definition canModifyPatientData (req : option Auth.Req) : Middleware :=
  match req with
  | None => Respond authenticationRequired
  | Some r =>
      if negb (bool_decide (roleName (User.role (Auth.user r)) ∈ ["doctor"; "admin"])) then
        Respond (Fail 403 "Forbidden" "Only doctors can modify patient data")
      else Next
  end.

End AuthGuards.

(** ** models/User.model.js: the hospital methods *)

Module UserMethods.

(** What the [hospitalId] path of a loaded user document holds: nothing
    (the path is unset, or [null] after a [populate] that found no
    hospital), the stored id, or, after [populate('hospitalId')], the
    hospital document. *)
Inductive HospitalPath :=
| Unset
| Id (h : ObjectId)
| Document (h : ObjectId) (doc : Hospital.t).

(** A loaded user document, as far as the two methods read it. *)
Record Loaded := mkLoaded {
  role : User.Role;
  hospitalId : HospitalPath
}.

(** [User.findById(id)], with no [populate]. *)
Definition findById (db : Db) (id : ObjectId) : option Loaded :=
  u ← users db !! id;
  Some (mkLoaded (User.role u) (from_option Id Unset (User.hospitalId u))).

(** The document that [authenticate] loads with [populate('hospitalId')]
    and attaches to the request as [req.user]. *)
Definition populated (db : Db) (u : User.t) : Loaded :=
  mkLoaded (User.role u)
    match Auth.populateHospital db u with
    | Some (h, doc) => Document h doc
    | None => Unset
    end.

(** [methods.belongsToHospital(hospitalId)], as a truth value:
    [this.hospitalId && this.hospitalId.toString() === hospitalId.toString()].
    A populated hospital document prints as its fields, never as an id. *)
Definition belongsToHospital (this : Loaded) (hospital : ObjectId) : bool :=
  match hospitalId this with
  | Unset => false
  | Id mine => bool_decide (mine = hospital)
  | Document _ _ => false
  end.

(** [methods.canAccessPatientRecords(patientHospitalId)]. *)
Definition canAccessPatientRecords (this : Loaded) (patientHospitalId : ObjectId)
    : bool :=
  if bool_decide (role this = User.super_admin) then true
  else if Auth.includes [User.hospital_admin; User.doctor; User.nurse] (role this)
  then belongsToHospital this patientHospitalId
  else false.

End UserMethods.

(** ** Answers of the read routes *)

(** A read route either refuses or sends [data] ([count], where the route
    sends one, is the length of the data). *)
Inductive Reply (A : Type) :=
| Refused (r : Response)
| Sent (data : A).

Arguments Refused {A} r.
Arguments Sent {A} data.

(** ** models/HospitalSharing.js: the super-admin methods *)

Module SharingRecords.

(** The columns that the super-admin methods and [recordAccess] write,
    beside the columns of [HospitalSharing.t]. *)
Record Audit := mkAudit {
  approvedBy : option ObjectId;
  approvedAt : option Time;
  rejectedAt : option Time;
  revokedAt : option Time;
  rejectionReason : option string;
  revocationReason : option string;
  adminNotes : option string;
  lastAccessedAt : option Time;
  accessCount : nat
}.

(** The audit columns of a new document: only [accessCount] has a default. *)
Definition noAudit : Audit :=
  mkAudit None None None None None None None None 0.

Record Doc := mkDoc {
  core : HospitalSharing.t;
  audit : Audit
}.

Definition setStatus (s : HospitalSharing.Status) (r : HospitalSharing.t)
    : HospitalSharing.t :=
  HospitalSharing.mk (HospitalSharing.requestingHospitalId r)
    (HospitalSharing.targetHospitalId r) s (HospitalSharing.scope r)
    (HospitalSharing.specificPatients r) (HospitalSharing.expiresAt r)
    (HospitalSharing.isActive r) (HospitalSharing.requestReason r)
    (HospitalSharing.requestedBy r) (HospitalSharing.requestedAt r).

Definition setIsActive (b : bool) (r : HospitalSharing.t) : HospitalSharing.t :=
  HospitalSharing.mk (HospitalSharing.requestingHospitalId r)
    (HospitalSharing.targetHospitalId r) (HospitalSharing.status r)
    (HospitalSharing.scope r) (HospitalSharing.specificPatients r)
    (HospitalSharing.expiresAt r) b (HospitalSharing.requestReason r)
    (HospitalSharing.requestedBy r) (HospitalSharing.requestedAt r).

Definition setExpiresAt (e : option Time) (r : HospitalSharing.t) : HospitalSharing.t :=
  HospitalSharing.mk (HospitalSharing.requestingHospitalId r)
    (HospitalSharing.targetHospitalId r) (HospitalSharing.status r)
    (HospitalSharing.scope r) (HospitalSharing.specificPatients r)
    e (HospitalSharing.isActive r) (HospitalSharing.requestReason r)
    (HospitalSharing.requestedBy r) (HospitalSharing.requestedAt r).

(** [this.save()]: the pre-save hook, then the write. *)
Definition save (now : Time) (d : Doc) : Doc :=
  mkDoc (HospitalSharing.preSave now (core d)) (audit d).

(** [methods.approve(superAdminId, notes)]. *)
Definition approve (now : Time) (superAdminId : ObjectId) (notes : option string)
    (d : Doc) : Doc :=
  let a := audit d in
  save now
    (mkDoc (setStatus HospitalSharing.approved (core d))
       (mkAudit (Some superAdminId) (Some now) (rejectedAt a) (revokedAt a)
          (rejectionReason a) (revocationReason a) notes
          (lastAccessedAt a) (accessCount a))).

(** [methods.reject(superAdminId, reason)]. *)
Definition reject (now : Time) (superAdminId : ObjectId) (reason : string)
    (d : Doc) : Doc :=
  let a := audit d in
  save now
    (mkDoc (setStatus HospitalSharing.rejected (core d))
       (mkAudit (Some superAdminId) (approvedAt a) (Some now) (revokedAt a)
          (Some reason) (revocationReason a) (adminNotes a)
          (lastAccessedAt a) (accessCount a))).

(** [methods.revoke(superAdminId, reason)]. *)
Definition revoke (now : Time) (superAdminId : ObjectId) (reason : string)
    (d : Doc) : Doc :=
  let a := audit d in
  save now
    (mkDoc (setIsActive false (setStatus HospitalSharing.revoked (core d)))
       (mkAudit (approvedBy a) (approvedAt a) (rejectedAt a) (Some now)
          (rejectionReason a) (Some reason) (adminNotes a)
          (lastAccessedAt a) (accessCount a))).

(** [methods.recordAccess()]. *)
Definition recordAccess (now : Time) (d : Doc) : Doc :=
  let a := audit d in
  save now
    (mkDoc (core d)
       (mkAudit (approvedBy a) (approvedAt a) (rejectedAt a) (revokedAt a)
          (rejectionReason a) (revocationReason a) (adminNotes a)
          (Some now) (accessCount a + 1))).

(** The collection with its [_id]s, in natural order. *)
Abbreviation Coll := (list (ObjectId * Doc)) (only parsing).

(** [Model.findById(id)]. *)
Definition findById (id : ObjectId) (coll : Coll) : option Doc :=
  snd <$> List.find (λ e, bool_decide (e.1 = id)) coll.

(** The write of [doc.save()]: the document stored under [id] is replaced. *)
Definition store (id : ObjectId) (d : Doc) (coll : Coll) : Coll :=
  (λ e, if bool_decide (e.1 = id) then (id, d) else e) <$> coll.

(** [doc.deleteOne()]. *)
Definition deleteOne (id : ObjectId) (coll : Coll) : Coll :=
  List.filter (λ e, negb (bool_decide (e.1 = id))) coll.

(** The documents as the queries of [HospitalSharing] see them. *)
Definition cores (coll : Coll) : list HospitalSharing.t :=
  (λ e, core e.2) <$> coll.

(** [_id] is unique. *)
Definition uniqueIds (coll : Coll) : Prop := NoDup (fst <$> coll).

End SharingRecords.

(** ** routes/hospitalSharing.routes.js: the remaining routes *)

Module SharingAdminRoutes.

(** [body('expiresAt').optional().isISO8601()]: absent, not a date, or the
    date that [new Date(expiresAt)] reads. *)
Inductive ExpiryField :=
| NoExpiry
| BadDate
| ExpiresOn (t : Time).

#[global] Instance ExpiryField_eq_dec : EqDecision ExpiryField.
Proof. solve_decision. Defined.

Record ApproveBody := mkApprove {
  expiresAt : ExpiryField;
  notes : option string
}.

(** The message of the [TypeError] of [null.canShareRecords()]. *)
Definition nullHospitalMessage : string :=
  "Cannot read properties of null (reading 'canShareRecords')".

(** [POST /api/hospital-sharing/:sharingId/approve]. *)
Definition approve (now : Time) (hospitals : gmap ObjectId Hospital.t)
    (coll : SharingRecords.Coll) (req : Auth.Req) (sharingId : ObjectId)
    (b : ApproveBody) : SharingRecords.Coll * Response :=
  match Auth.requireSuperAdmin req with
  | Respond r => (coll, r)
  | Next =>
    if bool_decide (expiresAt b = BadDate) then (coll, validationError)
    else
    match SharingRecords.findById sharingId coll with
    | None => (coll, Fail 404 "Not Found" "Sharing request not found")
    | Some sharing =>
      let doc := SharingRecords.core sharing in
      if bool_decide (HospitalSharing.status doc ≠ HospitalSharing.pending) then
        (coll, Fail 400 "Invalid Status" "Only pending requests can be approved")
      else
        let refused :=
          (coll, Fail 400 "Invalid Hospitals"
                   "Both hospitals must be approved and have active subscriptions") in
        let thrown := (coll, Fail 500 "Approval failed" nullHospitalMessage) in
        match hospitals !! HospitalSharing.requestingHospitalId doc with
        | None => thrown
        | Some requestingHospital =>
          if negb (Hospital.canShareRecords requestingHospital) then refused
          else
            match hospitals !! HospitalSharing.targetHospitalId doc with
            | None => thrown
            | Some targetHospital =>
              if negb (Hospital.canShareRecords targetHospital) then refused
              else
                let approved := SharingRecords.approve now (Auth.userId req) (notes b) sharing in
                let saved :=
                  match expiresAt b with
                  | ExpiresOn t =>
                      SharingRecords.save now
                        (SharingRecords.mkDoc
                           (SharingRecords.setExpiresAt (Some t) (SharingRecords.core approved))
                           (SharingRecords.audit approved))
                  | _ => approved
                  end in
                (SharingRecords.store sharingId saved coll,
                 Success 200 "Sharing request approved")
            end
        end
    end
  end.

(** [POST /api/hospital-sharing/:sharingId/reject]; [reason] is [None]
    when it is missing or empty after [trim()]. *)
Definition reject (now : Time) (coll : SharingRecords.Coll) (req : Auth.Req)
    (sharingId : ObjectId) (reason : option string) : SharingRecords.Coll * Response :=
  match Auth.requireSuperAdmin req with
  | Respond r => (coll, r)
  | Next =>
    match reason with
    | None => (coll, validationError)
    | Some why =>
      match SharingRecords.findById sharingId coll with
      | None => (coll, Fail 404 "Not Found" "Sharing request not found")
      | Some sharing =>
        if bool_decide (HospitalSharing.status (SharingRecords.core sharing)
                        ≠ HospitalSharing.pending) then
          (coll, Fail 400 "Invalid Status" "Only pending requests can be rejected")
        else
          (SharingRecords.store sharingId
             (SharingRecords.reject now (Auth.userId req) why sharing) coll,
           Success 200 "Sharing request rejected")
      end
    end
  end.

(** [POST /api/hospital-sharing/:sharingId/revoke]. *)
Definition revoke (now : Time) (coll : SharingRecords.Coll) (req : Auth.Req)
    (sharingId : ObjectId) (reason : option string) : SharingRecords.Coll * Response :=
  match Auth.requireSuperAdmin req with
  | Respond r => (coll, r)
  | Next =>
    match reason with
    | None => (coll, validationError)
    | Some why =>
      match SharingRecords.findById sharingId coll with
      | None => (coll, Fail 404 "Not Found" "Sharing not found")
      | Some sharing =>
        if bool_decide (HospitalSharing.status (SharingRecords.core sharing)
                        ≠ HospitalSharing.approved) then
          (coll, Fail 400 "Invalid Status" "Only approved sharing can be revoked")
        else
          (SharingRecords.store sharingId
             (SharingRecords.revoke now (Auth.userId req) why sharing) coll,
           Success 200 "Sharing revoked successfully")
      end
    end
  end.

(** [DELETE /api/hospital-sharing/:sharingId]. *)
Definition cancel (coll : SharingRecords.Coll) (req : Auth.Req) (sharingId : ObjectId)
    : SharingRecords.Coll * Response :=
  match Auth.requireHospitalAdmin req with
  | Respond r => (coll, r)
  | Next =>
    match SharingRecords.findById sharingId coll with
    | None => (coll, Fail 404 "Not Found" "Sharing request not found")
    | Some sharing =>
      match Auth.hospitalId req with
      | None => (coll, Fail 500 "Cancellation failed" typeErrorMessage)
      | Some mine =>
        if bool_decide (HospitalSharing.requestingHospitalId (SharingRecords.core sharing)
                        ≠ mine) then
          (coll, Fail 403 "Forbidden" "You can only cancel your own requests")
        else if bool_decide (HospitalSharing.status (SharingRecords.core sharing)
                             ≠ HospitalSharing.pending) then
          (coll, Fail 400 "Invalid Status" "Can only cancel pending requests")
        else
          (SharingRecords.deleteOne sharingId coll, Success 200 "Sharing request cancelled")
      end
    end
  end.

(** The filter of
    [find({ requestingHospitalId, status: 'approved', isActive: true })]. *)
Definition approvedFrom (a : ObjectId) (r : HospitalSharing.t) : bool :=
  bool_decide (HospitalSharing.requestingHospitalId r = a)
  && bool_decide (HospitalSharing.status r = HospitalSharing.approved)
  && bool_decide (HospitalSharing.isActive r = true).

(** [GET /api/hospital-sharing/accessible-hospitals]: the populated
    [targetHospitalId] of every unexpired approved grant of the caller's
    hospital ([null], here [None], for a dangling reference). *)
Definition accessibleHospitals (now : Time) (db : Db) (req : Auth.Req)
    : Reply (list (option (ObjectId * Hospital.t))) :=
  match Auth.hospitalId req with
  | None => Refused (Fail 400 "Bad Request" "Hospital ID not found")
  | Some mine =>
      let approvedSharing := List.filter (approvedFrom mine) (hospitalSharings db) in
      Sent ((λ sharing,
               let target := HospitalSharing.targetHospitalId sharing in
               (λ doc, (target, doc)) <$> hospitals db !! target)
            <$> List.filter (λ sharing, negb (HospitalSharing.isExpired now sharing))
                  approvedSharing)
  end.

End SharingAdminRoutes.

(** ** The main router: the cross-hospital helper *)

(** [canAccessCrossHospital(userHospitalId, patientHospitalId)]; [None]
    when [.toString()] is called on a missing id and throws. *)
Definition canAccessCrossHospital (now : Time) (coll : list HospitalSharing.t)
    (userHospitalId patientHospitalId : option ObjectId) : option bool :=
  match userHospitalId, patientHospitalId with
  | Some mine, Some theirs =>
      if bool_decide (mine = theirs) then Some true
      else Some (HospitalSharing.canAccess now coll mine theirs)
  | _, _ => None
  end.

(** ** models/TestOrder.js: the queries, the indicator and cancellation *)

Module TestOrderQueries.

(** [virtual('paymentStatusIndicator')]. *)
Definition paymentStatusIndicator (o : TestOrder.t) : string :=
  if bool_decide (TestOrder.paymentStatus o = TestOrder.paid) then "green"
  else if bool_decide (TestOrder.paymentStatus o = TestOrder.failed) then "red"
  else "yellow".

(** The documents that [statics.findPendingForDepartment(departmentId)]
    selects. (The answer lists them by [orderedDate], a column that is not
    among those of [TestOrder.t]; the selection is what is modelled.) *)
Definition findPendingForDepartment (departmentId : ObjectId)
    (coll : gmap ObjectId TestOrder.t) : gmap ObjectId TestOrder.t :=
  filter (λ e, TestOrder.departmentId e.2 = departmentId
               ∧ TestOrder.status e.2 = TestOrder.payment_pending
               ∧ TestOrder.paymentStatus e.2 = TestOrder.pending) coll.

(** The documents that [statics.findReadyForUpload(departmentId)] selects:
    [paymentStatus: 'paid'] and [status] in
    [['ready_for_test', 'in_progress']]. *)
Definition findReadyForUpload (departmentId : ObjectId)
    (coll : gmap ObjectId TestOrder.t) : gmap ObjectId TestOrder.t :=
  filter (λ e, TestOrder.departmentId e.2 = departmentId
               ∧ TestOrder.paymentStatus e.2 = TestOrder.paid
               ∧ TestOrder.status e.2 ∈ [TestOrder.ready_for_test; TestOrder.in_progress])
    coll.

(** The three columns that [cancelOrder] writes beside [status]. *)
Record Cancellation := mkCancellation {
  cancelledDate : Time;
  cancelledBy : ObjectId;
  cancellationReason : string
}.

(** [methods.cancelOrder(userId, reason)]: the saved document and its
    cancellation columns. *)
Definition cancelOrder (now : Time) (userId : ObjectId) (reason : string)
    (o : TestOrder.t) : TestOrder.t * Cancellation :=
  (TestOrder.save o (TestOrder.setStatus TestOrder.cancelled o),
   mkCancellation now userId reason).

End TestOrderQueries.

(** ** routes/testOrder.routes.js: the remaining routes *)

Module TestOrderReads.

(** The message of the [TypeError] of reading [_id] of a reference that
    [populate] left [null]. *)
Definition nullReferenceMessage : string :=
  "Cannot read properties of null (reading '_id')".

(** [GET /api/test-orders/:orderId]. A populated path is [null] when the
    referenced document is gone; the access test reads the paths from left
    to right and stops at the first disjunct that holds. *)
Definition getOrder (db : Db) (req : Auth.Req) (orderId : ObjectId)
    : Reply TestOrder.t :=
  match testOrders db !! orderId with
  | None => Refused (Fail 404 "Not Found" "Test order not found")
  | Some testOrder =>
    let role := User.role (Auth.user req) in
    let thrown := Refused (Fail 500 "Failed to fetch test order" nullReferenceMessage) in
    let forbidden :=
      Refused (Fail 403 "Forbidden"
                 "You do not have permission to view this test order") in
    if bool_decide (role = User.super_admin) || bool_decide (role = User.hospital_admin)
    then Sent testOrder
    else
      match users db !! TestOrder.orderedBy testOrder with
      | None => thrown
      | Some _ =>
        if bool_decide (TestOrder.orderedBy testOrder = Auth.userId req) then Sent testOrder
        else
          match users db !! TestOrder.patientId testOrder with
          | None => thrown
          | Some _ =>
            if bool_decide (TestOrder.patientId testOrder = Auth.userId req)
            then Sent testOrder
            else if bool_decide (role = User.department_staff) then
              match departments db !! TestOrder.departmentId testOrder with
              | None => thrown
              | Some _ =>
                match Auth.departmentId req with
                | None =>
                    Refused (Fail 500 "Failed to fetch test order" typeErrorMessage)
                | Some mine =>
                    if bool_decide (TestOrder.departmentId testOrder = mine)
                    then Sent testOrder
                    else forbidden
                end
              end
            else forbidden
          end
      end
  end.

Definition departmentIdNotFound : Response :=
  Fail 400 "Bad Request" "Department ID not found".

(** [GET /api/test-orders/department/pending]. *)
Definition departmentPending (db : Db) (req : Auth.Req)
    : Reply (gmap ObjectId TestOrder.t) :=
  match Auth.requireDepartmentStaff req with
  | Respond r => Refused r
  | Next =>
    match Auth.departmentId req with
    | None => Refused departmentIdNotFound
    | Some mine => Sent (TestOrderQueries.findPendingForDepartment mine (testOrders db))
    end
  end.

(** [GET /api/test-orders/department/ready]. *)
Definition departmentReady (db : Db) (req : Auth.Req)
    : Reply (gmap ObjectId TestOrder.t) :=
  match Auth.requireDepartmentStaff req with
  | Respond r => Refused r
  | Next =>
    match Auth.departmentId req with
    | None => Refused departmentIdNotFound
    | Some mine => Sent (TestOrderQueries.findReadyForUpload mine (testOrders db))
    end
  end.

End TestOrderReads.

(** ** The test-order collection with its cancellation columns *)

Module Workflow.

(** The database together with the cancellation columns of its test
    orders, kept by [_id]. *)
Record State := mkState {
  db : Db;
  cancellations : gmap ObjectId TestOrderQueries.Cancellation
}.

(** [PUT /api/test-orders/:orderId/cancel]; [reason] is [None] when it is
    missing or empty after [trim()]. *)
Definition cancel (now : Time) (st : State) (req : Auth.Req) (orderId : ObjectId)
    (reason : option string) : State * Response :=
  match Auth.requireHealthcareWorker req with
  | Respond r => (st, r)
  | Next =>
    match reason with
    | None => (st, validationError)
    | Some why =>
      match testOrders (db st) !! orderId with
      | None => (st, Fail 404 "Not Found" "Test order not found")
      | Some testOrder =>
        if bool_decide (TestOrder.orderedBy testOrder ≠ Auth.userId req)
           && bool_decide (User.role (Auth.user req) ≠ User.hospital_admin) then
          (st, Fail 403 "Forbidden" "You can only cancel your own orders")
        else if bool_decide (TestOrder.status testOrder = TestOrder.completed) then
          (st, Fail 400 "Invalid Status" "Cannot cancel completed test")
        else
          let '(saved, columns) :=
            TestOrderQueries.cancelOrder now (Auth.userId req) why testOrder in
          (mkState (withTestOrders (db st) (<[orderId := saved]> (testOrders (db st))))
                   (<[orderId := columns]> (cancellations st)),
           Success 200 "Test order cancelled")
      end
    end
  end.

(** The requests that change a test order. *)
Inductive Request :=
| Create (req : Auth.Req) (b : TestOrderRoutes.CreateBody) (newId : ObjectId)
| Start (req : Auth.Req) (orderId : ObjectId)
| Upload (req : Auth.Req) (orderId : ObjectId) (b : TestOrderRoutes.UploadBody)
    (file : option TestOrderRoutes.UploadedFile)
| MarkPaid (req : Auth.Req) (orderId : ObjectId) (b : TestOrderRoutes.PayBody)
| Cancel (req : Auth.Req) (orderId : ObjectId) (reason : option string).

Definition onDb (st : State) (r : Db * Response) : State * Response :=
  (mkState r.1 (cancellations st), r.2).

(** One request, served at time [now]. *)
Definition serve (st : State) (timed : Time * Request) : State * Response :=
  let now := timed.1 in
  match timed.2 with
  | Create req b newId => onDb st (TestOrderRoutes.createOrder now (db st) req b newId)
  | Start req orderId => onDb st (TestOrderRoutes.start (db st) req orderId)
  | Upload req orderId b file =>
      onDb st (TestOrderRoutes.uploadResult now (db st) req orderId b file)
  | MarkPaid req orderId b => onDb st (TestOrderRoutes.markPaid now (db st) req orderId b)
  | Cancel req orderId reason => cancel now st req orderId reason
  end.

(** The state after a sequence of requests, served one after the other. *)
Definition run (st : State) (requests : list (Time * Request)) : State :=
  foldl (λ s timed, (serve s timed).1) st requests.

(** The [_id] a request is about. *)
Definition addressed (r : Request) : ObjectId :=
  match r with
  | Create _ _ newId => newId
  | Start _ orderId => orderId
  | Upload _ orderId _ _ => orderId
  | MarkPaid _ orderId _ => orderId
  | Cancel _ orderId _ => orderId
  end.

(** The writes of the five routes: [Written r old new] when the route that
    serves [r], having found [old] under the [_id] that [r] addresses,
    stores [new] there. *)
Inductive Written : Request → option TestOrder.t → TestOrder.t → Prop :=
| written_create req b newId old hospital patient department name type u amount :
    Written (Create req b newId) old
      (TestOrderRoutes.newOrder req hospital patient department name type u amount b)
| written_start req orderId o :
    TestOrder.paymentStatus o = TestOrder.paid
    ∨ TestOrder.paymentStatus o = TestOrder.waived →
    Written (Start req orderId) (Some o) (TestOrder.setStatus TestOrder.in_progress o)
| written_upload req orderId b file now d uploadedBy o o' :
    TestOrder.uploadResult now d uploadedBy o = inr o' →
    Written (Upload req orderId b file) (Some o) o'
| written_paid req orderId b now d o :
    TestOrder.paymentStatus o ≠ TestOrder.paid →
    Written (MarkPaid req orderId b) (Some o) (TestOrder.markAsPaid now d o)
| written_cancel req orderId reason o :
    TestOrder.status o ≠ TestOrder.completed →
    Written (Cancel req orderId reason) (Some o)
      (TestOrder.setStatus TestOrder.cancelled o).

(** A property of every stored test order. *)
Definition everyOrder (P : TestOrder.t → Prop) (st : State) : Prop :=
  ∀ id o, testOrders (db st) !! id = Some o → P o.

(** Payment comes first: an order that is ready for the test, in progress
    or completed has its payment paid or waived. *)
Definition paymentSettled (o : TestOrder.t) : Prop :=
  TestOrder.status o ∈ [TestOrder.ready_for_test; TestOrder.in_progress; TestOrder.completed] →
  TestOrder.paymentStatus o ∈ [TestOrder.paid; TestOrder.waived].

(** A completed order carries its result and who uploaded it; a paid order
    carries its payment details. *)
Definition wellRecorded (o : TestOrder.t) : Prop :=
  (TestOrder.status o = TestOrder.completed →
   is_Some (TestOrder.result o) ∧ is_Some (TestOrder.resultUploadedBy o)
   ∧ is_Some (TestOrder.resultUploadedAt o) ∧ is_Some (TestOrder.completedDate o))
  ∧ (TestOrder.paymentStatus o = TestOrder.paid →
     is_Some (TestOrder.paymentDate o) ∧ is_Some (TestOrder.paymentMethod o)
     ∧ is_Some (TestOrder.paymentReference o) ∧ is_Some (TestOrder.paidBy o)).

(** The values of the two status columns that the routes write. *)
Definition routeValues (o : TestOrder.t) : Prop :=
  TestOrder.paymentStatus o ∈ [TestOrder.pending; TestOrder.paid; TestOrder.waived]
  ∧ TestOrder.status o ∈ [TestOrder.payment_pending; TestOrder.ready_for_test;
                          TestOrder.in_progress; TestOrder.completed;
                          TestOrder.cancelled].

End Workflow.

(** * Scenario: the sharing ledger of the fixture, with its ids *)

Module Scenario.

Definition sharing1 : ObjectId := "65a1f0000000000000005001".

(** The record that the admin of hospital A creates at time 1000 by asking
    for the records of hospital B. *)
Definition pendingAB : SharingRecords.Doc :=
  SharingRecords.mkDoc
    (HospitalSharing.mk Fixture.hospitalA Fixture.hospitalB HospitalSharing.pending
       HospitalSharing.full [] None true "second opinions" Fixture.adminA 1000%Z)
    SharingRecords.noAudit.

Definition ledger : list (ObjectId * SharingRecords.Doc) := [(sharing1, pendingAB)].

(** The ledger once the super admin has rejected the request. *)
Definition rejectedLedger : list (ObjectId * SharingRecords.Doc) :=
  [(sharing1,
    SharingRecords.reject 2000 Fixture.superAdmin "no agreement on file" pendingAB)].

Definition approveUntil (t : Time) : SharingAdminRoutes.ApproveBody :=
  SharingAdminRoutes.mkApprove (SharingAdminRoutes.ExpiresOn t) None.

Definition approveForGood : SharingAdminRoutes.ApproveBody :=
  SharingAdminRoutes.mkApprove SharingAdminRoutes.NoExpiry None.

(** An empty test-order collection, and a day at the laboratory of A: the
    doctor orders a blood count for a patient of A, the patient pays, the
    laboratory starts the test and uploads the result. *)
Definition start0 : Workflow.State := Workflow.mkState Fixture.db0 ∅.

Definition reqPatientA : Auth.Req :=
  Fixture.reqOf Fixture.patientA User.patient (Some Fixture.hospitalA) None.

Definition labDay : list (Time * Workflow.Request) :=
  [(1000%Z, Workflow.Create Fixture.reqDoctorA
              (Fixture.bloodCount Fixture.patientA None) Fixture.order1);
   (2000%Z, Workflow.MarkPaid reqPatientA Fixture.order1 Fixture.cashPayment);
   (3000%Z, Workflow.Start Fixture.reqLabStaffA Fixture.order1);
   (4000%Z, Workflow.Upload Fixture.reqLabStaffA Fixture.order1
              Fixture.noResultFields None)].

End Scenario.

(** * Properties *)

(** ** The sharing ledger *)

Section SharingLedger.

Import HospitalSharing.

Lemma findOne_Some filter coll r :
  findOne filter coll = Some r → r ∈ coll ∧ filter r = true.
Proof.
  unfold findOne. intros H. apply find_some in H as [Hin Hf].
  split; [by apply list_elem_of_In | done].
Qed.

Lemma findOne_None filter coll r :
  findOne filter coll = None → r ∈ coll → filter r = false.
Proof.
  unfold findOne. intros H Hin.
  apply (find_none _ _ H). by apply list_elem_of_In.
Qed.

Lemma approvedFilter_true a b r :
  approvedFilter a b r = true ↔
  requestingHospitalId r = a ∧ targetHospitalId r = b
  ∧ status r = approved ∧ isActive r = true.
Proof.
  unfold approvedFilter.
  rewrite !andb_true_iff, !bool_decide_eq_true. tauto.
Qed.

Lemma pairFilter_true a b r :
  pairFilter a b r = true ↔ requestingHospitalId r = a ∧ targetHospitalId r = b.
Proof.
  unfold pairFilter. rewrite andb_true_iff, !bool_decide_eq_true. done.
Qed.

Lemma isExpired_false now r :
  isExpired now r = false ↔
  expiresAt r = None ∨ ∃ e, expiresAt r = Some e ∧ (now ≤ e)%Z.
Proof.
  unfold isExpired. destruct (expiresAt r) as [e|].
  - rewrite bool_decide_eq_false. split.
    + intros H. right. exists e. split; [done | lia].
    + intros [H | (e' & [= <-] & H)]; [done | lia].
  - split; [by left | done].
Qed.

(** Under the unique index a pair of hospitals names one document. *)
Lemma uniqueIndex_inj coll r1 r2 :
  uniqueIndex coll → r1 ∈ coll → r2 ∈ coll → pairKey r1 = pairKey r2 → r1 = r2.
Proof.
  unfold uniqueIndex. induction coll as [|r coll IH]; intros Hnd H1 H2 Hk.
  - by apply elem_of_nil in H1.
  - rewrite fmap_cons in Hnd. apply NoDup_cons in Hnd as [Hnotin Hnd].
    apply elem_of_cons in H1 as [-> | H1]; apply elem_of_cons in H2 as [-> | H2].
    + done.
    + exfalso. apply Hnotin. rewrite Hk. by apply list_elem_of_fmap_2.
    + exfalso. apply Hnotin. rewrite <- Hk. by apply list_elem_of_fmap_2.
    + by apply IH.
Qed.

Lemma canAccess_grant now coll a b :
  canAccess now coll a b = true → ∃ r, r ∈ coll ∧ grant now a b r.
Proof.
  unfold canAccess. destruct (findOne _ coll) as [r|] eqn:Hf; [|done].
  apply findOne_Some in Hf as [Hin Hflt].
  apply approvedFilter_true in Hflt as (Ha & Hb & Hs & Hact).
  destruct (isExpired now r) eqn:He; [done|]. intros _.
  apply isExpired_false in He. exists r. by repeat split.
Qed.

Lemma grant_canAccess now coll a b r :
  uniqueIndex coll → r ∈ coll → grant now a b r → canAccess now coll a b = true.
Proof.
  intros Huniq Hin (Ha & Hb & Hs & Hact & Hexp). unfold canAccess.
  destruct (findOne _ coll) as [r'|] eqn:Hf.
  - apply findOne_Some in Hf as [Hin' Hflt].
    apply approvedFilter_true in Hflt as (Ha' & Hb' & _).
    assert (r' = r) as ->.
    { apply (uniqueIndex_inj coll); [done..|]. unfold pairKey. congruence. }
    apply isExpired_false in Hexp. by rewrite Hexp.
  - apply (findOne_None _ _ r) in Hf; [|done].
    assert (approvedFilter a b r = true) by by apply approvedFilter_true.
    congruence.
Qed.

End SharingLedger.

(** C1, as the specification words it (expiry test [now < expiresAt]), fails
    at the instant of expiry: with the clock exactly at [expiresAt] the grant
    from A to B still gives access, while no record satisfies the strict
    condition. *)
Lemma canAccess_strict_expiry_counterexample :
  HospitalSharing.uniqueIndex [Fixture.grantAB]
  ∧ ¬ (HospitalSharing.canAccess 100 [Fixture.grantAB] Fixture.hospitalA Fixture.hospitalB = true
       ↔ ∃ r, r ∈ [Fixture.grantAB]
              ∧ HospitalSharing.grantStrict 100 Fixture.hospitalA Fixture.hospitalB r).
Proof.
  split.
  - unfold HospitalSharing.uniqueIndex. apply NoDup_singleton.
  - intros [Hfwd _].
    destruct Hfwd as (r & Hin & _ & _ & _ & _ & Hexp); [by vm_compute|].
    apply list_elem_of_singleton in Hin as ->.
    destruct Hexp as [Hnone | (e & He & Hlt)].
    + discriminate Hnone.
    + injection He as <-. lia.
Qed.

(** C1 (amended): under the unique index on (requesting, target),
    [canAccess(A, B)] holds exactly when a record exists for the ordered pair
    that is approved, active and either without expiry or not yet past it
    ([now <= expiresAt]); and the predicate is directional: for distinct
    hospitals there is a ledger that grants A access to B and not B to A, and
    another that grants both. *)
Theorem canAccess_iff_grant (now : Time) (coll : list HospitalSharing.t) (a b : ObjectId) :
  HospitalSharing.uniqueIndex coll →
  (HospitalSharing.canAccess now coll a b = true
   ↔ ∃ r, r ∈ coll ∧ HospitalSharing.grant now a b r)
  ∧ (a ≠ b →
     ∃ oneWay bothWays,
       HospitalSharing.uniqueIndex oneWay ∧ HospitalSharing.uniqueIndex bothWays
       ∧ HospitalSharing.canAccess now oneWay a b = true
       ∧ HospitalSharing.canAccess now oneWay b a = false
       ∧ HospitalSharing.canAccess now bothWays a b = true
       ∧ HospitalSharing.canAccess now bothWays b a = true).
Proof.
  intros Huniq. split.
  - split.
    + apply canAccess_grant.
    + intros (r & Hin & Hg). by apply (grant_canAccess now coll a b r).
  - intros Hne.
    exists [Fixture.openGrant a b], [Fixture.openGrant a b; Fixture.openGrant b a].
    assert (Hab : HospitalSharing.approvedFilter a b (Fixture.openGrant a b) = true).
    { apply approvedFilter_true. by repeat split. }
    assert (Hba : HospitalSharing.approvedFilter b a (Fixture.openGrant b a) = true).
    { apply approvedFilter_true. by repeat split. }
    assert (Hno : HospitalSharing.approvedFilter b a (Fixture.openGrant a b) = false).
    { apply not_true_is_false. rewrite approvedFilter_true. simpl. intros (? & ? & _). congruence. }
    repeat split.
    + apply NoDup_singleton.
    + unfold HospitalSharing.uniqueIndex. simpl.
      apply NoDup_cons. split; [|apply NoDup_singleton].
      rewrite list_elem_of_singleton. unfold HospitalSharing.pairKey. simpl. congruence.
    + unfold HospitalSharing.canAccess, HospitalSharing.findOne. simpl. by rewrite Hab.
    + unfold HospitalSharing.canAccess, HospitalSharing.findOne. simpl. by rewrite Hno.
    + unfold HospitalSharing.canAccess, HospitalSharing.findOne. simpl. by rewrite Hab.
    + unfold HospitalSharing.canAccess, HospitalSharing.findOne. simpl.
      by rewrite Hno, Hba.
Qed.

Lemma canAccess_iff_grant_witness :
  HospitalSharing.canAccess 100 [Fixture.grantAB] Fixture.hospitalA Fixture.hospitalB = true
  ↔ ∃ r, r ∈ [Fixture.grantAB]
         ∧ HospitalSharing.grant 100 Fixture.hospitalA Fixture.hospitalB r.
Proof.
  apply (canAccess_iff_grant 100 [Fixture.grantAB] Fixture.hospitalA Fixture.hospitalB).
  unfold HospitalSharing.uniqueIndex. simpl. apply NoDup_singleton.
Defined.

(** ** The access authorizer *)

Section AccessAuthorizer.

Import Auth.

(** The requests of the fixture are the ones [authenticate] builds. *)
Example authenticate_doctorA :
  authenticate Fixture.db0 (Token Fixture.doctorA) = inr Fixture.reqDoctorA.
Proof. vm_compute. reflexivity. Qed.

Example authenticate_labStaffA :
  authenticate Fixture.db0 (Token Fixture.labStaffA) = inr Fixture.reqLabStaffA.
Proof. vm_compute. reflexivity. Qed.

Example authenticate_patientB :
  authenticate Fixture.db0 (Token Fixture.patientB) = inr Fixture.reqPatientB.
Proof. vm_compute. reflexivity. Qed.

(** A request that passed [authenticate] carries the stored, active user
    named by the token. *)
Lemma authenticate_inr db uid req :
  authenticate db (Token uid) = inr req →
  users db !! uid = Some (user req) ∧ userId req = uid
  ∧ User.isActive (user req) = true.
Proof.
  unfold authenticate. destruct (users db !! uid) as [u|]; [|done].
  destruct (User.isActive u) eqn:Hact; simpl; [|done].
  destruct (populateHospital db u) as [[h hdoc]|]; simpl.
  - repeat case_bool_decide; try done; by intros [= <-].
  - by intros [= <-].
Qed.

Lemma includes_true roles r : includes roles r = true ↔ r ∈ roles.
Proof. unfold includes. apply bool_decide_eq_true. Qed.

(** The gate for staff of another hospital: nothing but the sharing ledger
    decides. *)
Lemma canAccessPatient_cross_hospital now db req pid patient mine theirs :
  includes [User.hospital_admin; User.doctor; User.nurse] (User.role (user req)) = true →
  hospitalId req = Some mine →
  users db !! pid = Some patient → User.role patient = User.patient →
  User.hospitalId patient = Some theirs → mine ≠ theirs →
  canAccessPatient now db req (Some pid) =
    if HospitalSharing.canAccess now (hospitalSharings db) mine theirs
    then Next else Respond forbiddenPatientData.
Proof.
  intros Hrole Hmine Hpat Hprole Htheirs Hne. unfold canAccessPatient.
  rewrite Hpat, Hprole, Hmine, Htheirs.
  destruct (User.role (user req)); try discriminate Hrole; simpl;
    by rewrite (bool_decide_eq_false_2 (mine = theirs)).
Qed.

End AccessAuthorizer.

(** C6: an authenticated patient passes the access gate for their own
    patient id, whatever hospital they or the records belong to: no hospital
    is consulted. *)
Theorem patient_reads_own_data (now : Time) (db : Db) (uid : ObjectId) (req : Auth.Req) :
  Auth.authenticate db (Auth.Token uid) = inr req →
  User.role (Auth.user req) = User.patient →
  Auth.canAccessPatient now db req (Some uid) = Next.
Proof.
  intros Hauth Hrole. apply authenticate_inr in Hauth as (Hu & Hid & _).
  unfold Auth.canAccessPatient. rewrite Hu, Hrole, Hid. simpl.
  by rewrite bool_decide_eq_true_2.
Qed.

Lemma patient_reads_own_data_witness :
  Auth.canAccessPatient 0 Fixture.dbShared Fixture.reqPatientB (Some Fixture.patientB) = Next.
Proof.
  apply (patient_reads_own_data 0 Fixture.dbShared Fixture.patientB Fixture.reqPatientB).
  - vm_compute. reflexivity.
  - reflexivity.
Defined.

(** ** The test-order workflow *)

Section TestOrderModel.

Import TestOrder.

Lemma canUploadResult_true o :
  canUploadResult o = true ↔
  (paymentStatus o = paid ∨ paymentStatus o = waived)
  ∧ (status o = ready_for_test ∨ status o = in_progress).
Proof.
  unfold canUploadResult.
  rewrite andb_true_iff, !orb_true_iff, !bool_decide_eq_true. done.
Qed.

(** Saving a document whose [paymentStatus] was not touched runs the hook
    without effect. *)
Lemma save_same_paymentStatus orig cur :
  paymentStatus orig = paymentStatus cur → save orig cur = cur.
Proof.
  intros H. unfold save, preSave. by rewrite bool_decide_eq_true_2.
Qed.

Lemma save_ready_for_test orig cur :
  status cur = ready_for_test → save orig cur = cur.
Proof.
  intros H. unfold save, preSave. rewrite H.
  destruct (_ && _); [|done]. simpl. done.
Qed.

Lemma markAsPaid_status now d o :
  status (markAsPaid now d o) = ready_for_test
  ∧ paymentStatus (markAsPaid now d o) = paid
  ∧ paidBy (markAsPaid now d o) = Some (payer d).
Proof. unfold markAsPaid. by rewrite save_ready_for_test. Qed.

Lemma preSave_unpaid o :
  paymentStatus o ≠ paid → preSave true o = o.
Proof. intros H. unfold preSave. by rewrite (bool_decide_eq_false_2 _ H). Qed.

End TestOrderModel.

(** C4: on an order of the caller's department, uploading a result succeeds
    exactly when [paymentStatus] is paid or waived and [status] is
    ready_for_test or in_progress. On success the saved order is completed,
    with [completedDate] stamped and the uploader recorded; in any other
    state the model method throws, the route answers 400 "Cannot Upload" and
    the database (so the order's status) is unchanged. *)
Theorem uploadResult_iff_guard (now : Time) (db : Db) (req : Auth.Req)
    (orderId : ObjectId) (b : TestOrderRoutes.UploadBody)
    (file : option TestOrderRoutes.UploadedFile) (o : TestOrder.t) :
  Auth.requireDepartmentStaff req = Next →
  from_option TestOrderRoutes.isBoolean true (TestOrderRoutes.abnormalFlag b) = true →
  testOrders db !! orderId = Some o →
  Auth.departmentId req = Some (TestOrder.departmentId o) →
  let legal :=
    (TestOrder.paymentStatus o = TestOrder.paid ∨ TestOrder.paymentStatus o = TestOrder.waived)
    ∧ (TestOrder.status o = TestOrder.ready_for_test
       ∨ TestOrder.status o = TestOrder.in_progress) in
  let data := TestOrderRoutes.resultData b file in
  (legal ↔ ∃ o', TestOrder.uploadResult now data (Auth.userId req) o = inr o')
  ∧ (legal →
     ∃ o', TestOrder.uploadResult now data (Auth.userId req) o = inr o'
           ∧ TestOrder.status o' = TestOrder.completed
           ∧ TestOrder.completedDate o' = Some now
           ∧ TestOrder.resultUploadedBy o' = Some (Auth.userId req)
           ∧ TestOrderRoutes.uploadResult now db req orderId b file
             = (withTestOrders db (<[orderId := o']> (testOrders db)),
                Success 200 "Test result uploaded successfully"))
  ∧ (¬ legal →
     TestOrder.uploadResult now data (Auth.userId req) o = inl TestOrder.CannotUpload
     ∧ TestOrderRoutes.uploadResult now db req orderId b file
       = (db, Fail 400 "Cannot Upload"
                "Payment must be confirmed before uploading results")).
Proof.
  intros Hstaff Hvalid Horder Hdept legal data.
  assert (Hlegal : legal ↔ TestOrder.canUploadResult o = true)
    by (symmetry; apply canUploadResult_true).
  unfold TestOrderRoutes.uploadResult, TestOrder.uploadResult.
  rewrite Hstaff, Hvalid, Horder, Hdept. simpl.
  rewrite (bool_decide_eq_false_2 (TestOrder.departmentId o ≠ TestOrder.departmentId o))
    by (intros H; by apply H).
  destruct (TestOrder.canUploadResult o) eqn:Hcan; simpl.
  - assert (Hl : legal) by by apply Hlegal.
    rewrite save_same_paymentStatus by done.
    split; [|split].
    + split; [by eexists | done].
    + intros _. eexists. split; [reflexivity|]. by repeat split.
    + intros Hn. by destruct Hn.
  - assert (Hl : ¬ legal) by (rewrite Hlegal; done).
    split; [|split].
    + split; [done | intros [o' Ho']; discriminate Ho'].
    + done.
    + done.
Qed.

Lemma uploadResult_iff_guard_witness :
  ∃ o', TestOrder.uploadResult 5000
          (TestOrderRoutes.resultData Fixture.noResultFields None)
          Fixture.labStaffA Fixture.orderReady = inr o'
        ∧ TestOrder.status o' = TestOrder.completed
        ∧ TestOrder.completedDate o' = Some 5000%Z
        ∧ TestOrder.resultUploadedBy o' = Some Fixture.labStaffA
        ∧ TestOrderRoutes.uploadResult 5000 Fixture.dbReady Fixture.reqLabStaffA
            Fixture.order1 Fixture.noResultFields None
          = (withTestOrders Fixture.dbReady
               (<[Fixture.order1 := o']> (testOrders Fixture.dbReady)),
             Success 200 "Test result uploaded successfully").
Proof.
  apply (uploadResult_iff_guard 5000 Fixture.dbReady Fixture.reqLabStaffA Fixture.order1
           Fixture.noResultFields None Fixture.orderReady).
  - reflexivity.
  - reflexivity.
  - vm_compute. reflexivity.
  - reflexivity.
  - split; [by right | by left].
Defined.

(** The two orders of the fixture are what the route creates. *)
Example createOrder_waived :
  TestOrderRoutes.createOrder 1000 Fixture.db0 Fixture.reqDoctorA
    (Fixture.bloodCount Fixture.patientA (Some false)) Fixture.order1
  = (Fixture.dbReady, Success 201 "Test order created successfully").
Proof. vm_compute. reflexivity. Qed.

Example createOrder_pending :
  TestOrderRoutes.createOrder 1000 Fixture.db0 Fixture.reqDoctorA
    (Fixture.bloodCount Fixture.patientA None) Fixture.order1
  = (Fixture.dbPending, Success 201 "Test order created successfully").
Proof. vm_compute. reflexivity. Qed.

(** C10: at the mark-paid endpoint, for a valid payment method and an
    existing order, only a hospital admin, or the patient the order is for,
    gets past the access checks: every other caller (super admin, doctor,
    nurse, department staff, pending user, another patient) is answered 403
    with the database unchanged; an allowed caller is answered 400 "Already
    Paid", database unchanged, when the order is paid already, and otherwise
    the order is saved with [paymentStatus] paid and the caller as payer. *)
Theorem markPaid_access (now : Time) (db : Db) (req : Auth.Req) (orderId : ObjectId)
    (b : TestOrderRoutes.PayBody) (o : TestOrder.t) (method : TestOrder.PaymentMethod) :
  TestOrderRoutes.castMethod (TestOrderRoutes.paymentMethod b) = Some method →
  testOrders db !! orderId = Some o →
  let role := User.role (Auth.user req) in
  let allowed :=
    role = User.hospital_admin
    ∨ (role = User.patient ∧ TestOrder.patientId o = Auth.userId req) in
  (¬ allowed →
   ∃ message, TestOrderRoutes.markPaid now db req orderId b
              = (db, Fail 403 "Forbidden" message))
  ∧ (allowed → TestOrder.paymentStatus o = TestOrder.paid →
     TestOrderRoutes.markPaid now db req orderId b
     = (db, Fail 400 "Already Paid" "This test has already been paid for"))
  ∧ (allowed → TestOrder.paymentStatus o ≠ TestOrder.paid →
     ∃ o', TestOrderRoutes.markPaid now db req orderId b
           = (withTestOrders db (<[orderId := o']> (testOrders db)),
              Success 200 "Payment confirmed successfully")
           ∧ TestOrder.paymentStatus o' = TestOrder.paid
           ∧ TestOrder.paidBy o' = Some (Auth.userId req)).
Proof.
  intros Hm Ho role allowed. unfold TestOrderRoutes.markPaid. rewrite Hm, Ho.
  fold role. split; [|split].
  - intros Hn. destruct role eqn:Hr; simpl;
      try (eexists; reflexivity).
    + exfalso. apply Hn. by left.
    + rewrite bool_decide_eq_true_2; [eexists; reflexivity|].
      intros Heq. apply Hn. right. done.
  - intros [Hr | [Hr Hown]] Hpaid; rewrite Hr; simpl.
    + by rewrite bool_decide_eq_true_2.
    + rewrite (bool_decide_eq_false_2 (_ ≠ _)) by (intros H; by apply H).
      by rewrite bool_decide_eq_true_2.
  - intros Hal Hunpaid.
    exists (TestOrder.markAsPaid now
              (TestOrder.mkPayment method
                 (default ("PAY-" +:+ pretty now) (TestOrderRoutes.paymentReference b))
                 (Auth.userId req)) o).
    split; [|split; apply markAsPaid_status].
    destruct Hal as [Hr | [Hr Hown]]; rewrite Hr; simpl.
    + by rewrite bool_decide_eq_false_2.
    + rewrite (bool_decide_eq_false_2 (_ ≠ _)) by (intros H; by apply H).
      by rewrite bool_decide_eq_false_2.
Qed.

Lemma markPaid_access_witness :
  ∃ message, TestOrderRoutes.markPaid 2000 Fixture.dbPending Fixture.reqDoctorA Fixture.order1
               Fixture.cashPayment
             = (Fixture.dbPending, Fail 403 "Forbidden" message).
Proof.
  apply (markPaid_access 2000 Fixture.dbPending Fixture.reqDoctorA Fixture.order1
           Fixture.cashPayment Fixture.orderPending TestOrder.cash).
  - reflexivity.
  - vm_compute. reflexivity.
  - vm_compute. intros [H | [H _]]; discriminate H.
Defined.

(** C3: the code at the failing input. An order created with payment waived
    is started by the laboratory, so it is in_progress with [paymentStatus]
    waived; a hospital admin then marks it paid ([paymentStatus] is not paid,
    so the route lets the call through) and [markAsPaid] puts the order back
    to ready_for_test. *)
Theorem markPaid_regresses_started_order :
  ∃ db1 db2 db3 : Db,
    TestOrderRoutes.createOrder 1000 Fixture.db0 Fixture.reqDoctorA
      (Fixture.bloodCount Fixture.patientA (Some false)) Fixture.order1
    = (db1, Success 201 "Test order created successfully")
    ∧ TestOrderRoutes.start db1 Fixture.reqLabStaffA Fixture.order1
      = (db2, Success 200 "Test marked as in progress")
    ∧ TestOrder.status <$> testOrders db2 !! Fixture.order1 = Some TestOrder.in_progress
    ∧ TestOrder.paymentStatus <$> testOrders db2 !! Fixture.order1 = Some TestOrder.waived
    ∧ TestOrderRoutes.markPaid 2000 db2 Fixture.reqAdminA Fixture.order1 Fixture.cashPayment
      = (db3, Success 200 "Payment confirmed successfully")
    ∧ TestOrder.status <$> testOrders db3 !! Fixture.order1 = Some TestOrder.ready_for_test.
Proof.
  eexists _, _, _. repeat split; vm_compute; reflexivity.
Qed.

(** C7, as stated, fails: two [start] calls on the same ready order, one
    after the other, both succeed; the second finds the order in_progress
    and gets no state conflict. *)
Lemma start_twice_counterexample :
  ∃ (db1 db2 : Db) (r1 r2 : Response),
    TestOrderRoutes.start Fixture.dbReady Fixture.reqLabStaffA Fixture.order1 = (db1, r1)
    ∧ TestOrderRoutes.start db1 Fixture.reqLabStaffA Fixture.order1 = (db2, r2)
    ∧ r1 = Success 200 "Test marked as in progress"
    ∧ r2 = Success 200 "Test marked as in progress"
    ∧ ¬ ((statusCode r1 = 200 ∧ statusCode r2 ≠ 200)
         ∨ (statusCode r1 ≠ 200 ∧ statusCode r2 = 200)).
Proof.
  eexists _, _, _, _. split; [vm_compute; reflexivity|].
  split; [vm_compute; reflexivity|].
  split; [reflexivity|]. split; [reflexivity|].
  simpl. intros [[_ H] | [H _]]; by apply H.
Qed.

(** C7 (amended): [start] fails and leaves the database unchanged whenever
    [paymentStatus] is neither paid nor waived (400 "Payment Required" for
    staff of the order's department). For staff of the order's department,
    with payment paid or waived, a call on an order that is ready_for_test
    or in_progress succeeds and leaves it in_progress; a second call then
    succeeds as well and changes nothing more. *)
Theorem start_payment_guard (db : Db) (req : Auth.Req) (orderId : ObjectId)
    (o : TestOrder.t) :
  testOrders db !! orderId = Some o →
  let payable :=
    TestOrder.paymentStatus o = TestOrder.paid
    ∨ TestOrder.paymentStatus o = TestOrder.waived in
  (¬ payable →
   ∃ status error message,
     TestOrderRoutes.start db req orderId = (db, Fail status error message))
  ∧ (Auth.requireDepartmentStaff req = Next →
     Auth.departmentId req = Some (TestOrder.departmentId o) →
     (¬ payable →
      TestOrderRoutes.start db req orderId
      = (db, Fail 400 "Payment Required"
               "Test cannot be started until payment is confirmed"))
     ∧ (payable →
        TestOrder.status o = TestOrder.ready_for_test
        ∨ TestOrder.status o = TestOrder.in_progress →
        let started := TestOrder.setStatus TestOrder.in_progress o in
        let db' := withTestOrders db (<[orderId := started]> (testOrders db)) in
        TestOrderRoutes.start db req orderId
        = (db', Success 200 "Test marked as in progress")
        ∧ TestOrderRoutes.start db' req orderId
          = (db', Success 200 "Test marked as in progress"))).
Proof.
  intros Ho payable.
  assert (Hunpaid : ¬ payable →
    bool_decide (TestOrder.paymentStatus o ≠ TestOrder.paid)
    && bool_decide (TestOrder.paymentStatus o ≠ TestOrder.waived) = true).
  { intros Hn. apply andb_true_iff. split; apply bool_decide_eq_true_2;
      intros E; apply Hn; [by left | by right]. }
  assert (Hpaid : ∀ o1, TestOrder.paymentStatus o1 = TestOrder.paymentStatus o → payable →
    bool_decide (TestOrder.paymentStatus o1 ≠ TestOrder.paid)
    && bool_decide (TestOrder.paymentStatus o1 ≠ TestOrder.waived) = false).
  { intros o1 Heq Hp. rewrite Heq. destruct Hp as [E | E]; rewrite E; reflexivity. }
  split.
  - intros Hn. unfold TestOrderRoutes.start.
    destruct (Auth.requireDepartmentStaff req) as [|[s e m|s m]] eqn:Hstaff.
    + rewrite Ho. destruct (Auth.departmentId req) as [mine|];
        [|eexists _, _, _; reflexivity].
      destruct (bool_decide (TestOrder.departmentId o ≠ mine));
        [eexists _, _, _; reflexivity|].
      rewrite (Hunpaid Hn). eexists _, _, _; reflexivity.
    + eexists _, _, _; reflexivity.
    + unfold Auth.requireDepartmentStaff in Hstaff. by destruct (negb _).
  - intros Hstaff Hdept. split.
    + intros Hn. unfold TestOrderRoutes.start. rewrite Hstaff, Ho, Hdept.
      rewrite bool_decide_eq_false_2 by (intros H; by apply H).
      by rewrite (Hunpaid Hn).
    + intros Hp Hst started db'.
      assert (Hstart : ∀ db1 o1, testOrders db1 !! orderId = Some o1 →
        TestOrder.departmentId o1 = TestOrder.departmentId o →
        TestOrder.paymentStatus o1 = TestOrder.paymentStatus o →
        TestOrderRoutes.start db1 req orderId
        = (withTestOrders db1
             (<[orderId := TestOrder.setStatus TestOrder.in_progress o1]> (testOrders db1)),
           Success 200 "Test marked as in progress")).
      { intros db1 o1 Ho1 Hd1 Hp1. unfold TestOrderRoutes.start.
        rewrite Hstaff, Ho1, Hdept, Hd1.
        rewrite bool_decide_eq_false_2 by (intros H; by apply H).
        rewrite (Hpaid o1 Hp1 Hp).
        by rewrite save_same_paymentStatus. }
      split.
      * by apply Hstart.
      * rewrite (Hstart db' started); [| by apply lookup_insert_eq | done | done].
        unfold db', withTestOrders. simpl. by rewrite insert_insert_eq.
Qed.

Lemma start_payment_guard_witness :
  let started := TestOrder.setStatus TestOrder.in_progress Fixture.orderReady in
  let db' :=
    withTestOrders Fixture.dbReady
      (<[Fixture.order1 := started]> (testOrders Fixture.dbReady)) in
  TestOrderRoutes.start Fixture.dbReady Fixture.reqLabStaffA Fixture.order1
  = (db', Success 200 "Test marked as in progress")
  ∧ TestOrderRoutes.start db' Fixture.reqLabStaffA Fixture.order1
    = (db', Success 200 "Test marked as in progress").
Proof.
  assert (Hlookup : testOrders Fixture.dbReady !! Fixture.order1 = Some Fixture.orderReady)
    by (vm_compute; reflexivity).
  destruct (start_payment_guard Fixture.dbReady Fixture.reqLabStaffA Fixture.order1
              Fixture.orderReady Hlookup) as [_ Hstaff].
  destruct (Hstaff eq_refl eq_refl) as [_ Hstarted].
  apply Hstarted; [by right | by left].
Defined.

Lemma start_success db req orderId db' s m :
  TestOrderRoutes.start db req orderId = (db', Success s m) →
  ∃ o, testOrders db !! orderId = Some o
       ∧ Auth.departmentId req = Some (TestOrder.departmentId o).
Proof.
  unfold TestOrderRoutes.start.
  destruct (Auth.requireDepartmentStaff req) as [|r] eqn:Hstaff.
  - destruct (testOrders db !! orderId) as [o|]; [|done].
    destruct (Auth.departmentId req) as [mine|]; [|done].
    case_bool_decide as Hd; [done|].
    intros _. exists o. split; [done|]. f_equal.
    destruct (decide (TestOrder.departmentId o = mine)); [done|]. by destruct Hd.
  - unfold Auth.requireDepartmentStaff in Hstaff.
    destruct (negb _); [|done]. by injection Hstaff as <-.
Qed.

Lemma uploadResult_success now db req orderId b file db' s m :
  TestOrderRoutes.uploadResult now db req orderId b file = (db', Success s m) →
  ∃ o, testOrders db !! orderId = Some o
       ∧ Auth.departmentId req = Some (TestOrder.departmentId o).
Proof.
  unfold TestOrderRoutes.uploadResult.
  destruct (Auth.requireDepartmentStaff req) as [|r] eqn:Hstaff.
  - destruct (negb (from_option _ _ _)); [done|].
    destruct (testOrders db !! orderId) as [o|]; [|done].
    destruct (Auth.departmentId req) as [mine|]; [|done].
    case_bool_decide as Hd; [done|].
    intros _. exists o. split; [done|]. f_equal.
    destruct (decide (TestOrder.departmentId o = mine)); [done|]. by destruct Hd.
  - unfold Auth.requireDepartmentStaff in Hstaff.
    destruct (negb _); [|done]. by injection Hstaff as <-.
Qed.

(** C5: for a caller with role department_staff the access gate never
    calls [next], whatever the hospitals involved, and answers 403 for every
    existing patient. On an order of another department [start] and the
    upload route answer 403 and change nothing; whenever either succeeds the
    order belongs to the caller's own department. Department staff can
    neither create an order nor change one through mark-paid. *)
Theorem department_staff_scope (now : Time) (db : Db) (req : Auth.Req) :
  User.role (Auth.user req) = User.department_staff →
  (∀ pid, Auth.canAccessPatient now db req pid ≠ Next)
  ∧ (∀ pid patient,
       users db !! pid = Some patient → User.role patient = User.patient →
       Auth.canAccessPatient now db req (Some pid)
       = Respond Auth.forbiddenDepartmentStaff)
  ∧ (∀ orderId o mine,
       testOrders db !! orderId = Some o →
       Auth.departmentId req = Some mine → TestOrder.departmentId o ≠ mine →
       TestOrderRoutes.start db req orderId
       = (db, Fail 403 "Forbidden" "You can only access tests for your department")
       ∧ ∀ b file,
           from_option TestOrderRoutes.isBoolean true (TestOrderRoutes.abnormalFlag b) = true →
           TestOrderRoutes.uploadResult now db req orderId b file
           = (db, Fail 403 "Forbidden" "You can only upload results for your department"))
  ∧ (∀ orderId db' s m,
       (TestOrderRoutes.start db req orderId = (db', Success s m)
        ∨ ∃ b file, TestOrderRoutes.uploadResult now db req orderId b file
                    = (db', Success s m)) →
       ∃ o, testOrders db !! orderId = Some o
            ∧ Auth.departmentId req = Some (TestOrder.departmentId o))
  ∧ (∀ b newId,
       TestOrderRoutes.createOrder now db req b newId
       = (db, Fail 403 "Forbidden" "Healthcare worker access required"))
  ∧ (∀ orderId b, fst (TestOrderRoutes.markPaid now db req orderId b) = db).
Proof.
  intros Hrole.
  assert (Hstaff : Auth.requireDepartmentStaff req = Next).
  { unfold Auth.requireDepartmentStaff. by rewrite Hrole. }
  split; [|split; [|split; [|split; [|split]]]].
  - intros [pid|]; [|done]. unfold Auth.canAccessPatient.
    destruct (users db !! pid) as [patient|]; [|done]. rewrite Hrole.
    by case_bool_decide.
  - intros pid patient Hp Hpr. unfold Auth.canAccessPatient.
    by rewrite Hp, Hrole, Hpr.
  - intros orderId o mine Ho Hmine Hne. split.
    + unfold TestOrderRoutes.start. rewrite Hstaff, Ho, Hmine.
      by rewrite bool_decide_eq_true_2.
    + intros b file Hvalid. unfold TestOrderRoutes.uploadResult.
      rewrite Hstaff, Hvalid, Ho, Hmine. simpl. by rewrite bool_decide_eq_true_2.
  - intros orderId db' s m [Hs | (b & file & Hu)].
    + by apply (start_success db req orderId db' s m).
    + by apply (uploadResult_success now db req orderId b file db' s m).
  - intros b newId. unfold TestOrderRoutes.createOrder, Auth.requireHealthcareWorker.
    by rewrite Hrole.
  - intros orderId b. unfold TestOrderRoutes.markPaid.
    destruct (TestOrderRoutes.castMethod _); [|done].
    destruct (testOrders db !! orderId) as [o|]; [|done].
    by rewrite Hrole.
Qed.

Lemma department_staff_scope_witness :
  TestOrderRoutes.start Fixture.dbReady Fixture.reqXrayStaffA Fixture.order1
  = (Fixture.dbReady, Fail 403 "Forbidden" "You can only access tests for your department").
Proof.
  apply (department_staff_scope 0 Fixture.dbReady Fixture.reqXrayStaffA eq_refl)
    with (o := Fixture.orderReady) (mine := Fixture.xrayA).
  - vm_compute. reflexivity.
  - reflexivity.
  - vm_compute. discriminate.
Defined.

(** ** Ordering a test *)

(** Case analysis on every scrutinee of the goal, outermost first. *)
Ltac case_scrutinees :=
  repeat match goal with
         | |- context [match ?x with _ => _ end] => destruct x
         end.

Section CreateOrder.

Import TestOrderRoutes.

Context (now : Time) (db : Db) (req : Auth.Req) (b : CreateBody) (newId : ObjectId).

(** A rejected request leaves the database as it was. *)
Lemma createOrder_Fail db' s e m :
  createOrder now db req b newId = (db', Fail s e m) → db' = db.
Proof.
  unfold createOrder. case_scrutinees; congruence.
Qed.

(** A new order keeps the two statuses the handler gave it: the save hook
    only acts on a paid order. *)
Lemma preSave_newOrder hospital patient dept name type u amount :
  TestOrder.preSave true (newOrder req hospital patient dept name type u amount b)
  = newOrder req hospital patient dept name type u amount b.
Proof.
  apply preSave_unpaid. unfold newOrder. simpl. by destruct (isPaymentRequired b).
Qed.

Lemma createOrder_Success db' s m :
  createOrder now db req b newId = (db', Success s m) →
  ∃ patient dept name type amount ddoc mine u,
    patientId b = Some patient ∧ departmentId b = Some dept
    ∧ Auth.canAccessPatient now db req (Some patient) = Next
    ∧ departments db !! dept = Some ddoc
    ∧ Auth.hospitalId req = Some mine ∧ Department.hospitalId ddoc = mine
    ∧ s = 201
    ∧ db' = withTestOrders db
              (<[newId := newOrder req mine patient dept name type u amount b]>
                 (testOrders db)).
Proof.
  unfold createOrder.
  destruct (Auth.requireHealthcareWorker req) as [|r] eqn:Hw.
  2:{ unfold Auth.requireHealthcareWorker in Hw. destruct (negb _); [|done].
      injection Hw as <-. intros [=]. }
  destruct (patientId b) as [patient|]; [|intros [=]].
  destruct (departmentId b) as [dept|]; [|intros [=]].
  destruct (testName b) as [name|]; [|intros [=]].
  destruct (testType b) as [type|]; [|intros [=]].
  destruct (paymentAmount b) as [amount|]; [|intros [=]].
  destruct (Auth.canAccessPatient now db req (Some patient)) as [|r] eqn:Hacc.
  2:{ intros [= <- ->]. revert Hacc. unfold Auth.canAccessPatient.
      case_scrutinees; intros [=]. }
  destruct (departments db !! dept) as [ddoc|] eqn:Hdoc; [|intros [=]].
  destruct (Auth.hospitalId req) as [mine|]; [|intros [=]].
  destruct (bool_decide (Department.hospitalId ddoc ≠ mine)) eqn:Hd; [intros [=]|].
  apply bool_decide_eq_false in Hd.
  destruct (castUrgency _) as [u|]; [|intros [=]].
  unfold TestOrder.create. destruct (TestOrder.validateSync _); [|intros [=]].
  rewrite preSave_newOrder. intros [= <- <- _].
  exists patient, dept, name, type, amount, ddoc, mine, u.
  repeat split; try done.
  destruct (decide (Department.hospitalId ddoc = mine)); [done | by destruct Hd].
Qed.

Lemma createOrder_ok patient dept name type amount ddoc mine u :
  Auth.requireHealthcareWorker req = Next →
  patientId b = Some patient → departmentId b = Some dept →
  testName b = Some name → testType b = Some type → paymentAmount b = Some amount →
  Auth.canAccessPatient now db req (Some patient) = Next →
  departments db !! dept = Some ddoc →
  Auth.hospitalId req = Some mine → Department.hospitalId ddoc = mine →
  castUrgency (default "routine" (urgency b)) = Some u → (0 ≤ amount)%Z →
  createOrder now db req b newId
  = (withTestOrders db
       (<[newId := newOrder req mine patient dept name type u amount b]> (testOrders db)),
     Success 201 "Test order created successfully").
Proof.
  intros Hw Hp Hd Hn Ht Ha Hacc Hdoc Hmine Hsame Hu Hamt. unfold createOrder.
  rewrite Hw, Hp, Hd, Hn, Ht, Ha, Hacc, Hdoc, Hmine, Hu.
  rewrite bool_decide_eq_false_2 by (intros H; by apply H).
  unfold TestOrder.create, TestOrder.validateSync. simpl.
  rewrite bool_decide_eq_true_2 by done. by rewrite preSave_newOrder.
Qed.

End CreateOrder.

(** C8: when a doctor orders a test at a department whose hospital is not
    the doctor's own, the request is rejected and the database is unchanged
    (400 "Invalid Department" once the earlier checks have passed). When the
    department belongs to the doctor's hospital and the input is valid the
    order is created; every order the route creates has [status]
    payment_pending and [paymentStatus] pending if payment is required
    ([paymentRequired !== false]), and ready_for_test and waived otherwise. *)
Theorem createOrder_department_scope (now : Time) (db : Db) (req : Auth.Req)
    (b : TestOrderRoutes.CreateBody) (newId dept : ObjectId) (ddoc : Department.t) :
  User.role (Auth.user req) = User.doctor →
  TestOrderRoutes.departmentId b = Some dept →
  departments db !! dept = Some ddoc →
  (Auth.hospitalId req ≠ Some (Department.hospitalId ddoc) →
   ∃ status error message,
     TestOrderRoutes.createOrder now db req b newId = (db, Fail status error message))
  ∧ (∀ patient name type amount mine,
       TestOrderRoutes.patientId b = Some patient →
       TestOrderRoutes.testName b = Some name → TestOrderRoutes.testType b = Some type →
       TestOrderRoutes.paymentAmount b = Some amount →
       Auth.canAccessPatient now db req (Some patient) = Next →
       Auth.hospitalId req = Some mine →
       (Department.hospitalId ddoc ≠ mine →
        TestOrderRoutes.createOrder now db req b newId
        = (db, Fail 400 "Invalid Department" "Department must belong to your hospital"))
       ∧ (Department.hospitalId ddoc = mine →
          ∀ u, TestOrderRoutes.castUrgency (default "routine" (TestOrderRoutes.urgency b))
               = Some u →
               (0 ≤ amount)%Z →
               TestOrderRoutes.createOrder now db req b newId
               = (withTestOrders db
                    (<[newId := TestOrderRoutes.newOrder req mine patient dept name type
                                  u amount b]> (testOrders db)),
                  Success 201 "Test order created successfully")))
  ∧ (∀ db' s m,
       TestOrderRoutes.createOrder now db req b newId = (db', Success s m) →
       Auth.hospitalId req = Some (Department.hospitalId ddoc)
       ∧ ∃ o, db' = withTestOrders db (<[newId := o]> (testOrders db))
              ∧ TestOrder.hospitalId o = Department.hospitalId ddoc
              ∧ TestOrder.departmentId o = dept
              ∧ if TestOrderRoutes.isPaymentRequired b
                then TestOrder.status o = TestOrder.payment_pending
                     ∧ TestOrder.paymentStatus o = TestOrder.pending
                else TestOrder.status o = TestOrder.ready_for_test
                     ∧ TestOrder.paymentStatus o = TestOrder.waived).
Proof.
  intros Hrole Hdept Hdoc.
  assert (Hw : Auth.requireHealthcareWorker req = Next).
  { unfold Auth.requireHealthcareWorker. by rewrite Hrole. }
  assert (Hsucc : ∀ db' s m,
       TestOrderRoutes.createOrder now db req b newId = (db', Success s m) →
       Auth.hospitalId req = Some (Department.hospitalId ddoc)
       ∧ ∃ o, db' = withTestOrders db (<[newId := o]> (testOrders db))
              ∧ TestOrder.hospitalId o = Department.hospitalId ddoc
              ∧ TestOrder.departmentId o = dept
              ∧ if TestOrderRoutes.isPaymentRequired b
                then TestOrder.status o = TestOrder.payment_pending
                     ∧ TestOrder.paymentStatus o = TestOrder.pending
                else TestOrder.status o = TestOrder.ready_for_test
                     ∧ TestOrder.paymentStatus o = TestOrder.waived).
  { intros db' s m Hc. apply createOrder_Success in Hc
      as (patient & dept' & name & type & amount & ddoc' & mine & u
          & Hp & Hd' & Hacc & Hdoc' & Hmine & Hsame & -> & ->).
    rewrite Hdept in Hd'. injection Hd' as <-.
    rewrite Hdoc in Hdoc'. injection Hdoc' as <-.
    split; [by rewrite Hmine, Hsame|].
    eexists. split; [reflexivity|]. unfold TestOrderRoutes.newOrder. simpl.
    repeat split; try done. by destruct (TestOrderRoutes.isPaymentRequired b). }
  split; [|split; [|exact Hsucc]].
  - intros Hne.
    destruct (TestOrderRoutes.createOrder now db req b newId) as [db' [s e m|s m]] eqn:Hc.
    + apply createOrder_Fail in Hc as Hdb. subst db'. by exists s, e, m.
    + destruct (Hsucc _ _ _ eq_refl) as [Hmine _]. by destruct Hne.
  - intros patient name type amount mine Hp Hn Ht Ha Hacc Hmine. split.
    + intros Hne. unfold TestOrderRoutes.createOrder.
      rewrite Hw, Hp, Hdept, Hn, Ht, Ha, Hacc, Hdoc, Hmine.
      by rewrite bool_decide_eq_true_2.
    + intros Hsame u Hu Hamt.
      by apply (createOrder_ok now db req b newId patient dept name type amount ddoc mine u).
Qed.

Lemma createOrder_department_scope_witness :
  ∃ status error message,
    TestOrderRoutes.createOrder 1000 Fixture.db0 Fixture.reqDoctorA
      (Fixture.bloodCountAtB Fixture.patientA) Fixture.order1
    = (Fixture.db0, Fail status error message).
Proof.
  apply (createOrder_department_scope 1000 Fixture.db0 Fixture.reqDoctorA _ Fixture.order1
           Fixture.labB (Department.mk Fixture.hospitalB true)).
  - reflexivity.
  - reflexivity.
  - vm_compute. reflexivity.
  - vm_compute. discriminate.
Defined.

(** The gate in front of [POST /api/test-orders], for a hospital admin,
    doctor or nurse whose hospital differs from the patient's: it passes
    exactly when the sharing ledger gives the caller's hospital access to the
    patient's hospital, and the route has no other check on the patient.
    With that access a valid order at a department of the caller's own
    hospital is created; without it the request is answered 403 and nothing
    is created. *)
Lemma createOrder_across_hospitals (now : Time) (db : Db) (req : Auth.Req)
    (b : TestOrderRoutes.CreateBody) (newId : ObjectId)
    (patient : ObjectId) (pdoc : User.t) (mine theirs : ObjectId)
    (dept : ObjectId) (ddoc : Department.t) (name type : string) (amount : Z)
    (u : TestOrder.Urgency) :
  Auth.includes [User.hospital_admin; User.doctor; User.nurse]
    (User.role (Auth.user req)) = true →
  Auth.hospitalId req = Some mine →
  users db !! patient = Some pdoc → User.role pdoc = User.patient →
  User.hospitalId pdoc = Some theirs → mine ≠ theirs →
  TestOrderRoutes.patientId b = Some patient →
  TestOrderRoutes.departmentId b = Some dept →
  TestOrderRoutes.testName b = Some name → TestOrderRoutes.testType b = Some type →
  TestOrderRoutes.paymentAmount b = Some amount → (0 ≤ amount)%Z →
  TestOrderRoutes.castUrgency (default "routine" (TestOrderRoutes.urgency b)) = Some u →
  departments db !! dept = Some ddoc → Department.hospitalId ddoc = mine →
  (Auth.canAccessPatient now db req (Some patient) = Next
   ↔ HospitalSharing.canAccess now (hospitalSharings db) mine theirs = true)
  ∧ (HospitalSharing.canAccess now (hospitalSharings db) mine theirs = true →
     TestOrderRoutes.createOrder now db req b newId
     = (withTestOrders db
          (<[newId := TestOrderRoutes.newOrder req mine patient dept name type u amount b]>
             (testOrders db)),
        Success 201 "Test order created successfully"))
  ∧ (HospitalSharing.canAccess now (hospitalSharings db) mine theirs = false →
     TestOrderRoutes.createOrder now db req b newId = (db, Auth.forbiddenPatientData)).
Proof.
  intros Hrole Hmine Hpat Hprole Htheirs Hne Hp Hd Hn Ht Ha Hamt Hu Hdoc Hsame.
  pose proof (canAccessPatient_cross_hospital now db req patient pdoc mine theirs
                Hrole Hmine Hpat Hprole Htheirs Hne) as Hgate.
  assert (Hw : Auth.requireHealthcareWorker req = Next).
  { unfold Auth.requireHealthcareWorker.
    destruct (User.role (Auth.user req)); try discriminate Hrole; done. }
  split; [|split].
  - rewrite Hgate. by destruct (HospitalSharing.canAccess _ _ _ _).
  - intros Hcan. rewrite Hcan in Hgate.
    by apply (createOrder_ok now db req b newId patient dept name type amount ddoc mine u).
  - intros Hcan. rewrite Hcan in Hgate. unfold TestOrderRoutes.createOrder.
    by rewrite Hw, Hp, Hd, Hn, Ht, Ha, Hgate.
Qed.

(** C2: the code at the failing input. The doctor of hospital A orders a
    test for a patient of hospital B, at the laboratory of hospital A. The
    ledger holds the approved grant from A to B, so [canAccessPatient] calls
    [next] and the order is stored: for that patient, owned by hospital A,
    ordered by the doctor. With the ledger empty and nothing else changed,
    the same request is answered 403 and nothing is stored: the grant alone
    authorizes the write. *)
Theorem sharing_grant_authorizes_order :
  let order := Fixture.bloodCount Fixture.patientB None in
  let withGrant :=
    TestOrderRoutes.createOrder 1000 Fixture.dbShared Fixture.reqDoctorA order Fixture.order1 in
  let withoutGrant :=
    TestOrderRoutes.createOrder 1000 (withHospitalSharings Fixture.dbShared [])
      Fixture.reqDoctorA order Fixture.order1 in
  Auth.hospitalId Fixture.reqDoctorA = Some Fixture.hospitalA
  ∧ User.hospitalId <$> users Fixture.dbShared !! Fixture.patientB
    = Some (Some Fixture.hospitalB)
  ∧ Fixture.hospitalA ≠ Fixture.hospitalB
  ∧ HospitalSharing.canAccess 1000 (hospitalSharings Fixture.dbShared)
      Fixture.hospitalA Fixture.hospitalB = true
  ∧ (∃ o, withGrant
          = (withTestOrders Fixture.dbShared {[ Fixture.order1 := o ]},
             Success 201 "Test order created successfully")
          ∧ TestOrder.patientId o = Fixture.patientB
          ∧ TestOrder.hospitalId o = Fixture.hospitalA
          ∧ TestOrder.orderedBy o = Fixture.doctorA)
  ∧ withoutGrant = (withHospitalSharings Fixture.dbShared [], Auth.forbiddenPatientData)
  ∧ testOrders withoutGrant.1 = ∅.
Proof.
  intros order withGrant withoutGrant.
  split; [reflexivity|]. split; [vm_compute; reflexivity|].
  split; [discriminate|]. split; [vm_compute; reflexivity|]. split; [|split].
  - eexists. split; [vm_compute; reflexivity|]. repeat split.
  - vm_compute. reflexivity.
  - vm_compute. reflexivity.
Qed.

(** ** Requesting a sharing grant *)

(** C9, as stated, fails: hospital C is approved but its subscription is
    suspended, so it is not usable; the request of hospital A for C's records
    is accepted all the same and a pending record is created. *)
Lemma request_suspended_target_counterexample :
  let answer :=
    HospitalSharingRoutes.request 1000 Fixture.db0 Fixture.reqAdminA
      (Fixture.askFor Fixture.hospitalC) in
  hospitals Fixture.db0 !! Fixture.hospitalC = Some Fixture.suspended
  ∧ Hospital.isUsable Fixture.suspended = false
  ∧ (∃ doc,
       answer = (withHospitalSharings Fixture.db0 [doc],
                 Success 201 "Sharing request submitted successfully")
       ∧ HospitalSharing.targetHospitalId doc = Fixture.hospitalC
       ∧ HospitalSharing.status doc = HospitalSharing.pending)
  ∧ ¬ (Hospital.isUsable Fixture.suspended = false →
       ∃ status error message, answer = (Fixture.db0, Fail status error message)).
Proof.
  intros answer.
  split; [vm_compute; reflexivity|]. split; [reflexivity|]. split.
  - eexists. split; [vm_compute; reflexivity | split; reflexivity].
  - intros H. destruct (H eq_refl) as (s & e & msg & Heq).
    vm_compute in Heq. discriminate Heq.
Qed.

(** C9 (amended): for a hospital admin with a valid body the handler
    answers 400 "Invalid Request" when the string it is sent as
    [targetHospitalId] is the caller's own hospital id as [toString()]
    prints it. For a target hospital other than the caller's own it then
    checks, in this order: the target does not exist (404); the target's
    [approvalStatus] is not approved (400 "Invalid Hospital"; the
    subscription is not looked at); a record of any status exists for the
    ordered pair (400 "Request Exists"). Each of these leaves the database
    unchanged. Otherwise, with a valid scope, a pending record is appended. *)
Theorem request_guards (now : Time) (db : Db) (req : Auth.Req)
    (b : HospitalSharingRoutes.RequestBody) (sent : string) (reason : string)
    (mine : ObjectId) :
  Auth.requireHospitalAdmin req = Next →
  HospitalSharingRoutes.targetHospitalId b = Some sent →
  HospitalSharingRoutes.requestReason b = Some reason →
  Auth.hospitalId req = Some mine →
  (sent = mine →
   HospitalSharingRoutes.request now db req b
   = (db, Fail 400 "Invalid Request" "Cannot request sharing with your own hospital"))
  ∧ ∀ target,
      sent ≠ mine → castObjectId sent = Some target → target ≠ mine →
      (hospitals db !! target = None →
       HospitalSharingRoutes.request now db req b
       = (db, Fail 404 "Not Found" "Target hospital not found"))
      ∧ (∀ targetHospital,
           hospitals db !! target = Some targetHospital →
           (Hospital.approvalStatus targetHospital ≠ Hospital.Approval.approved →
            HospitalSharingRoutes.request now db req b
            = (db, Fail 400 "Invalid Hospital" "Target hospital is not approved"))
           ∧ (Hospital.approvalStatus targetHospital = Hospital.Approval.approved →
              (∀ existing,
                 existing ∈ hospitalSharings db →
                 HospitalSharing.requestingHospitalId existing = mine →
                 HospitalSharing.targetHospitalId existing = target →
                 ∃ message,
                   HospitalSharingRoutes.request now db req b
                   = (db, Fail 400 "Request Exists" message))
              ∧ ((∀ existing,
                    existing ∈ hospitalSharings db →
                    ¬ (HospitalSharing.requestingHospitalId existing = mine
                       ∧ HospitalSharing.targetHospitalId existing = target)) →
                 ∀ sc,
                   HospitalSharingRoutes.castScope
                     (default "full" (HospitalSharingRoutes.scope b)) = Some sc →
                   HospitalSharingRoutes.request now db req b
                   = (withHospitalSharings db
                        (hospitalSharings db
                         ++ [HospitalSharing.mk mine target HospitalSharing.pending sc
                               (default [] (HospitalSharingRoutes.specificPatients b))
                               None true reason (Auth.userId req) now]),
                      Success 201 "Sharing request submitted successfully")))).
Proof.
  intros Hadmin Hsent Hreason Hmine.
  unfold HospitalSharingRoutes.request. rewrite Hadmin, Hsent, Hreason, Hmine.
  split.
  - intros ->. by rewrite bool_decide_eq_true_2.
  - intros target Hne Hcast _. rewrite bool_decide_eq_false_2, Hcast by done.
    split.
    + intros Hnone. by rewrite Hnone.
    + intros targetHospital Hsome. rewrite Hsome. split.
      * intros Hna. by rewrite bool_decide_eq_true_2.
      * intros Happr. rewrite bool_decide_eq_false_2 by (intros H; by apply H).
        split.
        -- intros existing Hin Hr Ht.
           destruct (HospitalSharing.findOne _ _) as [found|] eqn:Hf.
           ++ eexists. reflexivity.
           ++ apply (findOne_None _ _ existing) in Hf; [|done].
              assert (HospitalSharing.pairFilter mine target existing = true)
                by by apply pairFilter_true.
              congruence.
        -- intros Hnone sc Hsc.
           destruct (HospitalSharing.findOne _ _) as [found|] eqn:Hf.
           ++ apply findOne_Some in Hf as [Hin Hflt].
              apply pairFilter_true in Hflt. by destruct (Hnone found Hin).
           ++ by rewrite Hsc.
Qed.

Lemma request_guards_witness :
  HospitalSharingRoutes.request 1000 Fixture.db0 Fixture.reqAdminA
    (Fixture.askFor Fixture.hospitalA)
  = (Fixture.db0,
     Fail 400 "Invalid Request" "Cannot request sharing with your own hospital").
Proof.
  apply (request_guards 1000 Fixture.db0 Fixture.reqAdminA _ Fixture.hospitalA
           "second opinions" Fixture.hospitalA); reflexivity.
Defined.

(** * Further properties *)

(** ** The sharing ledger over time *)

Section SharingOverTime.

Import HospitalSharing.

Lemma isExpired_later now now' r :
  (now ≤ now')%Z → isExpired now r = true → isExpired now' r = true.
Proof.
  unfold isExpired. destruct (expiresAt r) as [e|]; [|done].
  rewrite !bool_decide_eq_true. lia.
Qed.

Lemma canAccessDoc_true now r :
  canAccessDoc now r = true ↔
  status r = approved ∧ isActive r = true ∧ isExpired now r = false.
Proof.
  unfold canAccessDoc.
  rewrite !andb_true_iff, bool_decide_eq_true, negb_true_iff. tauto.
Qed.

Lemma preSave_pairKey now r : pairKey (preSave now r) = pairKey r.
Proof.
  unfold preSave. destruct (expiresAt r); [|done]. by case_bool_decide.
Qed.

Lemma preSave_status now r : status (preSave now r) = status r.
Proof.
  unfold preSave. destruct (expiresAt r); [|done]. by case_bool_decide.
Qed.

Lemma preSave_expiresAt now r : expiresAt (preSave now r) = expiresAt r.
Proof.
  unfold preSave. destruct (expiresAt r) eqn:He; [|done]. by case_bool_decide.
Qed.

Lemma preSave_isExpired now now' r :
  isExpired now' (preSave now r) = isExpired now' r.
Proof. unfold isExpired. by rewrite preSave_expiresAt. Qed.

Lemma preSave_isActive now r :
  isActive (preSave now r) = isActive r && negb (isExpired now r).
Proof.
  unfold preSave, isExpired. destruct (expiresAt r) as [e|].
  - case_bool_decide; simpl; [by rewrite andb_false_r | by rewrite andb_true_r].
  - by rewrite andb_true_r.
Qed.

End SharingOverTime.

(** X1: a grant that has lapsed stays lapsed. As long as the ledger is not
    changed, access that is given at a later time was given at every
    earlier time; once [canAccess] is false it is false from then on. *)
Theorem canAccess_expiry_is_final (now later : Time) (coll : list HospitalSharing.t)
    (a b : ObjectId) :
  (now ≤ later)%Z →
  HospitalSharing.canAccess later coll a b = true →
  HospitalSharing.canAccess now coll a b = true.
Proof.
  intros Hle. unfold HospitalSharing.canAccess.
  destruct (HospitalSharing.findOne _ coll) as [r|]; [|done].
  destruct (HospitalSharing.isExpired now r) eqn:He; [|done].
  by rewrite (isExpired_later now later r Hle He).
Qed.

Lemma canAccess_expiry_is_final_witness :
  HospitalSharing.canAccess 40 [Fixture.grantAB] Fixture.hospitalA Fixture.hospitalB = true.
Proof.
  apply (canAccess_expiry_is_final 40 100 [Fixture.grantAB]
           Fixture.hospitalA Fixture.hospitalB).
  - lia.
  - vm_compute. reflexivity.
Defined.

(** X2: the save hook of a sharing record never changes what the record
    grants at the time of the save, keeps the hospital pair, the status and
    the expiry date, and leaves no record both active and past its expiry;
    running it again changes nothing. [recordAccess], which saves, does not
    change what the record grants either. *)
Theorem sharing_preSave_keeps_verdict (now : Time) (r : HospitalSharing.t)
    (d : SharingRecords.Doc) :
  HospitalSharing.canAccessDoc now (HospitalSharing.preSave now r)
  = HospitalSharing.canAccessDoc now r
  ∧ HospitalSharing.pairKey (HospitalSharing.preSave now r) = HospitalSharing.pairKey r
  ∧ HospitalSharing.status (HospitalSharing.preSave now r) = HospitalSharing.status r
  ∧ HospitalSharing.expiresAt (HospitalSharing.preSave now r) = HospitalSharing.expiresAt r
  ∧ HospitalSharing.isActive (HospitalSharing.preSave now r)
    && HospitalSharing.isExpired now (HospitalSharing.preSave now r) = false
  ∧ HospitalSharing.preSave now (HospitalSharing.preSave now r)
    = HospitalSharing.preSave now r
  ∧ HospitalSharing.canAccessDoc now (SharingRecords.core (SharingRecords.recordAccess now d))
    = HospitalSharing.canAccessDoc now (SharingRecords.core d).
Proof.
  assert (Hverdict : ∀ x, HospitalSharing.canAccessDoc now (HospitalSharing.preSave now x)
                          = HospitalSharing.canAccessDoc now x).
  { intros x. unfold HospitalSharing.canAccessDoc.
    rewrite preSave_status, preSave_isActive, preSave_isExpired.
    destruct (bool_decide _), (HospitalSharing.isActive x),
      (HospitalSharing.isExpired now x); done. }
  split; [apply Hverdict|].
  split; [apply preSave_pairKey|]. split; [apply preSave_status|].
  split; [apply preSave_expiresAt|]. split; [|split].
  - rewrite preSave_isActive, preSave_isExpired.
    by destruct (HospitalSharing.isActive r), (HospitalSharing.isExpired now r).
  - unfold HospitalSharing.preSave at 1. rewrite preSave_expiresAt.
    destruct (HospitalSharing.expiresAt r) as [e|] eqn:He; [|done].
    case_bool_decide as Hlt; [|done].
    unfold HospitalSharing.preSave. rewrite He. by rewrite bool_decide_eq_true_2.
  - unfold SharingRecords.recordAccess, SharingRecords.save. simpl. apply Hverdict.
Qed.

(** ** The sharing routes and the ledger *)

Section SharingRoutes.

Lemma approvedFrom_true a r :
  SharingAdminRoutes.approvedFrom a r = true ↔
  HospitalSharing.requestingHospitalId r = a
  ∧ HospitalSharing.status r = HospitalSharing.approved
  ∧ HospitalSharing.isActive r = true.
Proof.
  unfold SharingAdminRoutes.approvedFrom.
  rewrite !andb_true_iff, !bool_decide_eq_true. tauto.
Qed.

(** The sharing records that the listing keeps are the grants in force. *)
Lemma listed_iff_grant now coll mine r :
  r ∈ List.filter (λ sharing, negb (HospitalSharing.isExpired now sharing))
        (List.filter (SharingAdminRoutes.approvedFrom mine) coll)
  ↔ r ∈ coll ∧ HospitalSharing.grant now mine (HospitalSharing.targetHospitalId r) r.
Proof.
  rewrite !list_elem_of_In, !filter_In, <- list_elem_of_In.
  rewrite approvedFrom_true, negb_true_iff, isExpired_false.
  unfold HospitalSharing.grant. tauto.
Qed.

End SharingRoutes.

(** X3: the list of accessible hospitals agrees with the access gate. Under
    the unique index, a hospital is on the list that
    [GET /accessible-hospitals] sends to a caller exactly when
    [canAccess(caller's hospital, that hospital)] holds and the hospital's
    document exists. *)
Theorem accessibleHospitals_iff_canAccess (now : Time) (db : Db) (req : Auth.Req)
    (mine : ObjectId) :
  HospitalSharing.uniqueIndex (hospitalSharings db) →
  Auth.hospitalId req = Some mine →
  ∃ data,
    SharingAdminRoutes.accessibleHospitals now db req = Sent data
    ∧ ∀ h doc,
        Some (h, doc) ∈ data
        ↔ HospitalSharing.canAccess now (hospitalSharings db) mine h = true
          ∧ hospitals db !! h = Some doc.
Proof.
  intros Huniq Hmine. unfold SharingAdminRoutes.accessibleHospitals. rewrite Hmine.
  eexists. split; [reflexivity|]. intros h doc.
  rewrite list_elem_of_fmap. split.
  - intros (r & Heq & Hin). apply listed_iff_grant in Hin as [Hin Hgrant].
    destruct (hospitals db !! HospitalSharing.targetHospitalId r) as [doc'|] eqn:Hdoc;
      [|discriminate Heq].
    simpl in Heq. injection Heq as -> ->. split; [|done].
    by apply (grant_canAccess now _ mine _ r).
  - intros [Hcan Hdoc]. apply canAccess_grant in Hcan as (r & Hin & Hgrant).
    exists r. assert (Ht : HospitalSharing.targetHospitalId r = h) by apply Hgrant.
    split.
    + by rewrite Ht, Hdoc.
    + apply listed_iff_grant. by rewrite Ht.
Qed.

Lemma accessibleHospitals_iff_canAccess_witness :
  ∃ data,
    SharingAdminRoutes.accessibleHospitals 1000 Fixture.dbShared Fixture.reqDoctorA
    = Sent data
    ∧ ∀ h doc,
        Some (h, doc) ∈ data
        ↔ HospitalSharing.canAccess 1000 (hospitalSharings Fixture.dbShared)
            Fixture.hospitalA h = true
          ∧ hospitals Fixture.dbShared !! h = Some doc.
Proof.
  apply (accessibleHospitals_iff_canAccess 1000 Fixture.dbShared Fixture.reqDoctorA
           Fixture.hospitalA).
  - unfold HospitalSharing.uniqueIndex. simpl. apply NoDup_singleton.
  - reflexivity.
Defined.

(** X4: the request route keeps the unique index on (requesting, target):
    whatever the request, the records that were in the ledger are still
    there, unchanged and in the same order, at most one pending record is
    appended, and no two records of the resulting ledger share an ordered
    pair of hospitals. Nothing else in the database changes. *)
Theorem request_keeps_unique_index (now : Time) (db : Db) (req : Auth.Req)
    (b : HospitalSharingRoutes.RequestBody) :
  HospitalSharing.uniqueIndex (hospitalSharings db) →
  let db' := (HospitalSharingRoutes.request now db req b).1 in
  HospitalSharing.uniqueIndex (hospitalSharings db')
  ∧ (hospitalSharings db' = hospitalSharings db
     ∨ ∃ doc, hospitalSharings db' = (hospitalSharings db ++ [doc])%list
              ∧ HospitalSharing.status doc = HospitalSharing.pending
              ∧ HospitalSharing.isActive doc = true
              ∧ HospitalSharing.expiresAt doc = None
              ∧ Some (HospitalSharing.requestingHospitalId doc) = Auth.hospitalId req)
  ∧ users db' = users db ∧ hospitals db' = hospitals db
  ∧ departments db' = departments db ∧ testOrders db' = testOrders db.
Proof.
  intros Huniq. simpl. unfold HospitalSharingRoutes.request.
  assert (Hsame : ∀ r : Response,
    HospitalSharing.uniqueIndex (hospitalSharings (db, r).1)
    ∧ (hospitalSharings (db, r).1 = hospitalSharings db
       ∨ ∃ doc, hospitalSharings (db, r).1 = (hospitalSharings db ++ [doc])%list
                ∧ HospitalSharing.status doc = HospitalSharing.pending
                ∧ HospitalSharing.isActive doc = true
                ∧ HospitalSharing.expiresAt doc = None
                ∧ Some (HospitalSharing.requestingHospitalId doc) = Auth.hospitalId req)
    ∧ users (db, r).1 = users db ∧ hospitals (db, r).1 = hospitals db
    ∧ departments (db, r).1 = departments db ∧ testOrders (db, r).1 = testOrders db).
  { intros r. simpl. split; [done|]. split; [by left | done]. }
  destruct (Auth.requireHospitalAdmin req); [|apply Hsame].
  destruct (HospitalSharingRoutes.targetHospitalId b) as [sent|]; [|apply Hsame].
  destruct (HospitalSharingRoutes.requestReason b) as [reason|]; [|apply Hsame].
  destruct (Auth.hospitalId req) as [mine|]; [|apply Hsame].
  destruct (bool_decide (sent = mine)); [apply Hsame|].
  destruct (castObjectId sent) as [target|]; [|apply Hsame].
  destruct (hospitals db !! target) as [th|]; [|apply Hsame].
  destruct (bool_decide (Hospital.approvalStatus th ≠ _)); [apply Hsame|].
  destruct (HospitalSharing.findOne _ _) as [existing|] eqn:Hfind; [apply Hsame|].
  destruct (HospitalSharingRoutes.castScope _) as [sc|]; [|apply Hsame].
  clear Hsame.
  simpl. split; [|split; [|done]].
  - unfold HospitalSharing.uniqueIndex. rewrite fmap_app. apply NoDup_app.
    split; [done|]. split; [|apply NoDup_singleton].
    intros key Hin Hnew. apply list_elem_of_singleton in Hnew. subst key.
    apply list_elem_of_fmap in Hin as (r & Hkey & Hin).
    apply (findOne_None _ _ r) in Hfind; [|done].
    assert (HospitalSharing.pairFilter mine target r = true); [|congruence].
    apply pairFilter_true. unfold HospitalSharing.pairKey in Hkey. simpl in Hkey.
    by injection Hkey as -> ->.
  - right. eexists. split; [reflexivity|]. by repeat split.
Qed.

Lemma request_keeps_unique_index_witness :
  HospitalSharing.uniqueIndex
    (hospitalSharings
       (HospitalSharingRoutes.request 1000 Fixture.dbShared Fixture.reqAdminA
          (Fixture.askFor Fixture.hospitalC)).1).
Proof.
  apply (request_keeps_unique_index 1000 Fixture.dbShared Fixture.reqAdminA
           (Fixture.askFor Fixture.hospitalC)).
  unfold HospitalSharing.uniqueIndex. simpl. apply NoDup_singleton.
Defined.

(** ** The super-admin routes *)

Section SharingAdmin.

Import SharingRecords.

Lemma findById_Some id (coll : list (ObjectId * Doc)) d :
  findById id coll = Some d → (id, d) ∈ coll.
Proof.
  unfold findById. destruct (List.find _ coll) as [[i x]|] eqn:Hf; [|done].
  simpl. intros [= ->]. apply find_some in Hf as [Hin Hid].
  apply bool_decide_eq_true in Hid. simpl in Hid. subst i.
  by apply list_elem_of_In.
Qed.

Lemma findById_None id (coll : list (ObjectId * Doc)) :
  findById id coll = None → id ∉ (fst <$> coll).
Proof.
  unfold findById. destruct (List.find _ coll) as [e|] eqn:Hf; [done|].
  intros _ Hin. apply list_elem_of_fmap in Hin as ([i x] & Hid & Hin).
  simpl in Hid. subst i. apply list_elem_of_In in Hin.
  apply (find_none _ _ Hf) in Hin. simpl in Hin.
  by rewrite bool_decide_eq_true_2 in Hin.
Qed.

(** Writing back a document touches no other document. *)
Lemma store_absent id d (coll : list (ObjectId * Doc)) :
  id ∉ (fst <$> coll) → store id d coll = coll.
Proof.
  unfold store. induction coll as [|[i x] coll IH]; [done|].
  rewrite fmap_cons, not_elem_of_cons. simpl. intros [Hne Hnotin].
  rewrite bool_decide_eq_false_2 by done. f_equal. by apply IH.
Qed.

Lemma store_fst id d (coll : list (ObjectId * Doc)) :
  fst <$> store id d coll = fst <$> coll.
Proof.
  unfold store. induction coll as [|[i x] coll IH]; [done|].
  rewrite !fmap_cons, IH. f_equal. simpl. by case_bool_decide.
Qed.

Lemma store_elem id d d0 (coll : list (ObjectId * Doc)) :
  findById id coll = Some d0 → core d ∈ cores (store id d coll).
Proof.
  intros Hf. apply findById_Some in Hf. unfold cores, store.
  apply list_elem_of_fmap. exists (id, d). split; [done|].
  apply list_elem_of_fmap. exists (id, d0). split; [|done].
  simpl. by rewrite bool_decide_eq_true_2.
Qed.

(** A write that keeps the hospital pair keeps the pairs of the ledger. *)
Lemma store_pairKeys id d d0 (coll : list (ObjectId * Doc)) :
  uniqueIds coll → findById id coll = Some d0 →
  HospitalSharing.pairKey (core d) = HospitalSharing.pairKey (core d0) →
  HospitalSharing.pairKey <$> cores (store id d coll)
  = HospitalSharing.pairKey <$> cores coll.
Proof.
  unfold uniqueIds, cores. induction coll as [|[i x] coll IH]; [done|].
  rewrite fmap_cons. intros Hnd Hf Hkey. apply NoDup_cons in Hnd as [Hnotin Hnd].
  unfold findById in Hf. simpl in Hf, Hnotin.
  destruct (bool_decide (i = id)) eqn:Hid.
  - apply bool_decide_eq_true in Hid. subst i. simpl in Hf. injection Hf as ->.
    unfold store. rewrite fmap_cons. simpl. rewrite bool_decide_eq_true_2 by done.
    fold (store id d coll). rewrite (store_absent id d coll Hnotin).
    simpl. by rewrite Hkey.
  - unfold store. rewrite fmap_cons. simpl. rewrite Hid. simpl. f_equal.
    by apply IH.
Qed.

Lemma deleteOne_subset id (coll : list (ObjectId * Doc)) r :
  r ∈ cores (deleteOne id coll) → r ∈ cores coll.
Proof.
  unfold cores, deleteOne. rewrite !list_elem_of_fmap.
  intros (e & He & Hin). exists e. split; [done|].
  apply list_elem_of_In in Hin. apply filter_In in Hin as [Hin _].
  by apply list_elem_of_In.
Qed.

End SharingAdmin.

Section SharingVerdict.

Import HospitalSharing.

(** Under the unique index the query of [canAccess] finds the one record of
    the pair, so the static method and the virtual agree on it. *)
Lemma canAccess_of_member now coll r :
  uniqueIndex coll → r ∈ coll →
  canAccess now coll (requestingHospitalId r) (targetHospitalId r) = canAccessDoc now r.
Proof.
  intros Huniq Hin.
  destruct (canAccessDoc now r) eqn:Hdoc.
  - apply canAccessDoc_true in Hdoc as (Hs & Hact & Hexp).
    apply (grant_canAccess now coll _ _ r); [done..|].
    apply isExpired_false in Hexp. by repeat split.
  - apply not_true_is_false. intros Hcan.
    apply canAccess_grant in Hcan as (r' & Hin' & Ha & Hb & Hs & Hact & Hexp).
    assert (r' = r) as ->.
    { apply (uniqueIndex_inj coll); [done..|]. unfold pairKey. congruence. }
    apply isExpired_false in Hexp.
    assert (canAccessDoc now r = true) by (apply canAccessDoc_true; done).
    congruence.
Qed.

Lemma canAccess_no_record now coll a b :
  (∀ r, r ∈ coll → ¬ (requestingHospitalId r = a ∧ targetHospitalId r = b)) →
  canAccess now coll a b = false.
Proof.
  intros Hnone. apply not_true_is_false. intros Hcan.
  apply canAccess_grant in Hcan as (r & Hin & Ha & Hb & _).
  by apply (Hnone r Hin).
Qed.

End SharingVerdict.

(** X5: the static [canAccess] and the [canAccess] virtual of a document
    agree. Under the unique index, for every record of the ledger
    [HospitalSharing.canAccess(requesting, target)] is the value of the
    record's own [canAccess]; and for a pair of hospitals with no record the
    static method is false. *)
Theorem canAccess_static_agrees_with_virtual (now : Time) (coll : list HospitalSharing.t) :
  HospitalSharing.uniqueIndex coll →
  (∀ r, r ∈ coll →
        HospitalSharing.canAccess now coll (HospitalSharing.requestingHospitalId r)
          (HospitalSharing.targetHospitalId r)
        = HospitalSharing.canAccessDoc now r)
  ∧ (∀ a b,
       (∀ r, r ∈ coll → HospitalSharing.pairKey r ≠ (a, b)) →
       HospitalSharing.canAccess now coll a b = false).
Proof.
  intros Huniq. split.
  - intros r Hin. by apply canAccess_of_member.
  - intros a b Hnone. apply canAccess_no_record. intros r Hin [Ha Hb].
    apply (Hnone r Hin). unfold HospitalSharing.pairKey. by rewrite Ha, Hb.
Qed.

Lemma canAccess_static_agrees_with_virtual_witness :
  HospitalSharing.canAccess 100 [Fixture.grantAB]
    (HospitalSharing.requestingHospitalId Fixture.grantAB)
    (HospitalSharing.targetHospitalId Fixture.grantAB)
  = HospitalSharing.canAccessDoc 100 Fixture.grantAB.
Proof.
  apply (canAccess_static_agrees_with_virtual 100 [Fixture.grantAB]).
  - unfold HospitalSharing.uniqueIndex. simpl. apply NoDup_singleton.
  - apply list_elem_of_singleton. reflexivity.
Defined.

(** The ledger of the scenario is what the request route writes. *)
Example request_creates_scenario_ledger :
  (HospitalSharingRoutes.request 1000 Fixture.db0 Fixture.reqAdminA
     (Fixture.askFor Fixture.hospitalB)).1
  = withHospitalSharings Fixture.db0 (SharingRecords.cores Scenario.ledger).
Proof. vm_compute. reflexivity. Qed.

Section ApproveRoute.

Import SharingRecords.

Lemma approve_Success now hs (coll : list (ObjectId * Doc)) req id b coll' s m :
  SharingAdminRoutes.approve now hs coll req id b = (coll', Success s m) →
  ∃ sharing ha ht,
    findById id coll = Some sharing
    ∧ User.role (Auth.user req) = User.super_admin
    ∧ HospitalSharing.status (core sharing) = HospitalSharing.pending
    ∧ hs !! HospitalSharing.requestingHospitalId (core sharing) = Some ha
    ∧ hs !! HospitalSharing.targetHospitalId (core sharing) = Some ht
    ∧ Hospital.canShareRecords ha = true ∧ Hospital.canShareRecords ht = true
    ∧ coll' = store id
        (match SharingAdminRoutes.expiresAt b with
         | SharingAdminRoutes.ExpiresOn t =>
             save now
               (mkDoc (setExpiresAt (Some t)
                         (core (approve now (Auth.userId req)
                                  (SharingAdminRoutes.notes b) sharing)))
                      (audit (approve now (Auth.userId req)
                                (SharingAdminRoutes.notes b) sharing)))
         | _ => approve now (Auth.userId req) (SharingAdminRoutes.notes b) sharing
         end) coll.
Proof.
  unfold SharingAdminRoutes.approve, Auth.requireSuperAdmin.
  destruct (bool_decide (User.role (Auth.user req) ≠ User.super_admin)) eqn:Hrole;
    [intros [=]|].
  apply bool_decide_eq_false in Hrole.
  destruct (bool_decide (SharingAdminRoutes.expiresAt b = _)); [intros [=]|].
  destruct (findById id coll) as [sharing|] eqn:Hf; [|intros [=]].
  destruct (bool_decide (HospitalSharing.status (core sharing) ≠ _)) eqn:Hst;
    [intros [=]|].
  apply bool_decide_eq_false in Hst.
  destruct (hs !! HospitalSharing.requestingHospitalId (core sharing)) as [ha|] eqn:Ha;
    [|intros [=]].
  destruct (Hospital.canShareRecords ha) eqn:Hca; [|intros [=]].
  destruct (hs !! HospitalSharing.targetHospitalId (core sharing)) as [ht|] eqn:Ht;
    [|intros [=]].
  destruct (Hospital.canShareRecords ht) eqn:Hct; [|intros [=]].
  simpl. intros [= <- _ _]. exists sharing, ha, ht.
  repeat split; try done.
  - destruct (decide (User.role (Auth.user req) = User.super_admin)); [done|].
    by destruct Hrole.
  - destruct (decide (HospitalSharing.status (core sharing) = HospitalSharing.pending));
      [done | by destruct Hst].
Qed.

End ApproveRoute.

(** X6: what an approval gives. When the approve route succeeds, the caller
    is a super admin, the record was pending and both hospitals pass
    [canShareRecords]; the ledger keeps its ids and its unique index; and,
    for a record that was active and had no expiry (as the request route
    creates it), hospital-to-hospital access is then granted at every time
    when no expiry date is given, and, with an expiry date [e], exactly at
    times up to [e] provided [e] was not already past at approval: an
    approval with a date in the past grants nothing. *)
Theorem approve_grants_access (now : Time) (hs : gmap ObjectId Hospital.t)
    (coll coll' : list (ObjectId * SharingRecords.Doc)) (req : Auth.Req)
    (id : ObjectId) (b : SharingAdminRoutes.ApproveBody) (s : nat) (m : string) :
  SharingRecords.uniqueIds coll →
  HospitalSharing.uniqueIndex (SharingRecords.cores coll) →
  SharingAdminRoutes.approve now hs coll req id b = (coll', Success s m) →
  ∃ sharing ha ht,
    let requesting := HospitalSharing.requestingHospitalId (SharingRecords.core sharing) in
    let target := HospitalSharing.targetHospitalId (SharingRecords.core sharing) in
    SharingRecords.findById id coll = Some sharing
    ∧ User.role (Auth.user req) = User.super_admin
    ∧ HospitalSharing.status (SharingRecords.core sharing) = HospitalSharing.pending
    ∧ hs !! requesting = Some ha ∧ hs !! target = Some ht
    ∧ Hospital.canShareRecords ha = true ∧ Hospital.canShareRecords ht = true
    ∧ HospitalSharing.uniqueIndex (SharingRecords.cores coll')
    ∧ fst <$> coll' = fst <$> coll
    ∧ (HospitalSharing.expiresAt (SharingRecords.core sharing) = None →
       HospitalSharing.isActive (SharingRecords.core sharing) = true →
       ∀ later,
         HospitalSharing.canAccess later (SharingRecords.cores coll') requesting target
         = match SharingAdminRoutes.expiresAt b with
           | SharingAdminRoutes.ExpiresOn e =>
               bool_decide (now ≤ e)%Z && bool_decide (later ≤ e)%Z
           | _ => true
           end).
Proof.
  intros Hids Huniq Hok.
  apply approve_Success in Hok as (sharing & ha & ht & Hf & Hrole & Hst & Ha & Ht
                                   & Hca & Hct & ->).
  exists sharing, ha, ht. simpl.
  set (saved := match SharingAdminRoutes.expiresAt b with
                | SharingAdminRoutes.ExpiresOn _ => _ | _ => _ end).
  assert (Hkey : HospitalSharing.pairKey (SharingRecords.core saved)
                 = HospitalSharing.pairKey (SharingRecords.core sharing)).
  { unfold saved. destruct (SharingAdminRoutes.expiresAt b); simpl;
      rewrite ?preSave_pairKey;
      try exact (preSave_pairKey now
                   (SharingRecords.setStatus HospitalSharing.approved
                      (SharingRecords.core sharing)));
      done. }
  assert (Huniq' : HospitalSharing.uniqueIndex
                     (SharingRecords.cores (SharingRecords.store id saved coll))).
  { unfold HospitalSharing.uniqueIndex.
    by rewrite (store_pairKeys id saved sharing coll Hids Hf Hkey). }
  repeat split; try done.
  - apply store_fst.
  - intros Hnone Hact later.
    injection Hkey as Hka Hkb. rewrite <- Hka, <- Hkb.
    rewrite canAccess_of_member; [|done | by apply (store_elem id saved sharing)].
    unfold saved, HospitalSharing.canAccessDoc.
    destruct sharing as [[ra rt rs rsc rp re ract rr rb rq] au].
    simpl in Hnone, Hact. subst re ract.
    destruct (SharingAdminRoutes.expiresAt b) as [| |e]; try done.
    simpl. unfold HospitalSharing.preSave, HospitalSharing.isExpired. simpl.
    destruct (decide (e < now)%Z) as [Hlt|Hge].
    + rewrite (bool_decide_eq_true_2 (e < now)%Z) by done. simpl.
      by rewrite (bool_decide_eq_false_2 (now ≤ e)%Z) by lia.
    + rewrite (bool_decide_eq_false_2 (e < now)%Z) by done. simpl.
      rewrite (bool_decide_eq_true_2 (now ≤ e)%Z) by lia. simpl.
      destruct (decide (later ≤ e)%Z).
      * rewrite (bool_decide_eq_true_2 (later ≤ e)%Z) by done.
        by rewrite (bool_decide_eq_false_2 (e < later)%Z) by lia.
      * rewrite (bool_decide_eq_false_2 (later ≤ e)%Z) by done.
        by rewrite (bool_decide_eq_true_2 (e < later)%Z) by lia.
Qed.

Lemma approve_grants_access_witness :
  (SharingAdminRoutes.approve 2000 (hospitals Fixture.db0) Scenario.ledger
     Fixture.reqSuperAdmin Scenario.sharing1 (Scenario.approveUntil 1500)).2
  = Success 200 "Sharing request approved"
  ∧ ∀ later,
      HospitalSharing.canAccess later
        (SharingRecords.cores
           (SharingAdminRoutes.approve 2000 (hospitals Fixture.db0) Scenario.ledger
              Fixture.reqSuperAdmin Scenario.sharing1 (Scenario.approveUntil 1500)).1)
        Fixture.hospitalA Fixture.hospitalB
      = false.
Proof.
  split; [vm_compute; reflexivity|].
  destruct (approve_grants_access 2000 (hospitals Fixture.db0) Scenario.ledger
              (SharingAdminRoutes.approve 2000 (hospitals Fixture.db0) Scenario.ledger
                 Fixture.reqSuperAdmin Scenario.sharing1 (Scenario.approveUntil 1500)).1
              Fixture.reqSuperAdmin Scenario.sharing1 (Scenario.approveUntil 1500)
              200 "Sharing request approved")
    as (sharing & ha & ht & Hf & _ & _ & _ & _ & _ & _ & _ & _ & Hverdict).
  - unfold SharingRecords.uniqueIds. simpl. apply NoDup_singleton.
  - unfold HospitalSharing.uniqueIndex. simpl. apply NoDup_singleton.
  - vm_compute. reflexivity.
  - vm_compute in Hf. injection Hf as <-. intros later.
    exact (Hverdict eq_refl eq_refl later).
Defined.

Section ClosingRoutes.

Import SharingRecords.

Lemma findById_store id d d0 (coll : list (ObjectId * Doc)) :
  findById id coll = Some d0 → findById id (store id d coll) = Some d.
Proof.
  unfold findById, store. induction coll as [|[i x] coll IH]; [done|].
  simpl. destruct (bool_decide (i = id)) eqn:Hid; simpl.
  - intros _. by rewrite bool_decide_eq_true_2.
  - rewrite Hid. apply IH.
Qed.

Lemma NoDup_fmap_eq {A B} (f : A → B) (l : list A) x y :
  NoDup (f <$> l) → x ∈ l → y ∈ l → f x = f y → x = y.
Proof.
  induction l as [|z l IH]; intros Hnd Hx Hy Hf.
  - by apply elem_of_nil in Hx.
  - rewrite fmap_cons in Hnd. apply NoDup_cons in Hnd as [Hnotin Hnd].
    apply elem_of_cons in Hx as [-> | Hx]; apply elem_of_cons in Hy as [-> | Hy].
    + done.
    + exfalso. apply Hnotin. rewrite Hf. by apply list_elem_of_fmap_2.
    + exfalso. apply Hnotin. rewrite <- Hf. by apply list_elem_of_fmap_2.
    + by apply IH.
Qed.

Lemma deleteOne_uniqueIndex id (coll : list (ObjectId * Doc)) :
  HospitalSharing.uniqueIndex (cores coll) →
  HospitalSharing.uniqueIndex (cores (deleteOne id coll)).
Proof.
  unfold HospitalSharing.uniqueIndex, cores, deleteOne.
  induction coll as [|e coll IH]; [done|].
  rewrite !fmap_cons. intros Hnd. apply NoDup_cons in Hnd as [Hnotin Hnd].
  simpl. destruct (negb (bool_decide (e.1 = id))); [|by apply IH].
  rewrite !fmap_cons. apply NoDup_cons. split; [|by apply IH].
  intros Hin. apply Hnotin.
  apply list_elem_of_fmap in Hin as (r & Hr & Hin).
  apply list_elem_of_fmap. exists r. split; [done|].
  by apply (deleteOne_subset id coll).
Qed.

Lemma deleteOne_findById id (coll : list (ObjectId * Doc)) :
  findById id (deleteOne id coll) = None.
Proof.
  unfold findById, deleteOne. induction coll as [|[i x] coll IH]; [done|].
  simpl. destruct (bool_decide (i = id)) eqn:Hid; simpl; [done|].
  by rewrite Hid.
Qed.

(** Once the record of a pair is deleted, the ledger holds none for it. *)
Lemma deleteOne_no_record id sharing (coll : list (ObjectId * Doc)) r :
  HospitalSharing.uniqueIndex (cores coll) →
  findById id coll = Some sharing →
  r ∈ cores (deleteOne id coll) →
  HospitalSharing.pairKey r ≠ HospitalSharing.pairKey (core sharing).
Proof.
  unfold HospitalSharing.uniqueIndex, cores. rewrite <- list_fmap_compose.
  intros Huniq Hf Hin Hkey. apply findById_Some in Hf.
  apply list_elem_of_fmap in Hin as (e & -> & Hin).
  unfold deleteOne in Hin. apply list_elem_of_In, filter_In in Hin as [Hin Hid].
  apply list_elem_of_In in Hin.
  assert (e = (id, sharing)) as ->.
  { by apply (NoDup_fmap_eq _ coll e (id, sharing) Huniq). }
  simpl in Hid. by rewrite bool_decide_eq_true_2 in Hid.
Qed.

End ClosingRoutes.

(** X7: rejected and revoked records are final. For a record whose status
    is rejected or revoked, the approve, reject, revoke and cancel routes all
    leave the ledger exactly as it is, whoever calls them; and since the
    request route refuses a pair that has a record of any status, the
    requesting hospital cannot ask for the same target again, in whatever
    spelling it sends the target's id. *)
Theorem closed_sharing_records_are_final (now : Time) (hs : gmap ObjectId Hospital.t)
    (coll : list (ObjectId * SharingRecords.Doc)) (req : Auth.Req) (id : ObjectId)
    (sharing : SharingRecords.Doc) (b : SharingAdminRoutes.ApproveBody)
    (reason : option string) (db : Db) (rb : HospitalSharingRoutes.RequestBody) :
  SharingRecords.findById id coll = Some sharing →
  HospitalSharing.status (SharingRecords.core sharing) = HospitalSharing.rejected
  ∨ HospitalSharing.status (SharingRecords.core sharing) = HospitalSharing.revoked →
  (SharingAdminRoutes.approve now hs coll req id b).1 = coll
  ∧ (SharingAdminRoutes.reject now coll req id reason).1 = coll
  ∧ (SharingAdminRoutes.revoke now coll req id reason).1 = coll
  ∧ (SharingAdminRoutes.cancel coll req id).1 = coll
  ∧ (hospitalSharings db = SharingRecords.cores coll →
     Auth.hospitalId req
     = Some (HospitalSharing.requestingHospitalId (SharingRecords.core sharing)) →
     ∀ sent,
       HospitalSharingRoutes.targetHospitalId rb = Some sent →
       castObjectId sent
       = Some (HospitalSharing.targetHospitalId (SharingRecords.core sharing)) →
       (HospitalSharingRoutes.request now db req rb).1 = db).
Proof.
  intros Hf Hclosed.
  assert (Hnp : HospitalSharing.status (SharingRecords.core sharing)
                ≠ HospitalSharing.pending) by (destruct Hclosed as [-> | ->]; done).
  assert (Hna : HospitalSharing.status (SharingRecords.core sharing)
                ≠ HospitalSharing.approved) by (destruct Hclosed as [-> | ->]; done).
  split; [|split; [|split; [|split]]].
  - unfold SharingAdminRoutes.approve. destruct (Auth.requireSuperAdmin req); [|done].
    destruct (bool_decide (SharingAdminRoutes.expiresAt b = _)); [done|].
    rewrite Hf. by rewrite bool_decide_eq_true_2.
  - unfold SharingAdminRoutes.reject. destruct (Auth.requireSuperAdmin req); [|done].
    destruct reason; [|done]. rewrite Hf. by rewrite bool_decide_eq_true_2.
  - unfold SharingAdminRoutes.revoke. destruct (Auth.requireSuperAdmin req); [|done].
    destruct reason; [|done]. rewrite Hf. by rewrite bool_decide_eq_true_2.
  - unfold SharingAdminRoutes.cancel. destruct (Auth.requireHospitalAdmin req); [|done].
    rewrite Hf. destruct (Auth.hospitalId req); [|done].
    destruct (bool_decide (_ ≠ _)); [done|]. by rewrite bool_decide_eq_true_2.
  - intros Hcoll Hmine sent Hsent Hcast. unfold HospitalSharingRoutes.request.
    destruct (Auth.requireHospitalAdmin req); [|done].
    rewrite Hsent, Hmine.
    destruct (HospitalSharingRoutes.requestReason rb); [|done].
    destruct (bool_decide (_ = _)); [done|]. rewrite Hcast.
    destruct (hospitals db !! _); [|done].
    destruct (bool_decide (_ ≠ _)); [done|].
    destruct (HospitalSharing.findOne _ _) as [existing|] eqn:Hfind; [done|].
    exfalso.
    apply (findOne_None _ _ (SharingRecords.core sharing)) in Hfind.
    + assert (HospitalSharing.pairFilter
                (HospitalSharing.requestingHospitalId (SharingRecords.core sharing))
                (HospitalSharing.targetHospitalId (SharingRecords.core sharing))
                (SharingRecords.core sharing) = true) by by apply pairFilter_true.
      congruence.
    + rewrite Hcoll. apply findById_Some in Hf. unfold SharingRecords.cores.
      apply list_elem_of_fmap. by exists (id, sharing).
Qed.

Lemma closed_sharing_records_are_final_witness :
  (SharingAdminRoutes.approve 3000 (hospitals Fixture.db0) Scenario.rejectedLedger
     Fixture.reqSuperAdmin Scenario.sharing1 Scenario.approveForGood).1
  = Scenario.rejectedLedger.
Proof.
  apply (closed_sharing_records_are_final 3000 (hospitals Fixture.db0)
           Scenario.rejectedLedger Fixture.reqSuperAdmin Scenario.sharing1
           (SharingRecords.reject 2000 Fixture.superAdmin "no agreement on file"
              Scenario.pendingAB)
           Scenario.approveForGood None Fixture.db0 (Fixture.askFor Fixture.hospitalB)).
  - vm_compute. reflexivity.
  - left. reflexivity.
Defined.

(** X8: revoking ends access for good. When the revoke route succeeds the
    caller is a super admin and the record was approved; the stored record
    is revoked and inactive, the ledger keeps its unique index, and from
    then on [canAccess(requesting, target)] is false at every time. *)
Theorem revoke_ends_access (now : Time) (coll coll' : list (ObjectId * SharingRecords.Doc))
    (req : Auth.Req) (id : ObjectId) (reason : option string) (s : nat) (m : string) :
  SharingRecords.uniqueIds coll →
  HospitalSharing.uniqueIndex (SharingRecords.cores coll) →
  SharingAdminRoutes.revoke now coll req id reason = (coll', Success s m) →
  ∃ sharing revoked,
    SharingRecords.findById id coll = Some sharing
    ∧ User.role (Auth.user req) = User.super_admin
    ∧ HospitalSharing.status (SharingRecords.core sharing) = HospitalSharing.approved
    ∧ SharingRecords.findById id coll' = Some revoked
    ∧ HospitalSharing.status (SharingRecords.core revoked) = HospitalSharing.revoked
    ∧ HospitalSharing.isActive (SharingRecords.core revoked) = false
    ∧ SharingRecords.revokedAt (SharingRecords.audit revoked) = Some now
    ∧ HospitalSharing.uniqueIndex (SharingRecords.cores coll')
    ∧ ∀ later,
        HospitalSharing.canAccess later (SharingRecords.cores coll')
          (HospitalSharing.requestingHospitalId (SharingRecords.core sharing))
          (HospitalSharing.targetHospitalId (SharingRecords.core sharing))
        = false.
Proof.
  intros Hids Huniq. unfold SharingAdminRoutes.revoke, Auth.requireSuperAdmin.
  destruct (bool_decide (User.role (Auth.user req) ≠ User.super_admin)) eqn:Hrole;
    [intros [=]|].
  apply bool_decide_eq_false in Hrole.
  destruct reason as [why|]; [|intros [=]].
  destruct (SharingRecords.findById id coll) as [sharing|] eqn:Hf; [|intros [=]].
  destruct (bool_decide (HospitalSharing.status (SharingRecords.core sharing) ≠ _))
    eqn:Hst; [intros [=]|].
  apply bool_decide_eq_false in Hst. intros [= <- _ _].
  set (revoked := SharingRecords.revoke now (Auth.userId req) why sharing).
  assert (Hkey : HospitalSharing.pairKey (SharingRecords.core revoked)
                 = HospitalSharing.pairKey (SharingRecords.core sharing))
    by exact (preSave_pairKey now _).
  assert (Hstatus : HospitalSharing.status (SharingRecords.core revoked)
                    = HospitalSharing.revoked)
    by exact (preSave_status now _).
  assert (Huniq' : HospitalSharing.uniqueIndex
                     (SharingRecords.cores (SharingRecords.store id revoked coll))).
  { unfold HospitalSharing.uniqueIndex.
    by rewrite (store_pairKeys id revoked sharing coll Hids Hf Hkey). }
  exists sharing, revoked. repeat split; try done.
  - destruct (decide (User.role (Auth.user req) = User.super_admin)); [done|].
    by destruct Hrole.
  - destruct (decide (HospitalSharing.status (SharingRecords.core sharing)
                      = HospitalSharing.approved)); [done | by destruct Hst].
  - by apply (findById_store id revoked sharing).
  - unfold revoked, SharingRecords.revoke, SharingRecords.save. simpl.
    by rewrite preSave_isActive.
  - intros later.
    assert (Hdoc : HospitalSharing.canAccessDoc later (SharingRecords.core revoked) = false)
      by (unfold HospitalSharing.canAccessDoc; by rewrite Hstatus).
    injection Hkey as Hka Hkb. rewrite <- Hka, <- Hkb.
    rewrite canAccess_of_member; [|done | by apply (store_elem id revoked sharing)].
    exact Hdoc.
Qed.

Lemma revoke_ends_access_witness :
  let approved :=
    (SharingAdminRoutes.approve 2000 (hospitals Fixture.db0) Scenario.ledger
       Fixture.reqSuperAdmin Scenario.sharing1 Scenario.approveForGood).1 in
  let revoked :=
    (SharingAdminRoutes.revoke 3000 approved Fixture.reqSuperAdmin Scenario.sharing1
       (Some "agreement ended")).1 in
  HospitalSharing.canAccess 2500 (SharingRecords.cores approved)
    Fixture.hospitalA Fixture.hospitalB = true
  ∧ ∀ later,
      HospitalSharing.canAccess later (SharingRecords.cores revoked)
        Fixture.hospitalA Fixture.hospitalB = false.
Proof.
  intros approved revoked. split; [vm_compute; reflexivity|].
  destruct (revoke_ends_access 3000 approved revoked Fixture.reqSuperAdmin
              Scenario.sharing1 (Some "agreement ended") 200
              "Sharing revoked successfully")
    as (sharing & r & Hf & _ & _ & _ & _ & _ & _ & _ & Hnever).
  - unfold SharingRecords.uniqueIds. vm_compute. apply NoDup_singleton.
  - unfold HospitalSharing.uniqueIndex. vm_compute. apply NoDup_singleton.
  - vm_compute. reflexivity.
  - vm_compute in Hf. injection Hf as <-. exact Hnever.
Defined.

(** X9: cancelling a pending request frees the pair. When the cancel route
    succeeds, the caller is an admin of the requesting hospital and the
    record was pending; the record is gone, the ledger keeps its unique
    index and holds no record for the pair any more, so [canAccess] is false
    for it and a new request from the same hospital for the same approved
    target, sent in any spelling that is not the caller's own printed id, is
    accepted. *)
Theorem cancel_frees_the_pair (coll coll' : list (ObjectId * SharingRecords.Doc))
    (req : Auth.Req) (id : ObjectId) (s : nat) (m : string) :
  HospitalSharing.uniqueIndex (SharingRecords.cores coll) →
  SharingAdminRoutes.cancel coll req id = (coll', Success s m) →
  ∃ sharing,
    let requesting := HospitalSharing.requestingHospitalId (SharingRecords.core sharing) in
    let target := HospitalSharing.targetHospitalId (SharingRecords.core sharing) in
    SharingRecords.findById id coll = Some sharing
    ∧ Auth.requireHospitalAdmin req = Next
    ∧ Auth.hospitalId req = Some requesting
    ∧ HospitalSharing.status (SharingRecords.core sharing) = HospitalSharing.pending
    ∧ SharingRecords.findById id coll' = None
    ∧ HospitalSharing.uniqueIndex (SharingRecords.cores coll')
    ∧ (∀ later,
         HospitalSharing.canAccess later (SharingRecords.cores coll') requesting target
         = false)
    ∧ ∀ now db rb sent reason sc targetHospital,
        hospitalSharings db = SharingRecords.cores coll' →
        HospitalSharingRoutes.targetHospitalId rb = Some sent →
        castObjectId sent = Some target →
        HospitalSharingRoutes.requestReason rb = Some reason →
        HospitalSharingRoutes.castScope (default "full" (HospitalSharingRoutes.scope rb))
        = Some sc →
        sent ≠ requesting →
        hospitals db !! target = Some targetHospital →
        Hospital.approvalStatus targetHospital = Hospital.Approval.approved →
        (HospitalSharingRoutes.request now db req rb).2
        = Success 201 "Sharing request submitted successfully".
Proof.
  intros Huniq. unfold SharingAdminRoutes.cancel.
  destruct (Auth.requireHospitalAdmin req) eqn:Hadmin; [|intros [= _ Hr];
    unfold Auth.requireHospitalAdmin in Hadmin; destruct (negb _); [|done];
    injection Hadmin as <-; discriminate Hr].
  destruct (SharingRecords.findById id coll) as [sharing|] eqn:Hf; [|intros [=]].
  destruct (Auth.hospitalId req) as [mine|] eqn:Hmine; [|intros [=]].
  destruct (bool_decide (HospitalSharing.requestingHospitalId _ ≠ mine)) eqn:Hown;
    [intros [=]|].
  apply bool_decide_eq_false in Hown.
  destruct (bool_decide (HospitalSharing.status _ ≠ _)) eqn:Hst; [intros [=]|].
  apply bool_decide_eq_false in Hst. intros [= <- _ _].
  assert (Hreq : HospitalSharing.requestingHospitalId (SharingRecords.core sharing) = mine).
  { destruct (decide (HospitalSharing.requestingHospitalId (SharingRecords.core sharing)
                      = mine)); [done | by destruct Hown]. }
  assert (Hnone : ∀ r, r ∈ SharingRecords.cores (SharingRecords.deleteOne id coll) →
            ¬ (HospitalSharing.requestingHospitalId r = mine
               ∧ HospitalSharing.targetHospitalId r
                 = HospitalSharing.targetHospitalId (SharingRecords.core sharing))).
  { intros r Hin [Ha Hb].
    apply (deleteOne_no_record id sharing coll r Huniq Hf Hin).
    unfold HospitalSharing.pairKey. by rewrite Ha, Hb, Hreq. }
  exists sharing. simpl. rewrite Hreq. repeat split; try done.
  - destruct (decide (HospitalSharing.status (SharingRecords.core sharing)
                      = HospitalSharing.pending)); [done | by destruct Hst].
  - apply deleteOne_findById.
  - by apply deleteOne_uniqueIndex.
  - intros later. by apply canAccess_no_record.
  - intros now db rb sent reason sc th Hcoll Hsent Hcast Hreason Hsc Hne Hth Happr.
    unfold HospitalSharingRoutes.request.
    rewrite Hadmin, Hsent, Hreason, Hmine.
    rewrite bool_decide_eq_false_2 by done. rewrite Hcast, Hth.
    rewrite bool_decide_eq_false_2 by (intros H; by apply H).
    destruct (HospitalSharing.findOne _ _) as [existing|] eqn:Hfind.
    + apply findOne_Some in Hfind as [Hin Hflt]. apply pairFilter_true in Hflt.
      rewrite Hcoll in Hin. by destruct (Hnone existing Hin).
    + by rewrite Hsc.
Qed.

Lemma cancel_frees_the_pair_witness :
  (HospitalSharingRoutes.request 4000
     (withHospitalSharings Fixture.db0
        (SharingRecords.cores
           (SharingAdminRoutes.cancel Scenario.ledger Fixture.reqAdminA Scenario.sharing1).1))
     Fixture.reqAdminA (Fixture.askFor Fixture.hospitalB)).2
  = Success 201 "Sharing request submitted successfully".
Proof.
  destruct (cancel_frees_the_pair Scenario.ledger
              (SharingAdminRoutes.cancel Scenario.ledger Fixture.reqAdminA
                 Scenario.sharing1).1
              Fixture.reqAdminA Scenario.sharing1 200 "Sharing request cancelled")
    as (sharing & Hf & _ & _ & _ & _ & _ & _ & Hagain).
  - unfold HospitalSharing.uniqueIndex. simpl. apply NoDup_singleton.
  - vm_compute. reflexivity.
  - vm_compute in Hf. injection Hf as <-.
    apply (Hagain 4000%Z
             (withHospitalSharings Fixture.db0
                (SharingRecords.cores
                   (SharingAdminRoutes.cancel Scenario.ledger Fixture.reqAdminA
                      Scenario.sharing1).1))
             (Fixture.askFor Fixture.hospitalB) Fixture.hospitalB "second opinions"
             HospitalSharing.full Fixture.usable).
    + reflexivity.
    + reflexivity.
    + vm_compute. reflexivity.
    + reflexivity.
    + reflexivity.
    + discriminate.
    + vm_compute. reflexivity.
    + reflexivity.
Defined.

(** ** Authentication and the role guards *)

Section Authenticate.

Import Auth.

Lemma populateHospital_Some db u h doc :
  populateHospital db u = Some (h, doc)
  ↔ User.hospitalId u = Some h ∧ hospitals db !! h = Some doc.
Proof.
  unfold populateHospital. destruct (User.hospitalId u) as [h'|]; simpl.
  - destruct (hospitals db !! h') as [doc'|] eqn:Hd; simpl.
    + split; [by intros [= <- <-] | intros [[= <-] Hdoc]; congruence].
    + split; [done | intros [[= <-] Hdoc]; congruence].
  - split; [done | by intros [? _]].
Qed.

Lemma populateDepartment_Some db u d doc :
  populateDepartment db u = Some (d, doc)
  ↔ User.departmentId u = Some d ∧ departments db !! d = Some doc.
Proof.
  unfold populateDepartment. destruct (User.departmentId u) as [d'|]; simpl.
  - destruct (departments db !! d') as [doc'|] eqn:Hd; simpl.
    + split; [by intros [= <- <-] | intros [[= <-] Hdoc]; congruence].
    + split; [done | intros [[= <-] Hdoc]; congruence].
  - split; [done | by intros [? _]].
Qed.

(** The request that [authenticate] builds, and what it has checked. *)
Lemma authenticate_shape db c req :
  authenticate db c = inr req →
  ∃ uid u,
    c = Token uid ∧ users db !! uid = Some u ∧ User.isActive u = true
    ∧ req = mkReq u uid (fst <$> populateHospital db u) (fst <$> populateDepartment db u)
    ∧ ∀ h doc, populateHospital db u = Some (h, doc) →
               User.role u ≠ User.super_admin → Hospital.isUsable doc = true.
Proof.
  unfold authenticate. destruct c as [| |uid]; [done..|].
  destruct (users db !! uid) as [u|] eqn:Hu; [|done].
  destruct (User.isActive u) eqn:Hact; simpl; [|done].
  destruct (populateHospital db u) as [[h hdoc]|] eqn:Hh.
  - destruct (bool_decide (User.role u ≠ User.super_admin)) eqn:Hrole.
    + destruct (bool_decide (Hospital.approvalStatus hdoc ≠ _)) eqn:Ha; [done|].
      destruct (bool_decide (Hospital.subscriptionStatus hdoc ≠ _)) eqn:Hs; [done|].
      intros [= <-]. exists uid, u. do 3 (split; [done|]). split; [by rewrite Hh|].
      intros h' doc' Hp _. rewrite Hh in Hp. injection Hp as <- <-.
      apply bool_decide_eq_false in Ha, Hs. unfold Hospital.isUsable.
      rewrite !bool_decide_eq_true_2; [done| |].
      * destruct (decide (Hospital.subscriptionStatus hdoc
                          = Hospital.Subscription.active)); [done | by destruct Hs].
      * destruct (decide (Hospital.approvalStatus hdoc
                          = Hospital.Approval.approved)); [done | by destruct Ha].
    + intros [= <-]. exists uid, u. do 3 (split; [done|]). split; [by rewrite Hh|].
      intros h' doc' _ Hne. apply bool_decide_eq_false in Hrole. by destruct Hrole.
  - intros [= <-]. exists uid, u. do 3 (split; [done|]). split; [by rewrite Hh|]. intros h doc Hp. by rewrite Hh in Hp.
Qed.

End Authenticate.

(** X10: what a request that passed [authenticate] carries. The credential
    was a verified token; the user it names is stored and active; the
    hospital attached to the request is the user's own and exists, and for
    everyone but a super admin it is approved with an active subscription;
    the department attached is the user's own and exists. *)
Theorem authenticate_guarantees (db : Db) (c : Auth.Credential) (req : Auth.Req) :
  Auth.authenticate db c = inr req →
  c = Auth.Token (Auth.userId req)
  ∧ users db !! Auth.userId req = Some (Auth.user req)
  ∧ User.isActive (Auth.user req) = true
  ∧ (∀ h, Auth.hospitalId req = Some h →
          User.hospitalId (Auth.user req) = Some h
          ∧ ∃ doc, hospitals db !! h = Some doc
                   ∧ (User.role (Auth.user req) ≠ User.super_admin →
                      Hospital.isUsable doc = true))
  ∧ (∀ d, Auth.departmentId req = Some d →
          User.departmentId (Auth.user req) = Some d
          ∧ is_Some (departments db !! d)).
Proof.
  intros Hauth.
  apply authenticate_shape in Hauth as (uid & u & -> & Hu & Hact & -> & Husable).
  simpl. split; [done|]. split; [done|]. split; [done|]. split.
  - intros h Hh. destruct (Auth.populateHospital db u) as [[h' doc]|] eqn:Hp;
      [|discriminate Hh].
    simpl in Hh. injection Hh as ->.
    apply populateHospital_Some in Hp as Hp'. destruct Hp' as [Hmine Hdoc].
    split; [done|]. exists doc. split; [done|]. by apply (Husable h).
  - intros d Hd. destruct (Auth.populateDepartment db u) as [[d' doc]|] eqn:Hp;
      [|discriminate Hd].
    simpl in Hd. injection Hd as ->.
    apply populateDepartment_Some in Hp as [Hmine Hdoc].
    split; [done|]. rewrite Hdoc. by eexists.
Qed.

Lemma authenticate_guarantees_witness :
  Auth.authenticate Fixture.db0 (Auth.Token Fixture.doctorA) = inr Fixture.reqDoctorA
  ∧ ∀ h, Auth.hospitalId Fixture.reqDoctorA = Some h →
         User.hospitalId (Auth.user Fixture.reqDoctorA) = Some h
         ∧ ∃ doc, hospitals Fixture.db0 !! h = Some doc
                  ∧ (User.role (Auth.user Fixture.reqDoctorA) ≠ User.super_admin →
                     Hospital.isUsable doc = true).
Proof.
  split; [vm_compute; reflexivity|].
  apply (authenticate_guarantees Fixture.db0 (Auth.Token Fixture.doctorA)
           Fixture.reqDoctorA).
  vm_compute. reflexivity.
Defined.

(** A user is refused at the door when the hospital is not usable. *)
Example authenticate_suspended_hospital :
  Auth.authenticate
    (mkDb {[ Fixture.doctorA := Fixture.member User.doctor Fixture.hospitalC None ]}
       (hospitals Fixture.db0) ∅ ∅ [])
    (Auth.Token Fixture.doctorA)
  = inl (Fail 403 "Forbidden" "Hospital subscription is not active").
Proof. vm_compute. reflexivity. Qed.

(** X11: the role guards are nested. Whoever passes [requireSuperAdmin]
    passes [requireHospitalAdmin]; a caller passes [requireHospitalAdmin]
    exactly when they pass both [requireHealthcareWorker] and
    [requireDepartmentStaff]; and patients and users pending approval pass
    none of the four. *)
Theorem role_guards_are_nested (req : Auth.Req) :
  (Auth.requireSuperAdmin req = Next → Auth.requireHospitalAdmin req = Next)
  ∧ (Auth.requireHospitalAdmin req = Next
     ↔ Auth.requireHealthcareWorker req = Next ∧ Auth.requireDepartmentStaff req = Next)
  ∧ (User.role (Auth.user req) = User.patient
     ∨ User.role (Auth.user req) = User.pending_approval →
     Auth.requireSuperAdmin req ≠ Next ∧ Auth.requireHospitalAdmin req ≠ Next
     ∧ Auth.requireHealthcareWorker req ≠ Next ∧ Auth.requireDepartmentStaff req ≠ Next).
Proof.
  unfold Auth.requireSuperAdmin, Auth.requireHospitalAdmin,
    Auth.requireHealthcareWorker, Auth.requireDepartmentStaff.
  destruct (User.role (Auth.user req)); vm_compute; intuition congruence.
Qed.

Lemma role_guards_are_nested_witness :
  Auth.requireHospitalAdmin Fixture.reqSuperAdmin = Next.
Proof.
  destruct (role_guards_are_nested Fixture.reqSuperAdmin) as [Hsuper _].
  apply Hsuper. reflexivity.
Defined.

(** X12: ['admin'] names no role. The schema's roles are super_admin,
    hospital_admin, doctor, nurse, department_staff, patient and
    pending_approval, so [requireRole('admin')] refuses every authenticated
    user, and [requireRole('doctor', 'admin')] and [canModifyPatientData]
    let doctors through and nobody else: hospital admins and super admins
    are refused. Without a user on the request all three answer 401. *)
Theorem admin_names_no_role (req : Auth.Req) :
  AuthGuards.requireRole ["admin"] (Some req) ≠ Next
  ∧ (AuthGuards.requireRole ["doctor"; "admin"] (Some req) = Next
     ↔ User.role (Auth.user req) = User.doctor)
  ∧ (AuthGuards.canModifyPatientData (Some req) = Next
     ↔ User.role (Auth.user req) = User.doctor)
  ∧ AuthGuards.requireRole ["admin"] None = Respond AuthGuards.authenticationRequired
  ∧ AuthGuards.canModifyPatientData None = Respond AuthGuards.authenticationRequired.
Proof.
  unfold AuthGuards.requireRole, AuthGuards.canModifyPatientData.
  destruct (User.role (Auth.user req)); vm_compute; intuition congruence.
Qed.

(** X13: the same-hospital and same-department guards at their edges. For
    a given hospital id [requireSameHospital] lets a caller through exactly
    when they are a super admin or the id is their own hospital's, and it
    throws, with no answer of its own, for any other caller who has no
    hospital; with no id only a super admin gets through.
    [requireSameDepartment] lets
    through the two admin roles and the members of the department, and never
    throws. The routes test the department themselves: an admin without a
    department, whom [requireSameDepartment] would let through, gets a 500
    from the start route. *)
Theorem same_hospital_and_department_guards (req : Auth.Req) :
  let role := User.role (Auth.user req) in
  (∀ h, AuthGuards.requireSameHospital req (Some h) = AuthGuards.Returns Next
        ↔ role = User.super_admin ∨ Auth.hospitalId req = Some h)
  ∧ (∀ h, AuthGuards.requireSameHospital req (Some h) = AuthGuards.Throws
          ↔ role ≠ User.super_admin ∧ Auth.hospitalId req = None)
  ∧ (AuthGuards.requireSameHospital req None = AuthGuards.Returns Next
     ↔ role = User.super_admin)
  ∧ (∀ d, AuthGuards.requireSameDepartment req (Some d) = Next
          ↔ role = User.super_admin ∨ role = User.hospital_admin
            ∨ Auth.departmentId req = Some d)
  ∧ (∀ db orderId o,
       role = User.super_admin ∨ role = User.hospital_admin →
       Auth.departmentId req = None →
       testOrders db !! orderId = Some o →
       AuthGuards.requireSameDepartment req (Some (TestOrder.departmentId o)) = Next
       ∧ TestOrderRoutes.start db req orderId
         = (db, Fail 500 "Failed to start test" typeErrorMessage)).
Proof.
  simpl. split; [|split; [|split; [|split]]].
  - intros h. unfold AuthGuards.requireSameHospital.
    case_bool_decide as Hrole; [by split; [left|]|].
    destruct (Auth.hospitalId req) as [mine|].
    + case_bool_decide as Hne.
      * split; [done | intros [? | [= ->]]; done].
      * split; [intros _; right | done]. f_equal.
        destruct (decide (mine = h)); [done | by destruct Hne].
    + split; [done | intros [? | ?]; done].
  - intros h. unfold AuthGuards.requireSameHospital.
    case_bool_decide as Hrole; [split; [done | by intros [? _]]|].
    destruct (Auth.hospitalId req) as [mine|].
    + case_bool_decide; (split; [done | by intros [_ ?]]).
    + done.
  - unfold AuthGuards.requireSameHospital. case_bool_decide; split; done.
  - intros d. unfold AuthGuards.requireSameDepartment.
    destruct (User.role (Auth.user req)); simpl;
      try (split; [intros _; by auto | done]);
      (destruct (Auth.departmentId req) as [mine|];
       [ case_bool_decide as Hne;
         [ split; [done | intros [? | [? | [= ->]]]; done]
         | split; [intros _; right; right; f_equal;
                   destruct (decide (mine = d)); [done | by destruct Hne] | done] ]
       | split; [done | intros [? | [? | ?]]; done] ]).
  - intros db orderId o Hrole Hnone Ho. split.
    + unfold AuthGuards.requireSameDepartment. by destruct Hrole as [-> | ->].
    + unfold TestOrderRoutes.start, Auth.requireDepartmentStaff.
      rewrite Ho, Hnone. by destruct Hrole as [-> | ->].
Qed.

Lemma same_hospital_and_department_guards_witness :
  TestOrderRoutes.start Fixture.dbReady Fixture.reqAdminA Fixture.order1
  = (Fixture.dbReady, Fail 500 "Failed to start test" typeErrorMessage).
Proof.
  destruct (same_hospital_and_department_guards Fixture.reqAdminA)
    as (_ & _ & _ & _ & Hstart).
  apply (Hstart Fixture.dbReady Fixture.order1 Fixture.orderReady).
  - right. reflexivity.
  - reflexivity.
  - vm_compute. reflexivity.
Defined.

(** X14: [canAccessPatientRecords] and the middleware. Called on the
    caller's user document as [User.findById] loads it, with no [populate],
    the method never says more than the middleware: if it allows the records
    of a hospital that exists, [canAccessPatient] lets the caller through
    for every patient of that hospital. Called on [req.user], whose
    [hospitalId] path [authenticate] has populated, it is true for a super
    admin and for nobody else. It is false for patients and department
    staff either way, although the middleware lets a patient see their own
    data. *)
Theorem canAccessPatientRecords_implies_gate (now : Time) (db : Db)
    (c : Auth.Credential) (req : Auth.Req) (pid : ObjectId) (patient : User.t)
    (h : ObjectId) :
  Auth.authenticate db c = inr req →
  users db !! pid = Some patient → User.role patient = User.patient →
  User.hospitalId patient = Some h → is_Some (hospitals db !! h) →
  (∀ this,
     UserMethods.findById db (Auth.userId req) = Some this →
     UserMethods.canAccessPatientRecords this h = true →
     Auth.canAccessPatient now db req (Some pid) = Next)
  ∧ (UserMethods.canAccessPatientRecords (UserMethods.populated db (Auth.user req)) h
     = true
     ↔ User.role (Auth.user req) = User.super_admin)
  ∧ (User.role (Auth.user req) = User.patient
     ∨ User.role (Auth.user req) = User.department_staff →
     ∀ this,
       UserMethods.findById db (Auth.userId req) = Some this →
       UserMethods.canAccessPatientRecords this h = false).
Proof.
  intros Hauth Hp Hprole Hph [hdoc Hdoc].
  apply authenticate_shape in Hauth as (uid & u & -> & Hu & Hact & -> & _).
  simpl. unfold UserMethods.findById. rewrite Hu. simpl. split; [|split].
  - intros this [= <-].
    unfold UserMethods.canAccessPatientRecords, Auth.canAccessPatient. simpl.
    rewrite Hp, Hprole, Hph. simpl.
    destruct (User.role u) eqn:Hrole; simpl; try done.
    all: unfold UserMethods.belongsToHospital; simpl;
      destruct (User.hospitalId u) as [mine|] eqn:Hmine; [|done]; simpl;
      intros Heq; apply bool_decide_eq_true in Heq; subst mine;
      assert (Auth.populateHospital db u = Some (h, hdoc)) as ->
        by (by apply populateHospital_Some);
      simpl; by rewrite bool_decide_eq_true_2.
  - unfold UserMethods.canAccessPatientRecords, UserMethods.belongsToHospital,
      UserMethods.populated. simpl.
    destruct (Auth.populateHospital db u) as [[h' doc']|];
      destruct (User.role u); simpl; split; done.
  - intros Hrole this [= <-]. unfold UserMethods.canAccessPatientRecords. simpl.
    by destruct Hrole as [-> | ->].
Qed.

Lemma canAccessPatientRecords_implies_gate_witness :
  UserMethods.findById Fixture.db0 Fixture.doctorA
  = Some (UserMethods.mkLoaded User.doctor (UserMethods.Id Fixture.hospitalA))
  ∧ Auth.canAccessPatient 0 Fixture.db0 Fixture.reqDoctorA (Some Fixture.patientA) = Next.
Proof.
  assert (Hloaded : UserMethods.findById Fixture.db0 Fixture.doctorA
                    = Some (UserMethods.mkLoaded User.doctor
                              (UserMethods.Id Fixture.hospitalA)))
    by (vm_compute; reflexivity).
  split; [exact Hloaded|].
  destruct (canAccessPatientRecords_implies_gate 0 Fixture.db0
              (Auth.Token Fixture.doctorA) Fixture.reqDoctorA Fixture.patientA
              (Fixture.member User.patient Fixture.hospitalA None) Fixture.hospitalA)
    as [Hgate _].
  - vm_compute. reflexivity.
  - vm_compute. reflexivity.
  - reflexivity.
  - reflexivity.
  - vm_compute. eexists. reflexivity.
  - apply (Hgate _ Hloaded). vm_compute. reflexivity.
Defined.

(** X15: the router's [canAccessCrossHospital] decides like the middleware.
    For a hospital admin, doctor or nurse and an existing patient,
    [canAccessPatient] calls [next] exactly when the helper is true, answers
    403 when it is false and 500 when the helper throws on a missing
    hospital id; the helper is true for a hospital and itself with no look
    at the ledger. *)
Theorem canAccessCrossHospital_agrees_with_gate (now : Time) (db : Db) (req : Auth.Req)
    (pid : ObjectId) (patient : User.t) :
  Auth.includes [User.hospital_admin; User.doctor; User.nurse]
    (User.role (Auth.user req)) = true →
  users db !! pid = Some patient → User.role patient = User.patient →
  Auth.canAccessPatient now db req (Some pid)
  = match canAccessCrossHospital now (hospitalSharings db) (Auth.hospitalId req)
            (User.hospitalId patient) with
    | Some true => Next
    | Some false => Respond Auth.forbiddenPatientData
    | None => Respond Auth.accessCheckFailed
    end
  ∧ ∀ coll h, canAccessCrossHospital now coll (Some h) (Some h) = Some true.
Proof.
  intros Hrole Hp Hprole. split.
  - unfold Auth.canAccessPatient, canAccessCrossHospital. rewrite Hp, Hprole.
    destruct (User.role (Auth.user req)); try discriminate Hrole; simpl;
      destruct (Auth.hospitalId req) as [mine|]; try done;
      destruct (User.hospitalId patient) as [theirs|]; try done;
      case_bool_decide; try done;
      by destruct (HospitalSharing.canAccess _ _ _ _).
  - intros coll h. unfold canAccessCrossHospital. by rewrite bool_decide_eq_true_2.
Qed.

Lemma canAccessCrossHospital_agrees_with_gate_witness :
  Auth.canAccessPatient 1000 Fixture.dbShared Fixture.reqDoctorA (Some Fixture.patientB)
  = match canAccessCrossHospital 1000 (hospitalSharings Fixture.dbShared)
            (Auth.hospitalId Fixture.reqDoctorA)
            (User.hospitalId (Fixture.member User.patient Fixture.hospitalB None)) with
    | Some true => Next
    | Some false => Respond Auth.forbiddenPatientData
    | None => Respond Auth.accessCheckFailed
    end.
Proof.
  apply (canAccessCrossHospital_agrees_with_gate 1000 Fixture.dbShared
           Fixture.reqDoctorA Fixture.patientB
           (Fixture.member User.patient Fixture.hospitalB None)).
  - reflexivity.
  - vm_compute. reflexivity.
  - reflexivity.
Defined.

(** ** The test-order workflow as a whole *)

(** At the end of the day of the scenario the order is completed and paid. *)
Example labDay_completes_the_order :
  (λ o, (TestOrder.status o, TestOrder.paymentStatus o, TestOrder.paidBy o,
         TestOrder.resultUploadedBy o))
  <$> testOrders (Workflow.db (Workflow.run Scenario.start0 Scenario.labDay))
      !! Fixture.order1
  = Some (TestOrder.completed, TestOrder.paid, Some Fixture.patientA,
          Some Fixture.labStaffA).
Proof. vm_compute. reflexivity. Qed.

Section ServeEffect.

Import Workflow.

(** What one request does to the state: nothing, or one write under the
    [_id] it addresses. *)
Lemma serve_effect st timed :
  (serve st timed).1 = st
  ∨ ∃ o' columns,
      Written timed.2 (testOrders (db st) !! addressed timed.2) o'
      ∧ (serve st timed).1
        = mkState
            (withTestOrders (db st)
               (<[addressed timed.2 := o']> (testOrders (db st))))
            columns
      ∧ (columns = cancellations st
         ∨ ∃ c, columns = <[addressed timed.2 := c]> (cancellations st)).
Proof.
  destruct st as [d cs]. destruct timed as [now [req b newId|req id|req id b file
                                                |req id b|req id reason]];
    unfold serve, onDb; simpl.
  - destruct (TestOrderRoutes.createOrder now d req b newId) as [d' [s e m|s m]] eqn:Hc.
    + apply createOrder_Fail in Hc. subst d'. by left.
    + apply createOrder_Success in Hc
        as (patient & dept & name & type & amount & ddoc & mine & u & _ & _ & _ & _
            & _ & _ & _ & ->).
      right. eexists _, cs. split; [apply written_create|]. split; [done | by left].
  - unfold TestOrderRoutes.start.
    destruct (Auth.requireDepartmentStaff req); [|by left].
    destruct (testOrders d !! id) as [o|] eqn:Ho; [|by left].
    destruct (Auth.departmentId req) as [mine|]; [|by left].
    destruct (bool_decide (TestOrder.departmentId o ≠ mine)); [by left|].
    destruct (bool_decide (TestOrder.paymentStatus o ≠ TestOrder.paid)) eqn:Hp;
      destruct (bool_decide (TestOrder.paymentStatus o ≠ TestOrder.waived)) eqn:Hw;
      simpl; try (by left).
    all: right; eexists _, cs; rewrite save_same_paymentStatus by done;
      (split; [apply written_start|split; [done | by left]]).
    + right. apply bool_decide_eq_false in Hw.
      destruct (decide (TestOrder.paymentStatus o = TestOrder.waived));
        [done | by destruct Hw].
    + left. apply bool_decide_eq_false in Hp.
      destruct (decide (TestOrder.paymentStatus o = TestOrder.paid));
        [done | by destruct Hp].
    + left. apply bool_decide_eq_false in Hp.
      destruct (decide (TestOrder.paymentStatus o = TestOrder.paid));
        [done | by destruct Hp].
  - unfold TestOrderRoutes.uploadResult.
    destruct (Auth.requireDepartmentStaff req); [|by left].
    destruct (negb _); [by left|].
    destruct (testOrders d !! id) as [o|] eqn:Ho; [|by left].
    destruct (Auth.departmentId req) as [mine|]; [|by left].
    destruct (bool_decide (TestOrder.departmentId o ≠ mine)); [by left|].
    destruct (negb (TestOrder.canUploadResult o)); [by left|].
    destruct (TestOrder.uploadResult now _ _ o) as [err|o'] eqn:Hup; [by left|].
    right. eexists o', cs. split; [by eapply written_upload|].
    split; [done | by left].
  - unfold TestOrderRoutes.markPaid.
    destruct (TestOrderRoutes.castMethod _) as [method|]; [|by left].
    destruct (testOrders d !! id) as [o|] eqn:Ho; [|by left].
    destruct (_ && _); [by left|]. destruct (_ && _); [by left|].
    destruct (bool_decide (TestOrder.paymentStatus o = TestOrder.paid)) eqn:Hp;
      [by left|].
    apply bool_decide_eq_false in Hp.
    right. eexists _, cs. split; [by apply written_paid|]. split; [done | by left].
  - unfold cancel. simpl.
    destruct (Auth.requireHealthcareWorker req); [|by left].
    destruct reason as [why|]; [|by left].
    destruct (testOrders d !! id) as [o|] eqn:Ho; [|by left].
    destruct (_ && _); [by left|].
    destruct (bool_decide (TestOrder.status o = TestOrder.completed)) eqn:Hs;
      [by left|].
    apply bool_decide_eq_false in Hs. simpl.
    right. eexists _, _. rewrite save_same_paymentStatus by done.
    split; [by apply written_cancel|]. split; [done|]. right. by eexists.
Qed.

(** A property that every write keeps holds along every run. *)
Lemma run_preserves (P : TestOrder.t → Prop) :
  (∀ r old new, Written r old new → (∀ o, old = Some o → P o) → P new) →
  ∀ requests st, everyOrder P st → everyOrder P (run st requests).
Proof.
  intros Hwrite requests. unfold run.
  induction requests as [|timed requests IH]; intros st Hst; [done|].
  simpl. apply IH. clear IH.
  destruct (serve_effect st timed) as [-> | (o' & columns & Hw & -> & _)]; [done|].
  intros id o. simpl. destruct (decide (addressed timed.2 = id)) as [<- | Hne].
  - rewrite lookup_insert_eq. intros [= <-].
    apply (Hwrite _ _ _ Hw). intros o Ho. by apply (Hst _ _ Ho).
  - rewrite lookup_insert_ne by done. apply Hst.
Qed.

End ServeEffect.

Section WrittenOrders.

Import Workflow.

Lemma uploadResult_inr now d uploadedBy o o' :
  TestOrder.uploadResult now d uploadedBy o = inr o' →
  TestOrder.canUploadResult o = true
  ∧ TestOrder.status o' = TestOrder.completed
  ∧ TestOrder.paymentStatus o' = TestOrder.paymentStatus o
  ∧ TestOrder.paymentDate o' = TestOrder.paymentDate o
  ∧ TestOrder.paymentMethod o' = TestOrder.paymentMethod o
  ∧ TestOrder.paymentReference o' = TestOrder.paymentReference o
  ∧ TestOrder.paidBy o' = TestOrder.paidBy o
  ∧ TestOrder.result o' = Some (TestOrder.rd_result d)
  ∧ TestOrder.resultUploadedBy o' = Some uploadedBy
  ∧ TestOrder.resultUploadedAt o' = Some now
  ∧ TestOrder.completedDate o' = Some now.
Proof.
  unfold TestOrder.uploadResult.
  destruct (TestOrder.canUploadResult o); simpl; [|done].
  rewrite save_same_paymentStatus by done. by intros [= <-].
Qed.

Lemma markAsPaid_columns now d o :
  TestOrder.markAsPaid now d o
  = TestOrder.mk (TestOrder.patientId o) (TestOrder.orderedBy o) (TestOrder.hospitalId o)
      (TestOrder.departmentId o) (TestOrder.testName o) (TestOrder.testType o)
      (TestOrder.urgency o) (TestOrder.paymentRequired o) (TestOrder.paymentAmount o)
      TestOrder.paid (Some now) (Some (TestOrder.method d))
      (Some (TestOrder.reference d)) (Some (TestOrder.payer d))
      TestOrder.ready_for_test
      (TestOrder.result o) (TestOrder.resultNotes o) (TestOrder.resultFileUrl o)
      (TestOrder.resultFileType o) (TestOrder.normalRange o) (TestOrder.abnormalFlag o)
      (TestOrder.resultUploadedBy o) (TestOrder.resultUploadedAt o)
      (TestOrder.completedDate o).
Proof. unfold TestOrder.markAsPaid. by rewrite save_ready_for_test. Qed.

(** Every write but that of a creation keeps the identity of the order. *)
Lemma Written_identity r o o' :
  Written r (Some o) o' →
  match r with
  | Create _ _ _ => True
  | _ =>
      TestOrder.patientId o' = TestOrder.patientId o
      ∧ TestOrder.orderedBy o' = TestOrder.orderedBy o
      ∧ TestOrder.hospitalId o' = TestOrder.hospitalId o
      ∧ TestOrder.departmentId o' = TestOrder.departmentId o
      ∧ TestOrder.paymentAmount o' = TestOrder.paymentAmount o
  end.
Proof.
  inversion 1; subst; try done.
  - unfold TestOrder.uploadResult in *.
    destruct (negb _); [done|]. rewrite save_same_paymentStatus in * by done.
    match goal with H : inr _ = inr _ |- _ => injection H as <- end. done.
  - by rewrite markAsPaid_columns.
Qed.

End WrittenOrders.

(** X16: a request changes one order at most. Whatever the request, served
    on whatever state, the users, hospitals, departments and sharing records
    are untouched; every test order other than the one the request addresses
    is unchanged, and so are its cancellation columns; no order is ever
    deleted; and unless the request creates an order under that [_id], the
    order keeps its patient, its ordering doctor, its hospital, its
    department and its amount. *)
Theorem request_changes_one_order (st : Workflow.State) (timed : Time * Workflow.Request) :
  let st' := (Workflow.serve st timed).1 in
  users (Workflow.db st') = users (Workflow.db st)
  ∧ hospitals (Workflow.db st') = hospitals (Workflow.db st)
  ∧ departments (Workflow.db st') = departments (Workflow.db st)
  ∧ hospitalSharings (Workflow.db st') = hospitalSharings (Workflow.db st)
  ∧ (∀ id, id ≠ Workflow.addressed timed.2 →
           testOrders (Workflow.db st') !! id = testOrders (Workflow.db st) !! id
           ∧ Workflow.cancellations st' !! id = Workflow.cancellations st !! id)
  ∧ (∀ id o, testOrders (Workflow.db st) !! id = Some o →
             ∃ o', testOrders (Workflow.db st') !! id = Some o'
                   ∧ match timed.2 with
                     | Workflow.Create _ _ _ => True
                     | _ =>
                         TestOrder.patientId o' = TestOrder.patientId o
                         ∧ TestOrder.orderedBy o' = TestOrder.orderedBy o
                         ∧ TestOrder.hospitalId o' = TestOrder.hospitalId o
                         ∧ TestOrder.departmentId o' = TestOrder.departmentId o
                         ∧ TestOrder.paymentAmount o' = TestOrder.paymentAmount o
                     end).
Proof.
  simpl.
  destruct (serve_effect st timed) as [-> | (o' & columns & Hw & -> & Hcols)].
  { repeat split; try done. intros id o Ho. exists o. split; [done|].
    by destruct timed.2. }
  simpl. do 4 (split; [done|]). split.
  - intros id Hne. rewrite lookup_insert_ne by done. split; [done|].
    destruct Hcols as [-> | [c ->]]; [done|]. by rewrite lookup_insert_ne.
  - intros id o Ho.
    destruct (decide (Workflow.addressed timed.2 = id)) as [Heq | Hne].
    + subst id. rewrite lookup_insert_eq. exists o'. split; [done|].
      rewrite Ho in Hw. by apply Written_identity in Hw.
    + rewrite lookup_insert_ne by done. exists o. split; [done|]. by destruct timed.2.
Qed.

(** Membership in a list of constructors. *)
Ltac solve_member :=
  rewrite ?elem_of_cons, ?elem_of_nil in *; intuition congruence.

(** X17: payment comes first, along every sequence of requests. If every
    stored order that is ready for the test, in progress or completed has
    its payment paid or waived, this is still so after any sequence of
    create, mark-paid, start, upload and cancel requests, from any callers
    and with any bodies. *)
Theorem payment_comes_first (st : Workflow.State)
    (requests : list (Time * Workflow.Request)) :
  Workflow.everyOrder Workflow.paymentSettled st →
  Workflow.everyOrder Workflow.paymentSettled (Workflow.run st requests).
Proof.
  apply run_preserves. intros r old new Hw Hold. unfold Workflow.paymentSettled.
  inversion Hw; subst.
  - unfold TestOrderRoutes.newOrder. simpl.
    destruct (TestOrderRoutes.isPaymentRequired _); solve_member.
  - simpl. intros _. destruct H as [-> | ->]; solve_member.
  - apply uploadResult_inr in H as (Hcan & _ & -> & _).
    apply canUploadResult_true in Hcan as [[-> | ->] _]; solve_member.
  - rewrite markAsPaid_columns. simpl. solve_member.
  - simpl. solve_member.
Qed.

Lemma payment_comes_first_witness :
  Workflow.everyOrder Workflow.paymentSettled Scenario.start0
  ∧ Workflow.everyOrder Workflow.paymentSettled
      (Workflow.run Scenario.start0 Scenario.labDay).
Proof.
  assert (Hstart : Workflow.everyOrder Workflow.paymentSettled Scenario.start0).
  { intros id o Ho. vm_compute in Ho. discriminate Ho. }
  split; [exact Hstart|].
  exact (payment_comes_first Scenario.start0 Scenario.labDay Hstart).
Defined.

(** X18: the records are complete, along every sequence of requests. If
    every stored order that is completed carries its result, its uploader
    and the two dates, and every paid order carries its payment date,
    method, reference and payer, this is still so after any sequence of
    requests. *)
Theorem orders_stay_well_recorded (st : Workflow.State)
    (requests : list (Time * Workflow.Request)) :
  Workflow.everyOrder Workflow.wellRecorded st →
  Workflow.everyOrder Workflow.wellRecorded (Workflow.run st requests).
Proof.
  apply run_preserves. intros r old new Hw Hold. unfold Workflow.wellRecorded.
  inversion Hw; subst.
  - unfold TestOrderRoutes.newOrder. simpl.
    destruct (TestOrderRoutes.isPaymentRequired _); split; done.
  - destruct (Hold o eq_refl) as [_ Hpaid]. simpl. split; [done|exact Hpaid].
  - destruct (Hold o eq_refl) as [_ Hpaid].
    apply uploadResult_inr in H
      as (_ & _ & -> & -> & -> & -> & -> & -> & -> & -> & ->).
    split; [by intros _; repeat split; eexists | exact Hpaid].
  - destruct (Hold o eq_refl) as [Hdone _]. rewrite markAsPaid_columns. simpl.
    split; [done | by intros _; repeat split; eexists].
  - destruct (Hold o eq_refl) as [_ Hpaid]. simpl. split; [done|exact Hpaid].
Qed.

Lemma orders_stay_well_recorded_witness :
  Workflow.everyOrder Workflow.wellRecorded Scenario.start0
  ∧ Workflow.everyOrder Workflow.wellRecorded
      (Workflow.run Scenario.start0 Scenario.labDay).
Proof.
  assert (Hstart : Workflow.everyOrder Workflow.wellRecorded Scenario.start0).
  { intros id o Ho. vm_compute in Ho. discriminate Ho. }
  split; [exact Hstart|].
  exact (orders_stay_well_recorded Scenario.start0 Scenario.labDay Hstart).
Defined.

(** X19: what the routes never write. Starting from orders whose
    [paymentStatus] is pending, paid or waived and whose [status] is not
    ordered or payment_failed, no sequence of requests ever stores a failed
    or refunded payment, or the status ordered or payment_failed: these four
    values of the schema are written by no route. *)
Theorem routes_never_write_failed_or_refunded (st : Workflow.State)
    (requests : list (Time * Workflow.Request)) :
  Workflow.everyOrder Workflow.routeValues st →
  Workflow.everyOrder Workflow.routeValues (Workflow.run st requests).
Proof.
  apply run_preserves. intros r old new Hw Hold. unfold Workflow.routeValues.
  inversion Hw; subst.
  - unfold TestOrderRoutes.newOrder. simpl.
    destruct (TestOrderRoutes.isPaymentRequired _); solve_member.
  - destruct (Hold o eq_refl) as [Hp _]. simpl. split; [done | solve_member].
  - destruct (Hold o eq_refl) as [Hp _].
    apply uploadResult_inr in H as (_ & -> & -> & _). split; [done | solve_member].
  - rewrite markAsPaid_columns. simpl. solve_member.
  - destruct (Hold o eq_refl) as [Hp _]. simpl. split; [done | solve_member].
Qed.

Lemma routes_never_write_failed_or_refunded_witness :
  Workflow.everyOrder Workflow.routeValues Scenario.start0
  ∧ Workflow.everyOrder Workflow.routeValues
      (Workflow.run Scenario.start0 Scenario.labDay).
Proof.
  assert (Hstart : Workflow.everyOrder Workflow.routeValues Scenario.start0).
  { intros id o Ho. vm_compute in Ho. discriminate Ho. }
  split; [exact Hstart|].
  exact (routes_never_write_failed_or_refunded Scenario.start0 Scenario.labDay Hstart).
Defined.

(** ** Reading test orders *)

Section ReadingOrders.

Lemma canAccessPatient_Next_patient now db req pid :
  Auth.canAccessPatient now db req (Some pid) = Next → is_Some (users db !! pid).
Proof.
  unfold Auth.canAccessPatient. destruct (users db !! pid); [by eexists | done].
Qed.

End ReadingOrders.

(** X20: an order can be read back by those it concerns. After a doctor who
    passed authentication has created an order, [GET /:orderId] sends that
    order to the doctor, to the patient it is for, to every hospital admin
    and super admin and to the staff of its department; a doctor, nurse or
    patient who is neither its author nor its patient, and the staff of
    another department, are answered 403. *)
Theorem created_order_can_be_read (now : Time) (db db' : Db) (c : Auth.Credential)
    (req : Auth.Req) (b : TestOrderRoutes.CreateBody) (newId : ObjectId)
    (s : nat) (m : string) :
  Auth.authenticate db c = inr req →
  TestOrderRoutes.createOrder now db req b newId = (db', Success s m) →
  ∃ o,
    testOrders db' !! newId = Some o
    ∧ TestOrder.orderedBy o = Auth.userId req
    ∧ TestOrderRoutes.patientId b = Some (TestOrder.patientId o)
    ∧ TestOrderReads.getOrder db' req newId = Sent o
    ∧ ∀ reader,
        let role := User.role (Auth.user reader) in
        let concerned :=
          role = User.super_admin ∨ role = User.hospital_admin
          ∨ Auth.userId reader = TestOrder.orderedBy o
          ∨ Auth.userId reader = TestOrder.patientId o
          ∨ (role = User.department_staff
             ∧ Auth.departmentId reader = Some (TestOrder.departmentId o)) in
        (concerned → TestOrderReads.getOrder db' reader newId = Sent o)
        ∧ (¬ concerned →
           (role = User.department_staff → is_Some (Auth.departmentId reader)) →
           TestOrderReads.getOrder db' reader newId
           = Refused (Fail 403 "Forbidden"
                        "You do not have permission to view this test order")).
Proof.
  intros Hauth Hcreate.
  apply authenticate_shape in Hauth as (uid & u & -> & Hu & _ & -> & _).
  apply createOrder_Success in Hcreate
    as (patient & dept & name & type & amount & ddoc & mine & u' & Hp & Hd & Hacc
        & Hdoc & _ & _ & _ & ->).
  apply canAccessPatient_Next_patient in Hacc as [pdoc Hpdoc].
  eexists. split; [apply lookup_insert_eq|]. simpl.
  split; [done|]. split; [done|].
  assert (Hget : ∀ reader,
    TestOrderReads.getOrder
      (withTestOrders db
         (<[newId := TestOrderRoutes.newOrder
                       (Auth.mkReq u uid (fst <$> Auth.populateHospital db u)
                          (fst <$> Auth.populateDepartment db u))
                       mine patient dept name type u' amount b]> (testOrders db)))
      reader newId
    = let role := User.role (Auth.user reader) in
      let o := TestOrderRoutes.newOrder
                 (Auth.mkReq u uid (fst <$> Auth.populateHospital db u)
                    (fst <$> Auth.populateDepartment db u))
                 mine patient dept name type u' amount b in
      if bool_decide (role = User.super_admin) || bool_decide (role = User.hospital_admin)
      then Sent o
      else if bool_decide (uid = Auth.userId reader) then Sent o
      else if bool_decide (patient = Auth.userId reader) then Sent o
      else if bool_decide (role = User.department_staff) then
        match Auth.departmentId reader with
        | None => Refused (Fail 500 "Failed to fetch test order" typeErrorMessage)
        | Some theirs =>
            if bool_decide (dept = theirs) then Sent o
            else Refused (Fail 403 "Forbidden"
                            "You do not have permission to view this test order")
        end
      else Refused (Fail 403 "Forbidden"
                      "You do not have permission to view this test order")).
  { intros reader. unfold TestOrderReads.getOrder. simpl.
    rewrite lookup_insert_eq. simpl. rewrite Hu, Hpdoc, Hdoc. done. }
  split.
  - rewrite Hget. simpl. rewrite (bool_decide_eq_true_2 (uid = uid)) by done.
    by destruct (_ || _).
  - intros reader. simpl. rewrite Hget. simpl. split.
    + intros [Hr | [Hr | [Hr | [Hr | [Hr Hdept]]]]].
      * by rewrite Hr.
      * by rewrite Hr.
      * rewrite (bool_decide_eq_true_2 (uid = Auth.userId reader)) by done.
        by destruct (_ || _).
      * rewrite (bool_decide_eq_true_2 (patient = Auth.userId reader)) by done.
        destruct (_ || _); [done|]. by destruct (bool_decide (uid = _)).
      * rewrite Hr, Hdept. simpl. rewrite (bool_decide_eq_true_2 (dept = dept)) by done.
        destruct (bool_decide (uid = _)); [done|].
        by destruct (bool_decide (patient = _)).
    + intros Hnot Hstaff.
      rewrite (bool_decide_eq_false_2 (User.role (Auth.user reader) = User.super_admin))
        by (intros E; apply Hnot; by left).
      rewrite (bool_decide_eq_false_2 (User.role (Auth.user reader) = User.hospital_admin))
        by (intros E; apply Hnot; right; by left).
      rewrite (bool_decide_eq_false_2 (uid = Auth.userId reader))
        by (intros E; apply Hnot; right; right; by left).
      rewrite (bool_decide_eq_false_2 (patient = Auth.userId reader))
        by (intros E; apply Hnot; right; right; right; by left).
      simpl. case_bool_decide as Hr; [|done].
      destruct (Hstaff Hr) as [theirs Htheirs]. rewrite Htheirs.
      rewrite bool_decide_eq_false_2; [done|].
      intros ->. apply Hnot. right; right; right; right. by split.
Qed.

Lemma created_order_can_be_read_witness :
  TestOrderReads.getOrder Fixture.dbPending Fixture.reqDoctorA Fixture.order1
  = Sent Fixture.orderPending.
Proof.
  destruct (created_order_can_be_read 1000 Fixture.db0 Fixture.dbPending
              (Auth.Token Fixture.doctorA) Fixture.reqDoctorA
              (Fixture.bloodCount Fixture.patientA None) Fixture.order1
              201 "Test order created successfully")
    as (o & Ho & _ & _ & Hread & _).
  - vm_compute. reflexivity.
  - vm_compute. reflexivity.
  - vm_compute in Ho. injection Ho as <-. exact Hread.
Defined.

(** X21: what [GET /:orderId] does with references that are gone. The
    route sends nothing but the order stored under the id; the two admin
    roles are served without a look at the references; for any other
    caller, an order whose ordering user no longer exists is answered 500,
    even when the caller is the patient of the order. *)
Theorem getOrder_dangling_author (db : Db) (req : Auth.Req) (orderId : ObjectId) :
  (∀ o, TestOrderReads.getOrder db req orderId = Sent o →
        testOrders db !! orderId = Some o)
  ∧ (testOrders db !! orderId = None →
     TestOrderReads.getOrder db req orderId
     = Refused (Fail 404 "Not Found" "Test order not found"))
  ∧ ∀ o, testOrders db !! orderId = Some o →
         users db !! TestOrder.orderedBy o = None →
         TestOrderReads.getOrder db req orderId
         = if bool_decide (User.role (Auth.user req) = User.super_admin)
              || bool_decide (User.role (Auth.user req) = User.hospital_admin)
           then Sent o
           else Refused (Fail 500 "Failed to fetch test order"
                           TestOrderReads.nullReferenceMessage).
Proof.
  split; [|split].
  - intros o. unfold TestOrderReads.getOrder.
    destruct (testOrders db !! orderId) as [o'|]; [|done].
    case_scrutinees; intros [=]; by subst.
  - intros Hnone. unfold TestOrderReads.getOrder. by rewrite Hnone.
  - intros o Ho Hgone. unfold TestOrderReads.getOrder. by rewrite Ho, Hgone.
Qed.

Lemma getOrder_dangling_author_witness :
  TestOrderReads.getOrder Fixture.db0 Fixture.reqDoctorA Fixture.order1
  = Refused (Fail 404 "Not Found" "Test order not found").
Proof.
  apply (getOrder_dangling_author Fixture.db0 Fixture.reqDoctorA Fixture.order1).
  vm_compute. reflexivity.
Defined.

(** X22: the ready list of a department. Every order on the list that
    [GET /department/ready] sends is a stored order of the caller's
    department, is paid, passes [canUploadResult], and a result uploaded for
    it by the caller is accepted; the list and the pending list of the same
    caller share no order. The query asks for [paymentStatus: 'paid'], so an
    order whose payment is waived is never on the list, although results can
    be uploaded for it. *)
Theorem ready_list_is_uploadable (db : Db) (req : Auth.Req)
    (data : gmap ObjectId TestOrder.t) :
  TestOrderReads.departmentReady db req = Sent data →
  ∃ mine,
    Auth.departmentId req = Some mine
    ∧ (∀ id o, data !! id = Some o →
         testOrders db !! id = Some o
         ∧ TestOrder.departmentId o = mine
         ∧ TestOrder.paymentStatus o = TestOrder.paid
         ∧ TestOrder.canUploadResult o = true
         ∧ ∀ now b file,
             from_option TestOrderRoutes.isBoolean true (TestOrderRoutes.abnormalFlag b)
             = true →
             (TestOrderRoutes.uploadResult now db req id b file).2
             = Success 200 "Test result uploaded successfully")
    ∧ (∀ id o, testOrders db !! id = Some o →
               TestOrder.paymentStatus o = TestOrder.waived → data !! id = None)
    ∧ (∀ pending, TestOrderReads.departmentPending db req = Sent pending →
                  data ##ₘ pending).
Proof.
  unfold TestOrderReads.departmentReady, TestOrderReads.departmentPending.
  destruct (Auth.requireDepartmentStaff req) eqn:Hstaff; [|done].
  destruct (Auth.departmentId req) as [mine|] eqn:Hmine; [|done].
  intros [= <-]. exists mine. split; [done|].
  unfold TestOrderQueries.findReadyForUpload. split; [|split].
  - intros id o Hin. apply map_lookup_filter_Some in Hin as [Ho (Hd & Hp & Hs)].
    simpl in Hd, Hp, Hs.
    assert (Hcan : TestOrder.canUploadResult o = true).
    { apply canUploadResult_true. split; [by left|].
      rewrite !elem_of_cons, elem_of_nil in Hs. tauto. }
    do 4 (split; [done|]). intros now b file Hvalid.
    unfold TestOrderRoutes.uploadResult, TestOrder.uploadResult.
    rewrite Hstaff, Hvalid, Ho, Hmine, Hcan. simpl.
    by rewrite (bool_decide_eq_false_2 (TestOrder.departmentId o ≠ mine))
      by (intros H; by apply H).
  - intros id o Ho Hw. apply map_lookup_filter_None. right.
    intros o' Ho' (_ & Hp & _). simpl in Hp. congruence.
  - intros pending [= <-]. apply map_disjoint_spec. intros id o1 o2 H1 H2.
    apply map_lookup_filter_Some in H1 as [Ho1 (_ & Hp1 & _)].
    apply map_lookup_filter_Some in H2 as [Ho2 (_ & _ & Hp2)].
    simpl in *. congruence.
Qed.

Lemma ready_list_is_uploadable_witness :
  let dbPaid :=
    (TestOrderRoutes.markPaid 2000 Fixture.dbPending Scenario.reqPatientA Fixture.order1
       Fixture.cashPayment).1 in
  let ready := TestOrderQueries.findReadyForUpload Fixture.labA (testOrders dbPaid) in
  TestOrderReads.departmentReady dbPaid Fixture.reqLabStaffA = Sent ready
  ∧ is_Some (ready !! Fixture.order1)
  ∧ (TestOrderRoutes.uploadResult 4000 dbPaid Fixture.reqLabStaffA Fixture.order1
       Fixture.noResultFields None).2
    = Success 200 "Test result uploaded successfully".
Proof.
  intros dbPaid ready.
  assert (Hsent : TestOrderReads.departmentReady dbPaid Fixture.reqLabStaffA = Sent ready)
    by reflexivity.
  assert (Hin : is_Some (ready !! Fixture.order1)) by (vm_compute; eexists; reflexivity).
  destruct (ready_list_is_uploadable dbPaid Fixture.reqLabStaffA ready Hsent)
    as (mine & _ & Hall & _).
  split; [exact Hsent|]. split; [exact Hin|].
  destruct Hin as [o Ho]. destruct (Hall Fixture.order1 o Ho) as (_ & _ & _ & _ & Hup).
  apply Hup. reflexivity.
Defined.

(** ** Cancelling a test order *)

Section Cancelling.

(** No result is accepted for a cancelled order. *)
Lemma uploadResult_cancelled now db req orderId b file o :
  testOrders db !! orderId = Some o →
  TestOrder.status o = TestOrder.cancelled →
  ∃ status error message,
    TestOrderRoutes.uploadResult now db req orderId b file
    = (db, Fail status error message).
Proof.
  intros Ho Hs. unfold TestOrderRoutes.uploadResult.
  destruct (Auth.requireDepartmentStaff req) as [|[s e m|s m]] eqn:Hstaff.
  - destruct (negb (from_option _ _ _)); [eexists _, _, _; reflexivity|].
    rewrite Ho. destruct (Auth.departmentId req) as [mine|];
      [|eexists _, _, _; reflexivity].
    destruct (bool_decide (TestOrder.departmentId o ≠ mine));
      [eexists _, _, _; reflexivity|].
    assert (TestOrder.canUploadResult o = false) as ->.
    { unfold TestOrder.canUploadResult. rewrite Hs. simpl. apply andb_false_r. }
    eexists _, _, _; reflexivity.
  - eexists _, _, _; reflexivity.
  - unfold Auth.requireDepartmentStaff in Hstaff. by destruct (negb _).
Qed.

End Cancelling.

(** X23: who may cancel, and what a cancellation does. For a healthcare
    worker who gives a reason, the cancel route answers 403 unless the
    caller ordered the test or is a hospital admin (a super admin who did
    not order it is refused), and 400 for a completed order, both with the
    state unchanged. Otherwise the order is stored as cancelled with the
    date, the caller and the reason in its cancellation columns, every other
    column as before, and from then on every attempt to upload a result for
    it is refused and changes nothing. *)
Theorem cancel_stops_results (now : Time) (st : Workflow.State) (req : Auth.Req)
    (orderId : ObjectId) (why : string) (o : TestOrder.t) :
  Auth.requireHealthcareWorker req = Next →
  testOrders (Workflow.db st) !! orderId = Some o →
  let mayCancel :=
    TestOrder.orderedBy o = Auth.userId req
    ∨ User.role (Auth.user req) = User.hospital_admin in
  (¬ mayCancel →
   Workflow.cancel now st req orderId (Some why)
   = (st, Fail 403 "Forbidden" "You can only cancel your own orders"))
  ∧ (mayCancel → TestOrder.status o = TestOrder.completed →
     Workflow.cancel now st req orderId (Some why)
     = (st, Fail 400 "Invalid Status" "Cannot cancel completed test"))
  ∧ (mayCancel → TestOrder.status o ≠ TestOrder.completed →
     let cancelled := TestOrder.setStatus TestOrder.cancelled o in
     let st' :=
       Workflow.mkState
         (withTestOrders (Workflow.db st)
            (<[orderId := cancelled]> (testOrders (Workflow.db st))))
         (<[orderId := TestOrderQueries.mkCancellation now (Auth.userId req) why]>
            (Workflow.cancellations st)) in
     Workflow.cancel now st req orderId (Some why)
     = (st', Success 200 "Test order cancelled")
     ∧ ∀ later staff b file,
         ∃ status error message,
           TestOrderRoutes.uploadResult later (Workflow.db st') staff orderId b file
           = (Workflow.db st', Fail status error message)).
Proof.
  intros Hworker Ho mayCancel. unfold Workflow.cancel. rewrite Hworker, Ho.
  split; [|split].
  - intros Hnot.
    rewrite (bool_decide_eq_true_2 (TestOrder.orderedBy o ≠ Auth.userId req))
      by (intros E; apply Hnot; by left).
    by rewrite (bool_decide_eq_true_2 (User.role (Auth.user req) ≠ User.hospital_admin))
      by (intros E; apply Hnot; by right).
  - intros Hmay Hdone.
    assert (bool_decide (TestOrder.orderedBy o ≠ Auth.userId req)
            && bool_decide (User.role (Auth.user req) ≠ User.hospital_admin) = false) as ->.
    { destruct Hmay as [Hown | Hadmin].
      - by rewrite (bool_decide_eq_false_2 (_ ≠ _)) by (intros H; by apply H).
      - rewrite (bool_decide_eq_false_2 (User.role _ ≠ _)) by (intros H; by apply H).
        apply andb_false_r. }
    by rewrite (bool_decide_eq_true_2 _ Hdone).
  - intros Hmay Hopen.
    assert (bool_decide (TestOrder.orderedBy o ≠ Auth.userId req)
            && bool_decide (User.role (Auth.user req) ≠ User.hospital_admin) = false) as ->.
    { destruct Hmay as [Hown | Hadmin].
      - by rewrite (bool_decide_eq_false_2 (_ ≠ _)) by (intros H; by apply H).
      - rewrite (bool_decide_eq_false_2 (User.role _ ≠ _)) by (intros H; by apply H).
        apply andb_false_r. }
    rewrite (bool_decide_eq_false_2 _ Hopen). simpl.
    unfold TestOrderQueries.cancelOrder. rewrite save_same_paymentStatus by done.
    split; [done|]. intros later staff b file.
    apply (uploadResult_cancelled later _ staff orderId b file
             (TestOrder.setStatus TestOrder.cancelled o)); [|done].
    simpl. apply lookup_insert_eq.
Qed.

Lemma cancel_stops_results_witness :
  Workflow.cancel 1500 (Workflow.mkState Fixture.dbPending ∅) Fixture.reqSuperAdmin
    Fixture.order1 (Some "ordered twice")
  = (Workflow.mkState Fixture.dbPending ∅,
     Fail 403 "Forbidden" "You can only cancel your own orders").
Proof.
  apply (cancel_stops_results 1500 (Workflow.mkState Fixture.dbPending ∅)
           Fixture.reqSuperAdmin Fixture.order1 "ordered twice" Fixture.orderPending).
  - reflexivity.
  - vm_compute. reflexivity.
  - vm_compute. intros [H | H]; discriminate H.
Defined.

(** X24: a cancellation is not final. The start route does not look at the
    status and mark-paid resets it, so for a cancelled order the staff of its
    department can start the test again when the payment is paid or waived
    (the order is then in progress), and a hospital admin can mark an unpaid
    one as paid (the order is then ready for the test). *)
Theorem cancelled_order_can_be_revived (now : Time) (db : Db) (orderId : ObjectId)
    (o : TestOrder.t) :
  testOrders db !! orderId = Some o →
  TestOrder.status o = TestOrder.cancelled →
  (∀ staff,
     Auth.requireDepartmentStaff staff = Next →
     Auth.departmentId staff = Some (TestOrder.departmentId o) →
     TestOrder.paymentStatus o = TestOrder.paid
     ∨ TestOrder.paymentStatus o = TestOrder.waived →
     ∃ db', TestOrderRoutes.start db staff orderId
            = (db', Success 200 "Test marked as in progress")
            ∧ TestOrder.status <$> testOrders db' !! orderId = Some TestOrder.in_progress)
  ∧ (∀ admin b method,
       User.role (Auth.user admin) = User.hospital_admin →
       TestOrderRoutes.castMethod (TestOrderRoutes.paymentMethod b) = Some method →
       TestOrder.paymentStatus o ≠ TestOrder.paid →
       ∃ db', TestOrderRoutes.markPaid now db admin orderId b
              = (db', Success 200 "Payment confirmed successfully")
              ∧ TestOrder.status <$> testOrders db' !! orderId
                = Some TestOrder.ready_for_test).
Proof.
  intros Ho Hs. split.
  - intros staff Hstaff Hdept Hpay. unfold TestOrderRoutes.start.
    rewrite Hstaff, Ho, Hdept.
    rewrite (bool_decide_eq_false_2 (TestOrder.departmentId o ≠ TestOrder.departmentId o))
      by (intros H; by apply H).
    assert (bool_decide (TestOrder.paymentStatus o ≠ TestOrder.paid)
            && bool_decide (TestOrder.paymentStatus o ≠ TestOrder.waived) = false) as ->
      by (destruct Hpay as [-> | ->]; reflexivity).
    eexists. split; [reflexivity|]. simpl. rewrite lookup_insert_eq.
    by rewrite save_same_paymentStatus.
  - intros admin b method Hrole Hm Hunpaid. unfold TestOrderRoutes.markPaid.
    rewrite Hm, Ho, Hrole. simpl. rewrite (bool_decide_eq_false_2 _ Hunpaid).
    eexists. split; [reflexivity|]. simpl. rewrite lookup_insert_eq. simpl.
    f_equal. apply markAsPaid_status.
Qed.

Lemma cancelled_order_can_be_revived_witness :
  let cancelled :=
    (Workflow.cancel 1500 (Workflow.mkState Fixture.dbReady ∅) Fixture.reqDoctorA
       Fixture.order1 (Some "ordered twice")).1 in
  TestOrder.status <$> testOrders (Workflow.db cancelled) !! Fixture.order1
  = Some TestOrder.cancelled
  ∧ ∃ db', TestOrderRoutes.start (Workflow.db cancelled) Fixture.reqLabStaffA Fixture.order1
           = (db', Success 200 "Test marked as in progress")
           ∧ TestOrder.status <$> testOrders db' !! Fixture.order1
             = Some TestOrder.in_progress.
Proof.
  intros cancelled. split; [vm_compute; reflexivity|].
  destruct (cancelled_order_can_be_revived 0 (Workflow.db cancelled) Fixture.order1
              (TestOrder.setStatus TestOrder.cancelled Fixture.orderReady))
    as [Hstart _].
  - vm_compute. reflexivity.
  - reflexivity.
  - apply (Hstart Fixture.reqLabStaffA); [reflexivity | reflexivity | by right].
Defined.

(** ** Access comes from an approval only *)

Section NoNewAccess.

Import SharingRecords.

Lemma store_elem_inv id d (coll : list (ObjectId * Doc)) r :
  r ∈ cores (store id d coll) → r = core d ∨ r ∈ cores coll.
Proof.
  unfold cores, store. rewrite <- list_fmap_compose.
  intros Hin. apply list_elem_of_fmap in Hin as (e & -> & Hin). simpl.
  case_bool_decide; [by left|]. right.
  apply list_elem_of_fmap. by exists e.
Qed.

(** Access that holds in a ledger whose records are all, but for records
    that grant nothing, records of an earlier ledger held there too. *)
Lemma canAccess_from_earlier now (before after : list HospitalSharing.t) a b :
  HospitalSharing.uniqueIndex before →
  (∀ r, r ∈ after → HospitalSharing.status r = HospitalSharing.approved → r ∈ before) →
  HospitalSharing.canAccess now after a b = true →
  HospitalSharing.canAccess now before a b = true.
Proof.
  intros Huniq Hsub Hcan. apply canAccess_grant in Hcan as (r & Hin & Hgrant).
  apply (grant_canAccess now before a b r); [done| |done].
  apply Hsub; [done|]. apply Hgrant.
Qed.

End NoNewAccess.

(** X25: no route but the approval gives access. Under the unique index,
    whenever [canAccess] holds for a pair of hospitals after a sharing
    request, a rejection, a revocation or a cancellation, it held for that
    pair before: these four routes never create access, whoever calls them
    and whatever they are sent. *)
Theorem only_approval_grants_access (now later : Time) (db : Db)
    (coll : list (ObjectId * SharingRecords.Doc)) (req : Auth.Req)
    (rb : HospitalSharingRoutes.RequestBody) (id : ObjectId) (reason : option string)
    (a b : ObjectId) :
  HospitalSharing.uniqueIndex (hospitalSharings db) →
  HospitalSharing.uniqueIndex (SharingRecords.cores coll) →
  (HospitalSharing.canAccess later
     (hospitalSharings (HospitalSharingRoutes.request now db req rb).1) a b = true →
   HospitalSharing.canAccess later (hospitalSharings db) a b = true)
  ∧ (HospitalSharing.canAccess later
       (SharingRecords.cores (SharingAdminRoutes.reject now coll req id reason).1) a b
     = true →
     HospitalSharing.canAccess later (SharingRecords.cores coll) a b = true)
  ∧ (HospitalSharing.canAccess later
       (SharingRecords.cores (SharingAdminRoutes.revoke now coll req id reason).1) a b
     = true →
     HospitalSharing.canAccess later (SharingRecords.cores coll) a b = true)
  ∧ (HospitalSharing.canAccess later
       (SharingRecords.cores (SharingAdminRoutes.cancel coll req id).1) a b = true →
     HospitalSharing.canAccess later (SharingRecords.cores coll) a b = true).
Proof.
  intros Hdb Hcoll. split; [|split; [|split]].
  - apply canAccess_from_earlier; [done|]. intros r Hin Happroved.
    unfold HospitalSharingRoutes.request in Hin.
    destruct (Auth.requireHospitalAdmin req); [|done].
    destruct (HospitalSharingRoutes.targetHospitalId rb); [|done].
    destruct (HospitalSharingRoutes.requestReason rb); [|done].
    destruct (Auth.hospitalId req); [|done].
    destruct (bool_decide (_ = _)); [done|].
    destruct (castObjectId _); [|done].
    destruct (hospitals db !! _); [|done].
    destruct (bool_decide (_ ≠ _)); [done|].
    destruct (HospitalSharing.findOne _ _); [done|].
    destruct (HospitalSharingRoutes.castScope _); [|done].
    simpl in Hin. apply elem_of_app in Hin as [Hin | Hin]; [done|].
    apply list_elem_of_singleton in Hin. subst r. discriminate Happroved.
  - apply canAccess_from_earlier; [done|]. intros r Hin Happroved.
    unfold SharingAdminRoutes.reject in Hin.
    destruct (Auth.requireSuperAdmin req); [|done].
    destruct reason as [why|]; [|done].
    destruct (SharingRecords.findById id coll) as [sharing|]; [|done].
    destruct (bool_decide (_ ≠ _)); [done|]. simpl in Hin.
    apply store_elem_inv in Hin as [-> | Hin]; [|done].
    unfold SharingRecords.reject, SharingRecords.save in Happroved. simpl in Happroved.
    rewrite preSave_status in Happroved. discriminate Happroved.
  - apply canAccess_from_earlier; [done|]. intros r Hin Happroved.
    unfold SharingAdminRoutes.revoke in Hin.
    destruct (Auth.requireSuperAdmin req); [|done].
    destruct reason as [why|]; [|done].
    destruct (SharingRecords.findById id coll) as [sharing|]; [|done].
    destruct (bool_decide (_ ≠ _)); [done|]. simpl in Hin.
    apply store_elem_inv in Hin as [-> | Hin]; [|done].
    unfold SharingRecords.revoke, SharingRecords.save in Happroved. simpl in Happroved.
    rewrite preSave_status in Happroved. discriminate Happroved.
  - apply canAccess_from_earlier; [done|]. intros r Hin _.
    unfold SharingAdminRoutes.cancel in Hin.
    destruct (Auth.requireHospitalAdmin req); [|done].
    destruct (SharingRecords.findById id coll) as [sharing|]; [|done].
    destruct (Auth.hospitalId req); [|done].
    destruct (bool_decide (_ ≠ _)); [done|].
    destruct (bool_decide (_ ≠ _)); [done|]. simpl in Hin.
    by apply (deleteOne_subset id coll).
Qed.

Lemma only_approval_grants_access_witness :
  (HospitalSharingRoutes.request 1000 Fixture.dbShared Fixture.reqAdminA
     (Fixture.askFor Fixture.hospitalC)).2
  = Success 201 "Sharing request submitted successfully"
  ∧ (HospitalSharing.canAccess 5000
       (hospitalSharings
          (HospitalSharingRoutes.request 1000 Fixture.dbShared Fixture.reqAdminA
             (Fixture.askFor Fixture.hospitalC)).1)
       Fixture.hospitalA Fixture.hospitalC = true →
     HospitalSharing.canAccess 5000 (hospitalSharings Fixture.dbShared)
       Fixture.hospitalA Fixture.hospitalC = true).
Proof.
  split; [vm_compute; reflexivity|].
  apply (only_approval_grants_access 1000 5000 Fixture.dbShared Scenario.ledger
           Fixture.reqAdminA (Fixture.askFor Fixture.hospitalC) Scenario.sharing1 None
           Fixture.hospitalA Fixture.hospitalC).
  - unfold HospitalSharing.uniqueIndex. simpl. apply NoDup_singleton.
  - unfold HospitalSharing.uniqueIndex. simpl. apply NoDup_singleton.
Defined.

(** ** Spellings of an id in a sharing request *)

(** X26: the self-sharing test of the request route compares strings. A
    hospital admin who sends the id of their own hospital in a spelling
    that is not the one [toString()] prints (hexadecimal digits in upper
    case) passes the test; the queries cast the string, so when the
    hospital is approved and the ledger has no record from the hospital to
    itself, the request is accepted and a pending record whose requesting
    and target hospital are both the caller's own is stored. *)
Theorem request_own_id_in_another_spelling (now : Time) (db : Db) (req : Auth.Req)
    (b : HospitalSharingRoutes.RequestBody) (sent reason : string) (mine : ObjectId)
    (own : Hospital.t) (sc : HospitalSharing.Scope) :
  Auth.requireHospitalAdmin req = Next →
  HospitalSharingRoutes.targetHospitalId b = Some sent →
  HospitalSharingRoutes.requestReason b = Some reason →
  Auth.hospitalId req = Some mine →
  sent ≠ mine → castObjectId sent = Some mine →
  hospitals db !! mine = Some own →
  Hospital.approvalStatus own = Hospital.Approval.approved →
  (∀ existing, existing ∈ hospitalSharings db →
               HospitalSharing.pairKey existing ≠ (mine, mine)) →
  HospitalSharingRoutes.castScope (default "full" (HospitalSharingRoutes.scope b))
  = Some sc →
  HospitalSharingRoutes.request now db req b
  = (withHospitalSharings db
       (hospitalSharings db
        ++ [HospitalSharing.mk mine mine HospitalSharing.pending sc
              (default [] (HospitalSharingRoutes.specificPatients b))
              None true reason (Auth.userId req) now]),
     Success 201 "Sharing request submitted successfully").
Proof.
  intros Hadmin Hsent Hreason Hmine Hne Hcast Hown Happr Hnone Hsc.
  unfold HospitalSharingRoutes.request.
  rewrite Hadmin, Hsent, Hreason, Hmine.
  rewrite bool_decide_eq_false_2 by done. rewrite Hcast, Hown.
  rewrite bool_decide_eq_false_2 by (intros H; by apply H).
  destruct (HospitalSharing.findOne _ _) as [found|] eqn:Hf.
  - apply findOne_Some in Hf as [Hin Hflt]. apply pairFilter_true in Hflt as [Hr Ht].
    destruct (Hnone found Hin). unfold HospitalSharing.pairKey. by rewrite Hr, Ht.
  - by rewrite Hsc.
Qed.

Lemma request_own_id_in_another_spelling_witness :
  castObjectId "65A1F0000000000000000A01" = Some Fixture.hospitalA
  ∧ HospitalSharingRoutes.request 1000 Fixture.db0 Fixture.reqAdminA
      (HospitalSharingRoutes.mkRequest (Some "65A1F0000000000000000A01")
         (Some "second opinions") None None)
    = (withHospitalSharings Fixture.db0
         [HospitalSharing.mk Fixture.hospitalA Fixture.hospitalA HospitalSharing.pending
            HospitalSharing.full [] None true "second opinions" Fixture.adminA 1000],
       Success 201 "Sharing request submitted successfully").
Proof.
  split; [vm_compute; reflexivity|].
  apply (request_own_id_in_another_spelling 1000 Fixture.db0 Fixture.reqAdminA
           (HospitalSharingRoutes.mkRequest (Some "65A1F0000000000000000A01")
              (Some "second opinions") None None)
           "65A1F0000000000000000A01" "second opinions" Fixture.hospitalA
           Fixture.usable HospitalSharing.full).
  - reflexivity.
  - reflexivity.
  - reflexivity.
  - reflexivity.
  - discriminate.
  - vm_compute. reflexivity.
  - vm_compute. reflexivity.
  - reflexivity.
  - intros existing Hin. vm_compute in Hin. by apply elem_of_nil in Hin.
  - reflexivity.
Defined.

(** ** The routes that change an order and the sharing ledger *)

(** X27: the routes that change an existing test order never read the
    sharing ledger. Whatever sharing records the database holds, the start,
    upload-result, mark-paid and cancel routes give the same answer and
    store the same orders: a sharing grant authorizes none of them, unlike
    the creation of an order. *)
Theorem update_routes_ignore_the_ledger (now : Time) (db : Db)
    (ledger : list HospitalSharing.t) (req : Auth.Req) (orderId : ObjectId)
    (ub : TestOrderRoutes.UploadBody) (file : option TestOrderRoutes.UploadedFile)
    (pb : TestOrderRoutes.PayBody)
    (cancellations : gmap ObjectId TestOrderQueries.Cancellation)
    (reason : option string) :
  let seen := withHospitalSharings db ledger in
  let again (answer : Db * Response) := (withHospitalSharings answer.1 ledger, answer.2) in
  TestOrderRoutes.start seen req orderId = again (TestOrderRoutes.start db req orderId)
  ∧ TestOrderRoutes.uploadResult now seen req orderId ub file
    = again (TestOrderRoutes.uploadResult now db req orderId ub file)
  ∧ TestOrderRoutes.markPaid now seen req orderId pb
    = again (TestOrderRoutes.markPaid now db req orderId pb)
  ∧ Workflow.cancel now (Workflow.mkState seen cancellations) req orderId reason
    = let answer :=
        Workflow.cancel now (Workflow.mkState db cancellations) req orderId reason in
      (Workflow.mkState (withHospitalSharings (Workflow.db answer.1) ledger)
         (Workflow.cancellations answer.1),
       answer.2).
Proof.
  simpl. split; [|split; [|split]].
  - unfold TestOrderRoutes.start. simpl. repeat case_match; done.
  - unfold TestOrderRoutes.uploadResult. simpl. repeat case_match; done.
  - unfold TestOrderRoutes.markPaid. simpl. repeat case_match; done.
  - unfold Workflow.cancel. simpl. repeat case_match; done.
Qed.
